(** * Topology Doctor: the analysis and focus operators of [__init__.py]

    A shallow embedding of the add-on's two operators

      - [MESH_OT_AnalyzeTopo.execute]  (the analysis engine), and
      - [MESH_OT_FocusIssue.execute]   (the interactive selector),

    and of the layout that [VIEW3D_PT_TopoDoctorPanel.draw] builds from
    what they store, over an explicit model of the host state they read and write: the
    scene properties [topo_report_list] and [topo_stats], the active
    object with its mode and mesh data, the operator reports, and the
    BMesh copies that are alive.

    Python values are modelled the way the interpreter has them:
    integers are [Z], [float] is IEEE-754 binary64 through the
    executable specification [SpecFloat] of the core library, a string
    is a [string] whose characters are the code points below 256, and
    an exception is a value of [PyExc] threaded through a
    state-and-exception monad. *)

From Stdlib Require Import ZArith List String Ascii Bool Lia PeanoNat Sorted.
From Stdlib Require Import DecimalString DecimalZ DecimalN DecimalPos.
From Stdlib Require Import QArith Qminmax Qround.
From Corelib Require Import SpecFloat.
Import ListNotations.

Local Open Scope string_scope.
Local Open Scope Z_scope.

(* ================================================================== *)
(** * Python primitives                                                 *)
(* ================================================================== *)

Module Py.

(** ** Exceptions

    The exception classes that the two operators can meet. *)
Inductive PyExc : Type :=
| IndexError
| ValueError
| ZeroDivisionError
| OverflowError
| AttributeError
| TypeError
| RuntimeError.

(** A computation that only reads: a value or a raised exception. *)
Definition exc (A : Type) : Type := (PyExc + A)%type.

Definition exc_bind {A B : Type} (m : exc A) (k : A -> exc B) : exc B :=
  match m with
  | inl e => inl e
  | inr a => k a
  end.

(** ** Sequences: [len], subscripting and slicing *)

Definition len {A : Type} (l : list A) : Z := Z.of_nat (List.length l).

(** [l[i]] for a Python list, a [bpy_prop_collection] or a BMesh element
    sequence: a negative subscript counts from the end, and a subscript
    outside [-len, len) raises [IndexError].  The result is the position
    that is read. *)
Definition subscript_pos (n : nat) (i : Z) : option nat :=
  if (0 <=? i) && (i <? Z.of_nat n) then Some (Z.to_nat i)
  else if (i <? 0) && (- Z.of_nat n <=? i) then Some (Z.to_nat (Z.of_nat n + i))
  else None.

Definition subscript {A : Type} (l : list A) (i : Z) : exc A :=
  match subscript_pos (List.length l) i with
  | Some p =>
      match nth_error l p with
      | Some a => inr a
      | None => inl IndexError
      end
  | None => inl IndexError
  end.

(** [enumerate(l)]: every element with its position.  A BMesh built by
    [from_mesh] numbers its elements by their position in the table, so
    this is also how [f.index] is read while a table is traversed. *)
Definition enumerate {A : Type} (l : list A) : list (nat * A) :=
  combine (seq 0 (List.length l)) l.

(** ** Strings: [str(int)], [int(str)], [split] and [join] *)

(** [str(z)] for an integer. *)
Definition str (z : Z) : string := NilZero.string_of_int (Z.to_int z).

Definition str_nat (n : nat) : string := str (Z.of_nat n).

(** White space as [int()] sees it: on ASCII text the code points
    9..13 and 32 and no other (28..31, which [str.strip] drops, are
    not among them); of the code points from 128 to 255 the two spaces
    U+0085 and U+00A0. *)
Definition is_space (c : ascii) : bool :=
  let n := nat_of_ascii c in
  (((9 <=? n) && (n <=? 13)) || (n =? 32) || (n =? 133) || (n =? 160))%nat.

Definition digit_val (c : ascii) : option Z :=
  let n := nat_of_ascii c in
  if ((48 <=? n) && (n <=? 57))%nat then Some (Z.of_nat (n - 48)) else None.

Fixpoint lstrip (s : string) : string :=
  match s with
  | EmptyString => EmptyString
  | String c r => if is_space c then lstrip r else s
  end.

Fixpoint rstrip (s : string) : string :=
  match s with
  | EmptyString => EmptyString
  | String c r =>
      match rstrip r with
      | EmptyString => if is_space c then EmptyString else String c EmptyString
      | r' => String c r'
      end
  end.

Definition strip (s : string) : string := rstrip (lstrip s).

(** The digits that follow a first digit; a single underscore may stand
    between two digits. *)
Fixpoint digits_acc (acc : Z) (s : string) : option Z :=
  match s with
  | EmptyString => Some acc
  | String c r =>
      match digit_val c with
      | Some d => digits_acc (10 * acc + d) r
      | None =>
          if Ascii.eqb c "_" then
            match r with
            | String c' r' =>
                match digit_val c' with
                | Some d => digits_acc (10 * acc + d) r'
                | None => None
                end
            | EmptyString => None
            end
          else None
      end
  end.

Definition parse_digits (s : string) : option Z :=
  match s with
  | EmptyString => None
  | String c r =>
      match digit_val c with
      | Some d => digits_acc d r
      | None => None
      end
  end.

(** The number of digits in a text, and the most that [int()] reads:
    [sys.get_int_max_str_digits()], 4300 unless it is set otherwise. *)
Fixpoint count_digits (s : string) : Z :=
  match s with
  | EmptyString => 0
  | String c r =>
      match digit_val c with
      | Some _ => 1 + count_digits r
      | None => count_digits r
      end
  end.

Definition max_str_digits : Z := 4300.

(** [int(s)] in base ten: surrounding white space is dropped, one sign
    is allowed, and anything else raises [ValueError]; so does a
    numeral of more than [max_str_digits] digits. *)
Definition int (s : string) : exc Z :=
  let body :=
    match strip s with
    | String "+" r => parse_digits r
    | String "-" r => option_map Z.opp (parse_digits r)
    | t => parse_digits t
    end in
  if max_str_digits <? count_digits (strip s) then inl ValueError
  else
    match body with
    | Some z => inr z
    | None => inl ValueError
    end.

(** [s.split(sep)] for a one-character separator. *)
Fixpoint split (sep : ascii) (s : string) : list string :=
  match s with
  | EmptyString => [EmptyString]
  | String c r =>
      if Ascii.eqb c sep then EmptyString :: split sep r
      else
        match split sep r with
        | h :: t => String c h :: t
        | [] => [String c EmptyString]
        end
  end.

(** [sep.join(l)]. *)
Definition join (sep : string) (l : list string) : string :=
  String.concat sep l.

(** [[f(x) for x in l]] where [f] may raise: the first exception wins. *)
Fixpoint map_exc {A B : Type} (f : A -> exc B) (l : list A) : exc (list B) :=
  match l with
  | [] => inr []
  | a :: r =>
      exc_bind (f a) (fun b =>
      exc_bind (map_exc f r) (fun bs => inr (b :: bs)))
  end.

(** ** Floats: IEEE-754 binary64 *)

Definition prec : Z := 53.
Definition emax : Z := 1024.

Definition float : Type := spec_float.

(** [float(z)]; exact for |z| < 2^53, which covers every length of an
    element table of the host (a C [int]). *)
Definition float_of_int (z : Z) : float := binary_normalize prec emax z 0 false.

Definition fsub (x y : float) : float := SFsub prec emax x y.
Definition fmul (x y : float) : float := SFmul prec emax x y.
Definition flt (x y : float) : bool := SFltb x y.

Definition is_zero (x : float) : bool :=
  match x with
  | S754_zero _ => true
  | _ => false
  end.

(** [x / y] on floats: a zero divisor raises. *)
Definition truediv (x y : float) : exc float :=
  if is_zero y then inl ZeroDivisionError else inr (SFdiv prec emax x y).

(** [a / b] on integers (true division). *)
Definition int_truediv (a b : Z) : exc float :=
  if b =? 0 then inl ZeroDivisionError
  else inr (SFdiv prec emax (float_of_int a) (float_of_int b)).

(** A number: the operators mix [int] and [float] in [min] and [max]. *)
Inductive num : Type :=
| NInt (z : Z)
| NFloat (f : float).

Definition to_float (a : num) : float :=
  match a with
  | NInt z => float_of_int z
  | NFloat f => f
  end.

(** [a < b]; between two integers it is the order of [Z]. *)
Definition num_lt (a b : num) : bool :=
  match a, b with
  | NInt x, NInt y => x <? y
  | _, _ => flt (to_float a) (to_float b)
  end.

(** [min(a, b)] and [max(a, b)] with two arguments: the first one is
    kept unless the second is strictly smaller (resp. greater). *)
Definition min2 (a b : num) : num := if num_lt b a then b else a.
Definition max2 (a b : num) : num := if num_lt a b then b else a.

(** [int(x)] on a float truncates towards zero and raises on an
    infinity or a NaN. *)
Definition float_trunc (x : float) : exc Z :=
  match x with
  | S754_zero _ => inr 0
  | S754_finite s m e => inr (cond_Zopp s (Z.shiftl (Zpos m) e))
  | S754_infinity _ => inl OverflowError
  | S754_nan => inl ValueError
  end.

Definition int_of_num (a : num) : exc Z :=
  match a with
  | NInt z => inr z
  | NFloat f => float_trunc f
  end.

(** [min(l)] and [max(l)] on a list of floats: the first element is the
    candidate, and a later one replaces it when it compares strictly
    smaller (resp. greater); an empty list raises [ValueError]. *)
Definition min_from (x : float) (l : list float) : float :=
  fold_left (fun best item => if flt item best then item else best) l x.

Definition max_from (x : float) (l : list float) : float :=
  fold_left (fun best item => if flt best item then item else best) l x.

Definition min_list (l : list float) : exc float :=
  match l with
  | [] => inl ValueError
  | x :: r => inr (min_from x r)
  end.

Definition max_list (l : list float) : exc float :=
  match l with
  | [] => inl ValueError
  | x :: r => inr (max_from x r)
  end.

End Py.

(* ================================================================== *)
(** * The host's data                                                   *)
(* ================================================================== *)

(** ** BMesh

    The element tables of a BMesh.  An element is known by its position
    in its table; adjacency is kept as positions in the other tables.
    [e_is_manifold] and [e_length] are what the host answers for
    [e.is_manifold] and [e.calc_length()].  Every element has the two
    flags [select] and [hide]. *)

Record BMVert : Type := {
  v_select : bool;
  v_hide : bool;
  v_link_edges : list nat
}.

Record BMEdge : Type := {
  e_select : bool;
  e_hide : bool;
  e_verts : list nat;
  e_is_manifold : bool;
  e_length : Py.float
}.

Record BMFace : Type := {
  f_select : bool;
  f_hide : bool;
  f_verts : list nat;
  f_edges : list nat
}.

Inductive ElemKind : Type := KVert | KEdge | KFace.

Record BMesh : Type := {
  bm_verts : list BMVert;
  bm_edges : list BMEdge;
  bm_faces : list BMFace;
  bm_select_history : list (ElemKind * nat)
}.

(** [f.edges]: the edges of the table that the face names (a BMesh has
    no dangling reference; one would be skipped here). *)
Definition face_edges (bm : BMesh) (f : BMFace) : list BMEdge :=
  flat_map (fun i => match nth_error (bm_edges bm) i with
                     | Some e => [e]
                     | None => []
                     end) (f_edges f).

(** ** Objects, scene properties and the state of the host *)

Inductive ObjectType : Type :=
| MESH | CURVE | SURFACE | META | FONT | ARMATURE | LATTICE | EMPTY
| LIGHT | CAMERA.

Definition is_mesh_type (t : ObjectType) : bool :=
  match t with
  | MESH => true
  | _ => false
  end.

Inductive Mode : Type :=
| OBJECT | EDIT | SCULPT | VERTEX_PAINT | WEIGHT_PAINT | TEXTURE_PAINT.

(** The modes that an object of a type can be put in: every object has
    the object mode, the types with editable data have the edit mode,
    and sculpting and painting are for meshes. *)
Definition supports_mode (t : ObjectType) (m : Mode) : bool :=
  match m with
  | OBJECT => true
  | EDIT =>
      match t with
      | MESH | CURVE | SURFACE | META | FONT | ARMATURE | LATTICE => true
      | EMPTY | LIGHT | CAMERA => false
      end
  | SCULPT | VERTEX_PAINT | WEIGHT_PAINT | TEXTURE_PAINT =>
      match t with
      | MESH => true
      | _ => false
      end
  end.

Definition mode_eqb (a b : Mode) : bool :=
  match a, b with
  | OBJECT, OBJECT | EDIT, EDIT | SCULPT, SCULPT
  | VERTEX_PAINT, VERTEX_PAINT | WEIGHT_PAINT, WEIGHT_PAINT
  | TEXTURE_PAINT, TEXTURE_PAINT => true
  | _, _ => false
  end.

Record Object : Type := {
  obj_name : string;
  obj_type : ObjectType;
  obj_mode : Mode;
  obj_data : BMesh
}.

(** [TopoIssueItem]: one issue of the report. *)
Record TopoIssueItem : Type := {
  severity : string;
  name : string;
  description : string;
  element_indices : string;
  element_type : string;
  current_pointer : Z
}.

(** [TopoStats]: the global statistics. *)
Record TopoStats : Type := {
  vert_count : Z;
  face_count : Z;
  tri_count : Z;
  ngon_count : Z;
  score : Z;
  target_name : string
}.

Inductive ReportLevel : Type := INFO | WARNING | ERROR.

(** What an operator returns. *)
Inductive OpResult : Type := FINISHED | CANCELLED.

(** What the operators can see and change: the two scene properties,
    the active object, the reports sent with [self.report] (oldest
    first), the BMesh copies made with [bmesh.new()] that are not freed
    yet (newest first), and the number of [view3d.view_selected] calls. *)
Record World : Type := {
  topo_report_list : list TopoIssueItem;
  topo_stats : TopoStats;
  active_object : option Object;
  reports : list (ReportLevel * string);
  bmeshes : list BMesh;
  view_selected_calls : nat
}.

(* ================================================================== *)
(** * The operator monad: state and exceptions                          *)
(* ================================================================== *)

Definition M (A : Type) : Type := World -> Py.exc A * World.

Definition ret {A : Type} (a : A) : M A := fun w => (inr a, w).

Definition bind {A B : Type} (m : M A) (k : A -> M B) : M B :=
  fun w =>
    match m w with
    | (inl e, w') => (inl e, w')
    | (inr a, w') => k a w'
    end.

Definition raise {A : Type} (e : Py.PyExc) : M A := fun w => (inl e, w).

(** A read-only computation inside an operator. *)
Definition lift {A : Type} (c : Py.exc A) : M A := fun w => (c, w).

(** [try: body / except: ...]: the outcome of [body] as a value. *)
Definition try {A : Type} (body : M A) : M (Py.exc A) :=
  fun w => let '(r, w') := body w in (inr r, w').

Definition get : M World := fun w => (inr w, w).
Definition modify (f : World -> World) : M unit := fun w => (inr tt, f w).

Declare Scope op_scope.
Delimit Scope op_scope with op.
Notation "x <- c1 ;; c2" := (bind c1 (fun x => c2))
  (at level 61, c1 at next level, right associativity) : op_scope.
Notation "c1 ;; c2" := (bind c1 (fun _ => c2))
  (at level 61, right associativity) : op_scope.
Local Open Scope op_scope.

Definition when (b : bool) (c : M unit) : M unit := if b then c else ret tt.

(** ** Writes to the state *)

Definition set_report_list (l : list TopoIssueItem) (w : World) : World :=
  {| topo_report_list := l;
     topo_stats := topo_stats w;
     active_object := active_object w;
     reports := reports w;
     bmeshes := bmeshes w;
     view_selected_calls := view_selected_calls w |}.

Definition set_stats (s : TopoStats) (w : World) : World :=
  {| topo_report_list := topo_report_list w;
     topo_stats := s;
     active_object := active_object w;
     reports := reports w;
     bmeshes := bmeshes w;
     view_selected_calls := view_selected_calls w |}.

Definition set_active_object (o : option Object) (w : World) : World :=
  {| topo_report_list := topo_report_list w;
     topo_stats := topo_stats w;
     active_object := o;
     reports := reports w;
     bmeshes := bmeshes w;
     view_selected_calls := view_selected_calls w |}.

Definition set_reports (r : list (ReportLevel * string)) (w : World) : World :=
  {| topo_report_list := topo_report_list w;
     topo_stats := topo_stats w;
     active_object := active_object w;
     reports := r;
     bmeshes := bmeshes w;
     view_selected_calls := view_selected_calls w |}.

Definition set_bmeshes (b : list BMesh) (w : World) : World :=
  {| topo_report_list := topo_report_list w;
     topo_stats := topo_stats w;
     active_object := active_object w;
     reports := reports w;
     bmeshes := b;
     view_selected_calls := view_selected_calls w |}.

Definition set_view_selected_calls (n : nat) (w : World) : World :=
  {| topo_report_list := topo_report_list w;
     topo_stats := topo_stats w;
     active_object := active_object w;
     reports := reports w;
     bmeshes := bmeshes w;
     view_selected_calls := n |}.

Definition with_mode (m : Mode) (o : Object) : Object :=
  {| obj_name := obj_name o; obj_type := obj_type o;
     obj_mode := m; obj_data := obj_data o |}.

Definition with_data (d : BMesh) (o : Object) : Object :=
  {| obj_name := obj_name o; obj_type := obj_type o;
     obj_mode := obj_mode o; obj_data := d |}.

(** ** Host operations *)

(** [self.report({level}, msg)]. *)
Definition report (level : ReportLevel) (msg : string) : M unit :=
  modify (fun w => set_reports (reports w ++ [(level, msg)]) w).

(** [bpy.ops.object.mode_set(mode=m)] on the active object.  Without
    an active object the operator cannot run ([RuntimeError]); a mode
    that the type of the object does not have is not a value of the
    [mode] argument ([TypeError]), and the object stays as it is. *)
Definition mode_set (m : Mode) : M unit :=
  w <- get ;;
  match active_object w with
  | None => raise Py.RuntimeError
  | Some obj =>
      if supports_mode (obj_type obj) m
      then modify (set_active_object (Some (with_mode m obj)))
      else raise Py.TypeError
  end.

(** [bm = bmesh.new(); bm.from_mesh(data)]: a private copy. *)
Definition bmesh_new_from_mesh (data : BMesh) : M BMesh :=
  fun w => (inr data, set_bmeshes (data :: bmeshes w) w).

(** [bm.free()] on the newest copy. *)
Definition bmesh_free : M unit :=
  modify (fun w => set_bmeshes (tl (bmeshes w)) w).

(** [bpy.ops.view3d.view_selected(use_all_regions=False)]. *)
Definition view_selected : M unit :=
  modify (fun w => set_view_selected_calls (S (view_selected_calls w)) w).

(* ================================================================== *)
(** * The analysis engine: [MESH_OT_AnalyzeTopo]                        *)
(* ================================================================== *)

(** [add_issue]: a new item at the end of the report list. *)
Definition add_issue (sev nm descr indices type_name : string) : M unit :=
  modify (fun w =>
    set_report_list
      (topo_report_list w ++
       [{| severity := sev; name := nm; description := descr;
           element_indices := indices; element_type := type_name;
           current_pointer := 0 |}]) w).

Definition with_target_name (s : string) (t : TopoStats) : TopoStats :=
  {| vert_count := vert_count t; face_count := face_count t;
     tri_count := tri_count t; ngon_count := ngon_count t;
     score := score t; target_name := s |}.

Definition with_vert_count (n : Z) (t : TopoStats) : TopoStats :=
  {| vert_count := n; face_count := face_count t;
     tri_count := tri_count t; ngon_count := ngon_count t;
     score := score t; target_name := target_name t |}.

Definition with_face_count (n : Z) (t : TopoStats) : TopoStats :=
  {| vert_count := vert_count t; face_count := n;
     tri_count := tri_count t; ngon_count := ngon_count t;
     score := score t; target_name := target_name t |}.

Definition with_tri_count (n : Z) (t : TopoStats) : TopoStats :=
  {| vert_count := vert_count t; face_count := face_count t;
     tri_count := n; ngon_count := ngon_count t;
     score := score t; target_name := target_name t |}.

Definition with_ngon_count (n : Z) (t : TopoStats) : TopoStats :=
  {| vert_count := vert_count t; face_count := face_count t;
     tri_count := tri_count t; ngon_count := n;
     score := score t; target_name := target_name t |}.

Definition with_score (n : Z) (t : TopoStats) : TopoStats :=
  {| vert_count := vert_count t; face_count := face_count t;
     tri_count := tri_count t; ngon_count := ngon_count t;
     score := n; target_name := target_name t |}.

Definition modify_stats (f : TopoStats -> TopoStats) : M unit :=
  modify (fun w => set_stats (f (topo_stats w)) w).

(** The four tests of the checks. *)
Definition is_tri (f : BMFace) : bool := Py.len (f_verts f) =? 3.
Definition is_ngon (f : BMFace) : bool := 4 <? Py.len (f_verts f).
Definition is_bad_edge (e : BMEdge) : bool := negb (e_is_manifold e).
Definition is_pole (v : BMVert) : bool := 5 <? Py.len (v_link_edges v).

(** The test of the sliver loop:
    [len(f.edges) > 2], then
    [min(lengths) > 0 and (max(lengths) / min(lengths)) > 15]. *)
Definition is_sliver (bm : BMesh) (f : BMFace) : Py.exc bool :=
  let es := face_edges bm f in
  if 2 <? Py.len es then
    let lengths := map e_length es in
    Py.exc_bind (Py.min_list lengths) (fun mn =>
    if Py.num_lt (Py.NInt 0) (Py.NFloat mn) then
      Py.exc_bind (Py.max_list lengths) (fun mx =>
      Py.exc_bind (Py.min_list lengths) (fun mn' =>
      Py.exc_bind (Py.truediv mx mn') (fun q =>
      inr (Py.num_lt (Py.NInt 15) (Py.NFloat q)))))
    else inr false)
  else inr false.

(** A loop that appends the elements passing a test that may raise. *)
Fixpoint filter_exc {A : Type} (p : A -> Py.exc bool) (l : list A)
  : Py.exc (list A) :=
  match l with
  | [] => inr []
  | a :: r =>
      Py.exc_bind (p a) (fun b =>
      Py.exc_bind (filter_exc p r) (fun r' =>
      inr (if b then a :: r' else r')))
  end.

(** The elements of a table that pass a test, each with its index. *)
Definition flagged {A : Type} (p : A -> bool) (table : list A) : list (nat * A) :=
  filter (fun x => p (snd x)) (Py.enumerate table).

(** [",".join([str(x.index) for x in found[:200]])]. *)
Definition indices_str {A : Type} (found : list (nat * A)) : string :=
  Py.join "," (map (fun x => Py.str_nat (fst x)) (firstn 200 found)).

Definition nonempty {A : Type} (l : list A) : bool :=
  match l with
  | [] => false
  | _ :: _ => true
  end.

Definition analyze_execute : M OpResult :=
  modify (set_report_list []) ;;
  w0 <- get ;;
  match active_object w0 with
  | None =>
      report ERROR "Please select a Mesh object." ;;
      ret CANCELLED
  | Some obj =>
      if negb (is_mesh_type (obj_type obj)) then
        report ERROR "Please select a Mesh object." ;;
        ret CANCELLED
      else
        modify_stats (with_target_name (obj_name obj)) ;;
        (* Switch to Object mode for clean reading *)
        let previous_mode := obj_mode obj in
        when (negb (mode_eqb previous_mode OBJECT)) (mode_set OBJECT) ;;
        bm <- bmesh_new_from_mesh (obj_data obj) ;;
        (* Stats *)
        let total_faces := Py.len (bm_faces bm) in
        if total_faces =? 0 then
          bmesh_free ;;
          ret FINISHED
        else
          modify_stats (with_vert_count (Py.len (bm_verts bm))) ;;
          modify_stats (with_face_count total_faces) ;;
          modify_stats (with_tri_count (Py.len (filter is_tri (bm_faces bm)))) ;;
          modify_stats (with_ngon_count (Py.len (filter is_ngon (bm_faces bm)))) ;;
          (* 1. N-Gons *)
          let ngon_faces := flagged is_ngon (bm_faces bm) in
          (if nonempty ngon_faces then
             q <- lift (Py.int_truediv (Py.len ngon_faces) total_faces) ;;
             let ratio := Py.fmul q (Py.float_of_int 100) in
             let sev :=
               if Py.num_lt (Py.NInt 1) (Py.NFloat ratio) then "HIGH" else "MEDIUM" in
             add_issue sev
               (Py.str (Py.len ngon_faces) ++ " N-Gons Detected")
               "Faces with >4 edges. Click the button to cycle through them and fix."
               (indices_str ngon_faces) "FACE"
           else ret tt) ;;
          (* 2. Non-Manifold (Holes) *)
          let bad_edges := flagged is_bad_edge (bm_edges bm) in
          when (nonempty bad_edges)
            (add_issue "CRITICAL" "Non-Manifold Geometry"
               "Edges creating holes or internal faces."
               (indices_str bad_edges) "EDGE") ;;
          (* 3. Slivers (Thin Faces) *)
          sliver_faces <-
            lift (filter_exc (fun x => is_sliver bm (snd x))
                    (Py.enumerate (bm_faces bm))) ;;
          when (nonempty sliver_faces)
            (add_issue "MEDIUM"
               (Py.str (Py.len sliver_faces) ++ " Sliver Faces")
               "Long, thin faces causing shading artifacts."
               (indices_str sliver_faces) "FACE") ;;
          (* 4. Poles (>5 edges) *)
          let pole_verts := flagged is_pole (bm_verts bm) in
          when (nonempty pole_verts)
            (add_issue "INFO"
               (Py.str (Py.len pole_verts) ++ " High-Valence Poles")
               "Vertices with >5 edges (Stars). Check placement."
               (indices_str pole_verts) "VERT") ;;
          (* SCORING *)
          let current_score := Py.float_of_int 100 in
          q1 <- lift (Py.int_truediv (Py.len ngon_faces) total_faces) ;;
          let current_score :=
            Py.fsub current_score (Py.fmul q1 (Py.float_of_int 200)) in
          let current_score :=
            if nonempty bad_edges
            then Py.fsub current_score (Py.float_of_int 25)
            else current_score in
          q2 <- lift (Py.int_truediv (Py.len sliver_faces) total_faces) ;;
          let current_score :=
            Py.fsub current_score (Py.fmul q2 (Py.float_of_int 100)) in
          sc <- lift (Py.int_of_num
                        (Py.max2 (Py.NInt 0)
                           (Py.min2 (Py.NInt 100) (Py.NFloat current_score)))) ;;
          modify_stats (with_score sc) ;;
          w1 <- get ;;
          when (Py.len (topo_report_list w1) =? 0)
            (add_issue "GOOD" "Immaculate Topology" "No issues found." "" "") ;;
          bmesh_free ;;
          when (negb (mode_eqb previous_mode OBJECT)) (mode_set previous_mode) ;;
          ret FINISHED
  end.

(* ================================================================== *)
(** * The interactive selector: [MESH_OT_FocusIssue]                    *)
(* ================================================================== *)

(** A write to the element at one position of a table. *)
Fixpoint update_nth {A : Type} (n : nat) (f : A -> A) (l : list A) : list A :=
  match l, n with
  | [], _ => []
  | a :: r, O => f a :: r
  | a :: r, S n' => a :: update_nth n' f r
  end.

Definition vert_with_select (b : bool) (v : BMVert) : BMVert :=
  {| v_select := b; v_hide := v_hide v; v_link_edges := v_link_edges v |}.

Definition edge_with_select (b : bool) (e : BMEdge) : BMEdge :=
  {| e_select := b; e_hide := e_hide e; e_verts := e_verts e;
     e_is_manifold := e_is_manifold e; e_length := e_length e |}.

Definition face_with_select (b : bool) (f : BMFace) : BMFace :=
  {| f_select := b; f_hide := f_hide f; f_verts := f_verts f;
     f_edges := f_edges f |}.

(** The flag that [x.select = b] writes: the host ignores the write on
    a hidden element. *)
Definition vert_select_set (b : bool) (v : BMVert) : BMVert :=
  if v_hide v then v else vert_with_select b v.

Definition edge_flag_set (b : bool) (e : BMEdge) : BMEdge :=
  if e_hide e then e else edge_with_select b e.

Definition face_flag_set (b : bool) (f : BMFace) : BMFace :=
  if f_hide f then f else face_with_select b f.

Definition with_verts (vs : list BMVert) (bm : BMesh) : BMesh :=
  {| bm_verts := vs; bm_edges := bm_edges bm; bm_faces := bm_faces bm;
     bm_select_history := bm_select_history bm |}.

Definition with_edges (es : list BMEdge) (bm : BMesh) : BMesh :=
  {| bm_verts := bm_verts bm; bm_edges := es; bm_faces := bm_faces bm;
     bm_select_history := bm_select_history bm |}.

Definition with_faces (fs : list BMFace) (bm : BMesh) : BMesh :=
  {| bm_verts := bm_verts bm; bm_edges := bm_edges bm; bm_faces := fs;
     bm_select_history := bm_select_history bm |}.

Definition with_select_history (h : list (ElemKind * nat)) (bm : BMesh) : BMesh :=
  {| bm_verts := bm_verts bm; bm_edges := bm_edges bm; bm_faces := bm_faces bm;
     bm_select_history := h |}.

(** The three loops [for x in bm.xs: x.select = False], vertices
    first.  The host lets the deselection of an edge or a face go down
    to its vertices and edges, which of them depending on the select
    mode; going down only clears flags of elements that are not hidden,
    and after the loops every such element has been cleared by its own
    write, so the flags of the three tables are as here in every select
    mode. *)
Definition deselect_all (bm : BMesh) : BMesh :=
  with_faces (map (face_flag_set false) (bm_faces bm))
    (with_edges (map (edge_flag_set false) (bm_edges bm))
       (with_verts (map (vert_select_set false) (bm_verts bm)) bm)).

(** [v.select = True] on the vertex at one position, and
    [for v in target.verts: v.select = True]. *)
Definition select_vert (i : nat) (bm : BMesh) : BMesh :=
  with_verts (update_nth i (vert_select_set true) (bm_verts bm)) bm.

Definition select_verts (vs : list nat) (bm : BMesh) : BMesh :=
  fold_left (fun b i => select_vert i b) vs bm.

(** [e.select = True] on the edge at one position: unless the edge is
    hidden, the host flags it and selects its vertices. *)
Definition select_edge (p : nat) (bm : BMesh) : BMesh :=
  match nth_error (bm_edges bm) p with
  | Some e =>
      if e_hide e then bm
      else select_verts (e_verts e)
             (with_edges (update_nth p (edge_with_select true) (bm_edges bm)) bm)
  | None => bm
  end.

Definition select_edges (es : list nat) (bm : BMesh) : BMesh :=
  fold_left (fun b i => select_edge i b) es bm.

(** [f.select = True] on the face at one position: unless the face is
    hidden, the host flags it and selects the vertices and the edges of
    its boundary (writes of [True] only, so their order is
    immaterial). *)
Definition select_face (p : nat) (bm : BMesh) : BMesh :=
  match nth_error (bm_faces bm) p with
  | Some f =>
      if f_hide f then bm
      else select_edges (f_edges f)
             (select_verts (f_verts f)
                (with_faces (update_nth p (face_with_select true) (bm_faces bm)) bm))
  | None => bm
  end.

(** [bmesh.from_edit_mesh(obj.data)]: the edit mesh itself, not a copy. *)
Definition from_edit_mesh : M BMesh :=
  w <- get ;;
  match active_object w with
  | None => raise Py.AttributeError
  | Some obj =>
      if is_mesh_type (obj_type obj) then ret (obj_data obj)
      else raise Py.TypeError
  end.

(** A write through the handle returned by [from_edit_mesh]. *)
Definition modify_edit_mesh (f : BMesh -> BMesh) : M unit :=
  modify (fun w =>
    set_active_object
      (option_map (fun o => with_data (f (obj_data o)) o) (active_object w)) w).

(** [bmesh.update_edit_mesh(obj.data)]: the flags are already in the
    edit mesh; the call refreshes the host's view of them. *)
Definition update_edit_mesh : M unit := ret tt.

(** The item is a reference into the collection: reads and writes go to
    the element at its position. *)
Definition item_at (p : nat) : M TopoIssueItem :=
  w <- get ;;
  match nth_error (topo_report_list w) p with
  | Some it => ret it
  | None => raise Py.IndexError
  end.

Definition with_current_pointer (c : Z) (it : TopoIssueItem) : TopoIssueItem :=
  {| severity := severity it; name := name it; description := description it;
     element_indices := element_indices it; element_type := element_type it;
     current_pointer := c |}.

Definition set_current_pointer (p : nat) (c : Z) : M unit :=
  modify (fun w =>
    set_report_list (update_nth p (with_current_pointer c) (topo_report_list w)) w).

(** The [try] block of step 4: the element named by the type of the
    item is selected when the index is below the length of its table. *)
Definition select_target (type_name : string) (target_id : Z) : M unit :=
  bm <- from_edit_mesh ;;
  if String.eqb type_name "FACE" then
    if target_id <? Py.len (bm_faces bm) then
      match Py.subscript_pos (List.length (bm_faces bm)) target_id with
      | Some p =>
          match nth_error (bm_faces bm) p with
          | Some target =>
              modify_edit_mesh (select_face p) ;;
              (* Also select verts so it lights up clearly *)
              modify_edit_mesh (select_verts (f_verts target))
          | None => raise Py.IndexError
          end
      | None => raise Py.IndexError
      end
    else ret tt
  else if String.eqb type_name "EDGE" then
    if target_id <? Py.len (bm_edges bm) then
      match Py.subscript_pos (List.length (bm_edges bm)) target_id with
      | Some p =>
          match nth_error (bm_edges bm) p with
          | Some target =>
              modify_edit_mesh (select_edge p) ;;
              modify_edit_mesh (select_verts (e_verts target))
          | None => raise Py.IndexError
          end
      | None => raise Py.IndexError
      end
    else ret tt
  else if String.eqb type_name "VERT" then
    if target_id <? Py.len (bm_verts bm) then
      match Py.subscript_pos (List.length (bm_verts bm)) target_id with
      | Some p => modify_edit_mesh (select_vert p)
      | None => raise Py.IndexError
      end
    else ret tt
  else ret tt.

(** [[int(i) for i in s.split(',')]]. *)
Definition parse_ids (s : string) : Py.exc (list Z) :=
  Py.map_exc Py.int (Py.split "," s).

Definition focus_execute (index : Z) : M OpResult :=
  w0 <- get ;;
  match Py.subscript_pos (List.length (topo_report_list w0)) index with
  | None => raise Py.IndexError
  | Some p =>
      match active_object w0 with
      | None => raise Py.AttributeError
      | Some obj =>
          (* 1. Ensure Edit Mode *)
          when (negb (mode_eqb (obj_mode obj) EDIT)) (mode_set EDIT) ;;
          (* 2. Parse Indices *)
          item <- item_at p ;;
          if String.eqb (element_indices item) "" then
            report WARNING "No specific geometry to select for this issue." ;;
            ret FINISHED
          else
            match parse_ids (element_indices item) with
            | inl _ => ret FINISHED
            | inr ids =>
                (* 3. Cycle Pointer (Loop back to start if we reach the end) *)
                when (Py.len ids <=? current_pointer item)
                  (set_current_pointer p 0) ;;
                item <- item_at p ;;
                target_id <- lift (Py.subscript ids (current_pointer item)) ;;
                (* 4. BMesh Selection *)
                _ <- from_edit_mesh ;;
                modify_edit_mesh deselect_all ;;
                modify_edit_mesh (with_select_history []) ;;
                r <- try (select_target (element_type item) target_id) ;;
                match r with
                | inl Py.IndexError =>
                    report ERROR "Geometry changed. Please Re-Analyze." ;;
                    ret CANCELLED
                | inl e => raise e
                | inr _ =>
                    update_edit_mesh ;;
                    (* 5. Zoom View to Selection *)
                    view_selected ;;
                    (* 6. Prepare for next click *)
                    set_current_pointer p (current_pointer item + 1) ;;
                    item <- item_at p ;;
                    report INFO
                      ("Selected " ++ element_type item ++ " #" ++ Py.str target_id
                       ++ " (" ++ Py.str (current_pointer item) ++ "/"
                       ++ Py.str (Py.len ids) ++ ")") ;;
                    ret FINISHED
                end
            end
      end
  end.

(** [k] invocations in succession; an exception or a result other than
    [FINISHED] does not stop the user from clicking again, so every
    outcome is kept (oldest first). *)
Fixpoint focus_times (k : nat) (index : Z) (w : World)
  : list (Py.exc OpResult) * World :=
  match k with
  | O => ([], w)
  | S k' =>
      let '(rs, w') := focus_times k' index w in
      let '(r, w'') := focus_execute index w' in
      ((rs ++ [r])%list, w'')
  end.

(* ================================================================== *)
(** * Reading the state back                                            *)
(* ================================================================== *)

(** The sliver test as a total function on the edge lengths of a face
    (no exception can be raised, see [is_sliver_total] below). *)
Definition sliver_test (lengths : list Py.float) : bool :=
  match lengths with
  | [] => false
  | x :: r =>
      (2 <? Py.len lengths)
      && Py.flt (Py.float_of_int 0) (Py.min_from x r)
      && Py.flt (Py.float_of_int 15)
           (SFdiv Py.prec Py.emax (Py.max_from x r) (Py.min_from x r))
  end.

Definition edge_lengths (bm : BMesh) (f : BMFace) : list Py.float :=
  map e_length (face_edges bm f).

(** The index lists of the four checks, in table order. *)
Definition ngon_indices (bm : BMesh) : list nat :=
  map fst (flagged is_ngon (bm_faces bm)).

Definition bad_edge_indices (bm : BMesh) : list nat :=
  map fst (flagged is_bad_edge (bm_edges bm)).

Definition sliver_indices (bm : BMesh) : list nat :=
  map fst (flagged (fun f => sliver_test (edge_lengths bm f)) (bm_faces bm)).

Definition pole_indices (bm : BMesh) : list nat :=
  map fst (flagged is_pole (bm_verts bm)).

(** The clamp and the truncation of the last scoring line. *)
Definition clamp_score (cs : Py.float) : Z :=
  if Py.flt cs (Py.float_of_int 100) then
    if Py.flt (Py.float_of_int 0) cs then
      match cs with
      | S754_finite s m e => cond_Zopp s (Z.shiftl (Zpos m) e)
      | _ => 0
      end
    else 0
  else 100.

(** The score as a function of the three counts: every operation is a
    binary64 operation, in the order of the scoring lines. *)
Definition score_binary64 (ngons : Z) (bad : bool) (slivers total : Z) : Z :=
  let div a b := SFdiv Py.prec Py.emax (Py.float_of_int a) (Py.float_of_int b) in
  let s0 := Py.float_of_int 100 in
  let s1 := Py.fsub s0 (Py.fmul (div ngons total) (Py.float_of_int 200)) in
  let s2 := if bad then Py.fsub s1 (Py.float_of_int 25) else s1 in
  let s3 := Py.fsub s2 (Py.fmul (div slivers total) (Py.float_of_int 100)) in
  clamp_score s3.

(** The same sentence read in exact arithmetic: 100 - 200 (ngons/total)
    - 25 [bad] - 100 (slivers/total), clamped to [0, 100], truncated. *)
Definition score_exact (ngons : Z) (bad : bool) (slivers total : Z) : Z :=
  let t := Z.to_pos total in
  let x :=
    Qminus
      (Qminus
         (Qminus (inject_Z 100) (Qmult (inject_Z 200) (Qmake ngons t)))
         (if bad then inject_Z 25 else inject_Z 0))
      (Qmult (inject_Z 100) (Qmake slivers t)) in
  let c := Qmax (inject_Z 0) (Qmin (inject_Z 100) x) in
  Z.quot (Qnum c) (Zpos (Qden c)).

(** The table that an element type names, and what is selected in it. *)
Definition table_len (type_name : string) (bm : BMesh) : Z :=
  if String.eqb type_name "FACE" then Py.len (bm_faces bm)
  else if String.eqb type_name "EDGE" then Py.len (bm_edges bm)
  else if String.eqb type_name "VERT" then Py.len (bm_verts bm)
  else 0.

Definition selected_positions {A : Type} (sel : A -> bool) (table : list A) : list Z :=
  map (fun x => Z.of_nat (fst x)) (flagged sel table).

Definition selected_of (type_name : string) (bm : BMesh) : list Z :=
  if String.eqb type_name "FACE" then selected_positions f_select (bm_faces bm)
  else if String.eqb type_name "EDGE" then selected_positions e_select (bm_edges bm)
  else if String.eqb type_name "VERT" then selected_positions v_select (bm_verts bm)
  else [].

Definition is_element_type (type_name : string) : bool :=
  String.eqb type_name "FACE" || String.eqb type_name "EDGE"
  || String.eqb type_name "VERT".

Definition active_mesh (w : World) : option Object :=
  match active_object w with
  | Some obj => if is_mesh_type (obj_type obj) then Some obj else None
  | None => None
  end.

Definition active_mode (w : World) : option Mode :=
  option_map obj_mode (active_object w).

Definition active_data (w : World) : option BMesh :=
  option_map obj_data (active_object w).

Definition pointer_at (p : nat) (w : World) : option Z :=
  option_map current_pointer (nth_error (topo_report_list w) p).

(** ** The outcome of a completed analysis, as data

    The report and the statistics that [analyze_execute] leaves behind
    for a mesh with at least one face (see [analyze_on_faces]). *)

Definition issue (sev nm descr indices type_name : string) : TopoIssueItem :=
  {| severity := sev; name := nm; description := descr;
     element_indices := indices; element_type := type_name;
     current_pointer := 0 |}.

Definition ngon_description : string :=
  "Faces with >4 edges. Click the button to cycle through them and fix.".
Definition bad_edge_description : string :=
  "Edges creating holes or internal faces.".
Definition sliver_description : string :=
  "Long, thin faces causing shading artifacts.".
Definition pole_description : string :=
  "Vertices with >5 edges (Stars). Check placement.".

Definition ngon_severity (ngons total : Z) : string :=
  if Py.flt (Py.float_of_int 1)
       (Py.fmul (SFdiv Py.prec Py.emax (Py.float_of_int ngons) (Py.float_of_int total))
          (Py.float_of_int 100))
  then "HIGH" else "MEDIUM".

Definition sliver_found (bm : BMesh) : list (nat * BMFace) :=
  flagged (fun f => sliver_test (edge_lengths bm f)) (bm_faces bm).

Definition ngon_issue (bm : BMesh) : list TopoIssueItem :=
  let found := flagged is_ngon (bm_faces bm) in
  if nonempty found then
    [issue (ngon_severity (Py.len found) (Py.len (bm_faces bm)))
       (Py.str (Py.len found) ++ " N-Gons Detected")
       ngon_description (indices_str found) "FACE"]
  else [].

Definition bad_edge_issue (bm : BMesh) : list TopoIssueItem :=
  let found := flagged is_bad_edge (bm_edges bm) in
  if nonempty found then
    [issue "CRITICAL" "Non-Manifold Geometry"
       bad_edge_description (indices_str found) "EDGE"]
  else [].

Definition sliver_issue (bm : BMesh) : list TopoIssueItem :=
  let found := sliver_found bm in
  if nonempty found then
    [issue "MEDIUM" (Py.str (Py.len found) ++ " Sliver Faces")
       sliver_description (indices_str found) "FACE"]
  else [].

Definition pole_issue (bm : BMesh) : list TopoIssueItem :=
  let found := flagged is_pole (bm_verts bm) in
  if nonempty found then
    [issue "INFO" (Py.str (Py.len found) ++ " High-Valence Poles")
       pole_description (indices_str found) "VERT"]
  else [].

Definition good_issue : TopoIssueItem :=
  issue "GOOD" "Immaculate Topology" "No issues found." "" "".

Definition defect_issues (bm : BMesh) : list TopoIssueItem :=
  (ngon_issue bm ++ bad_edge_issue bm ++ sliver_issue bm ++ pole_issue bm)%list.

Definition analyzed_report (bm : BMesh) : list TopoIssueItem :=
  if nonempty (defect_issues bm) then defect_issues bm else [good_issue].

Definition analyzed_stats (nm : string) (bm : BMesh) : TopoStats :=
  {| vert_count := Py.len (bm_verts bm);
     face_count := Py.len (bm_faces bm);
     tri_count := Py.len (filter is_tri (bm_faces bm));
     ngon_count := Py.len (filter is_ngon (bm_faces bm));
     score :=
       score_binary64
         (Py.len (flagged is_ngon (bm_faces bm)))
         (nonempty (flagged is_bad_edge (bm_edges bm)))
         (Py.len (sliver_found bm))
         (Py.len (bm_faces bm));
     target_name := nm |}.


(** An object after [if obj.mode != m: mode_set(mode=m)]. *)
Definition in_mode (m : Mode) (obj : Object) : Object :=
  if mode_eqb (obj_mode obj) m then obj else with_mode m obj.

(** ** The outcome of a focus invocation that selects, as data *)

(** What the writes of the [try] block do at position [p] of the table
    named by the type: [target.select = True], and for a face or an
    edge the loop over [target.verts]. *)
Definition select_elem (type_name : string) (p : nat) (bm : BMesh) : BMesh :=
  if String.eqb type_name "FACE" then
    match nth_error (bm_faces bm) p with
    | Some target => select_verts (f_verts target) (select_face p bm)
    | None => bm
    end
  else if String.eqb type_name "EDGE" then
    match nth_error (bm_edges bm) p with
    | Some target => select_verts (e_verts target) (select_edge p bm)
    | None => bm
    end
  else if String.eqb type_name "VERT" then select_vert p bm
  else bm.

(** The [try] block as a whole: nothing is selected when the target is
    not below the length of its table. *)
Definition select_checked (type_name : string) (target : Z) (bm : BMesh) : BMesh :=
  if target <? table_len type_name bm
  then select_elem type_name (Z.to_nat target) bm
  else bm.

Definition focus_message (type_name : string) (target_id cursor total : Z) : string :=
  "Selected " ++ type_name ++ " #" ++ Py.str target_id
  ++ " (" ++ Py.str cursor ++ "/" ++ Py.str total ++ ")".

(** The position that an invocation reads when the stored cursor is
    [c] and the list has [n] entries. *)
Definition wrap_cursor (n c : Z) : Z := if n <=? c then 0 else c.

Definition focused_world (p : nat) (item : TopoIssueItem) (ids : list Z)
           (obj : Object) (w : World) : World :=
  let c := wrap_cursor (Py.len ids) (current_pointer item) in
  let target := nth (Z.to_nat c) ids 0 in
  {| topo_report_list :=
       update_nth p (with_current_pointer (c + 1)) (topo_report_list w);
     topo_stats := topo_stats w;
     active_object :=
       Some (with_data
               (select_checked (element_type item) target
                  (with_select_history [] (deselect_all (obj_data obj))))
               (in_mode EDIT obj));
     reports :=
       (reports w ++
        [(INFO, focus_message (element_type item) target (c + 1) (Py.len ids))])%list;
     bmeshes := bmeshes w;
     view_selected_calls := S (view_selected_calls w) |}.

(** The cursor that is stored after [k] invocations on a fresh record
    of [n] indices. *)
Definition cursor_after (n : Z) (k : nat) : Z :=
  match k with
  | O => 0
  | S k' => Z.of_nat k' mod n + 1
  end.

(** ** Concrete meshes and host states *)

(** The statistics of a scene that was never analysed: the defaults of
    the properties. *)
Definition default_stats : TopoStats :=
  {| vert_count := 0; face_count := 0; tri_count := 0; ngon_count := 0;
     score := 100; target_name := "" |}.

(** A mesh of separate polygons ("islands") with sides of length one:
    polygon number [i] has [nth i sizes] corners, its own vertices and
    its own edges, and every edge, having one face only, is a boundary
    edge and so not manifold. *)
Definition island_verts (off n : nat) : list BMVert :=
  map (fun j => {| v_select := false; v_hide := false;
                   v_link_edges := [(off + j)%nat; (off + (j + n - 1) mod n)%nat] |})
      (seq 0 n).

Definition island_edges (off n : nat) : list BMEdge :=
  map (fun j => {| e_select := false; e_hide := false;
                   e_verts := [(off + j)%nat; (off + (S j) mod n)%nat];
                   e_is_manifold := false;
                   e_length := Py.float_of_int 1 |})
      (seq 0 n).

Definition island_face (off n : nat) : BMFace :=
  {| f_select := false; f_hide := false; f_verts := seq off n; f_edges := seq off n |}.

Fixpoint islands_from (off : nat) (sizes : list nat) : BMesh :=
  match sizes with
  | [] => {| bm_verts := []; bm_edges := []; bm_faces := [];
             bm_select_history := [] |}
  | n :: rest =>
      let bm := islands_from (off + n) rest in
      {| bm_verts := island_verts off n ++ bm_verts bm;
         bm_edges := island_edges off n ++ bm_edges bm;
         bm_faces := island_face off n :: bm_faces bm;
         bm_select_history := [] |}
  end.

Definition islands (sizes : list nat) : BMesh := islands_from 0 sizes.

(** Three loose vertices: a mesh without faces. *)
Definition loose_verts : BMesh :=
  {| bm_verts := repeat {| v_select := false; v_hide := false; v_link_edges := [] |} 3;
     bm_edges := []; bm_faces := []; bm_select_history := [] |}.

Definition mesh_object (nm : string) (m : Mode) (bm : BMesh) : Object :=
  {| obj_name := nm; obj_type := MESH; obj_mode := m; obj_data := bm |}.

Definition world_of (rl : list TopoIssueItem) (st : TopoStats) (o : option Object)
  : World :=
  {| topo_report_list := rl; topo_stats := st; active_object := o;
     reports := []; bmeshes := []; view_selected_calls := 0 |}.

(** Eighteen quads and seven pentagons. *)
Definition quads_and_pentagons : BMesh :=
  islands (repeat 4%nat 18 ++ repeat 5%nat 7).

Definition world_quads_and_pentagons : World :=
  world_of [] default_stats (Some (mesh_object "Plates" OBJECT quads_and_pentagons)).

(** One open quad: its four boundary edges are the only defect. *)
Definition world_open_quad : World :=
  world_of [] default_stats (Some (mesh_object "Plane" OBJECT (islands [4%nat]))).

(** The report of an earlier run is still in the scene, and nothing is
    selected any more. *)
Definition earlier_stats : TopoStats :=
  {| vert_count := 8; face_count := 6; tri_count := 0; ngon_count := 0;
     score := 75; target_name := "Cube" |}.

Definition earlier_report : list TopoIssueItem :=
  [issue "CRITICAL" "Non-Manifold Geometry" bad_edge_description "0,3" "EDGE"].

Definition world_nothing_active : World :=
  world_of earlier_report earlier_stats None.

Definition world_camera_active : World :=
  world_of earlier_report earlier_stats
    (Some {| obj_name := "Camera"; obj_type := CAMERA; obj_mode := OBJECT;
             obj_data := islands [] |}).

(** A mesh without faces is being edited. *)
Definition world_faceless_edit : World :=
  world_of earlier_report earlier_stats (Some (mesh_object "Dots" EDIT loose_verts)).

(** Seventy open quads have 280 boundary edges: more than the 200
    indices that a record keeps. *)
Definition seventy_quads : BMesh := islands (repeat 4%nat 70).

Definition world_seventy_quads : World :=
  world_of [] default_stats (Some (mesh_object "Tiles" OBJECT seventy_quads)).

(** A thin triangle: two sides of length 16 and one of length 1. *)
Definition thin_triangle : BMesh :=
  {| bm_verts := island_verts 0 3;
     bm_edges :=
       map (fun l => {| e_select := false; e_hide := false; e_verts := []; e_is_manifold := false;
                        e_length := Py.float_of_int l |}) [16; 16; 1];
     bm_faces := [island_face 0 3];
     bm_select_history := [] |}.

Definition world_thin_triangle : World :=
  world_of [] default_stats (Some (mesh_object "Shard" OBJECT thin_triangle)).

(** Ten plates, the pentagons at positions 2, 5 and 9, and the n-gon
    record that an analysis of them writes. *)
Definition ten_plates : BMesh :=
  islands [4; 4; 5; 4; 4; 5; 4; 4; 4; 5]%nat.

Definition ngon_record_2_5_9 : TopoIssueItem :=
  issue "HIGH" "3 N-Gons Detected" ngon_description "2,5,9" "FACE".

Definition world_ten_plates : World :=
  world_of [ngon_record_2_5_9] default_stats
    (Some (mesh_object "Plates" OBJECT ten_plates)).

(** The same record over a mesh that has lost all faces but one since
    the analysis. *)
Definition world_stale_plates : World :=
  world_of [ngon_record_2_5_9] default_stats
    (Some (mesh_object "Plates" EDIT (islands [4%nat]))).

(** A record whose list does not parse, and one without a list. *)
Definition broken_record : TopoIssueItem :=
  issue "HIGH" "3 N-Gons Detected" ngon_description "2,x,9" "FACE".

Definition world_broken_record : World :=
  world_of [broken_record; good_issue] default_stats
    (Some (mesh_object "Plates" OBJECT ten_plates)).

(* ================================================================== *)
(** * Vocabulary of the further properties                              *)
(* ================================================================== *)

(** A record written by one of the four checks. *)
Definition defect_record (it : TopoIssueItem) : Prop :=
  element_indices it <> "" /\
  is_element_type (element_type it) = true /\
  severity it <> "GOOD" /\
  current_pointer it = 0.

(** The topology of a mesh: everything in its tables except the
    selection flags and the selection history. *)
Definition vert_topology (v : BMVert) : list nat := v_link_edges v.

Definition edge_topology (e : BMEdge) : list nat * bool * Py.float :=
  (e_verts e, e_is_manifold e, e_length e).

Definition face_topology (f : BMFace) : list nat * list nat :=
  (f_verts f, f_edges f).

Definition topology (bm : BMesh)
  : list (list nat) * list (list nat * bool * Py.float)
    * list (list nat * list nat) :=
  (map vert_topology (bm_verts bm),
   map edge_topology (bm_edges bm),
   map face_topology (bm_faces bm)).

(** What the analysis reads of an object. *)
Definition object_topology (o : Object) :=
  (obj_name o, obj_type o, topology (obj_data o)).

(** A record without its cursor. *)
Definition record_content (it : TopoIssueItem)
  : string * string * string * string * string :=
  (severity it, name it, description it, element_indices it, element_type it).

(** What the focus operator keeps: the statistics, the live BMesh
    copies, the content of every record, and the name, the type and the
    topology of the active object. *)
Definition focus_frame (w w' : World) : Prop :=
  topo_stats w' = topo_stats w /\
  bmeshes w' = bmeshes w /\
  map record_content (topo_report_list w') = map record_content (topo_report_list w) /\
  option_map object_topology (active_object w')
    = option_map object_topology (active_object w).

(** A computation of the operator monad that keeps the frame, whatever
    it returns or raises. *)
Definition keeps_frame {A : Type} (m : M A) : Prop :=
  forall w, focus_frame w (snd (m w)).

(** The edge lengths of a face, read from the topology alone. *)
Definition lengths_of (et : list (list nat * bool * Py.float)) (fe : list nat)
  : list Py.float :=
  flat_map (fun i => match nth_error et i with
                     | Some t => [snd t]
                     | None => []
                     end) fe.

(** ** Hidden elements

    Whether the element at a position of the table named by the type is
    hidden (a position outside the table has no hidden element). *)
Definition hidden_at (type_name : string) (p : nat) (bm : BMesh) : bool :=
  if String.eqb type_name "FACE" then
    match nth_error (bm_faces bm) p with
    | Some f => f_hide f
    | None => false
    end
  else if String.eqb type_name "EDGE" then
    match nth_error (bm_edges bm) p with
    | Some e => e_hide e
    | None => false
    end
  else if String.eqb type_name "VERT" then
    match nth_error (bm_verts bm) p with
    | Some v => v_hide v
    | None => false
    end
  else false.

(** The hide flags of the three tables: no operator writes them. *)
Definition hide_flags (bm : BMesh) : list bool * list bool * list bool :=
  (map v_hide (bm_verts bm), map e_hide (bm_edges bm), map f_hide (bm_faces bm)).

(** The hidden elements that are selected.  The host's own tools
    deselect what they hide, so that a mesh has none unless a script
    has set its flags one by one; the writes of the focus operator
    leave such elements as they are. *)
Definition stuck_selected (type_name : string) (bm : BMesh) : list Z :=
  if String.eqb type_name "FACE"
  then selected_positions (fun f => f_hide f && f_select f) (bm_faces bm)
  else if String.eqb type_name "EDGE"
  then selected_positions (fun e => e_hide e && e_select e) (bm_edges bm)
  else if String.eqb type_name "VERT"
  then selected_positions (fun v => v_hide v && v_select v) (bm_verts bm)
  else [].

(** No hidden element is selected. *)
Definition hidden_unselected (bm : BMesh) : bool :=
  forallb (fun v => negb (v_hide v && v_select v)) (bm_verts bm)
  && forallb (fun e => negb (e_hide e && e_select e)) (bm_edges bm)
  && forallb (fun f => negb (f_hide f && f_select f)) (bm_faces bm).

(** ** What lights up with a target

    The writes of [select_verts] and [select_edges] on the tables. *)
Definition select_verts_in (vs : list nat) (l : list BMVert) : list BMVert :=
  fold_left (fun l i => update_nth i (vert_select_set true) l) vs l.

Definition select_edges_in (es : list nat) (l : list BMEdge) : list BMEdge :=
  fold_left (fun l i => update_nth i (edge_flag_set true) l) es l.

(** The vertices that the selection of an edge goes down to: those of
    the edge, unless the edge is hidden. *)
Definition edge_verts_shown (bm : BMesh) (j : nat) : list nat :=
  match nth_error (bm_edges bm) j with
  | Some e => if e_hide e then [] else e_verts e
  | None => []
  end.

(** The edges that are written with a target: the boundary of a face
    that is not hidden, or the edge itself. *)
Definition target_edges (type_name : string) (p : nat) (bm : BMesh) : list nat :=
  if String.eqb type_name "FACE" then
    match nth_error (bm_faces bm) p with
    | Some f => if f_hide f then [] else f_edges f
    | None => []
    end
  else if String.eqb type_name "EDGE" then [p]
  else [].

(** The vertices that are written with a target: for a face that is
    not hidden its vertices and those of its edges, and in any case the
    vertices of the loop over [target.verts]; the same for an edge; the
    vertex itself. *)
Definition target_verts (type_name : string) (p : nat) (bm : BMesh) : list nat :=
  if String.eqb type_name "FACE" then
    match nth_error (bm_faces bm) p with
    | Some f =>
        ((if f_hide f then []
          else f_verts f ++ flat_map (edge_verts_shown bm) (f_edges f))
         ++ f_verts f)%list
    | None => []
    end
  else if String.eqb type_name "EDGE" then
    match nth_error (bm_edges bm) p with
    | Some e => (edge_verts_shown bm p ++ e_verts e)%list
    | None => []
    end
  else if String.eqb type_name "VERT" then [p]
  else [].

(** The [try] block for any target: a subscript below [-len] raises
    [IndexError], which is [None] here; a negative subscript inside the
    table counts from its end. *)
Definition select_python (type_name : string) (target : Z) (bm : BMesh)
  : option BMesh :=
  if is_element_type type_name then
    if target <? table_len type_name bm then
      match Py.subscript_pos (Z.to_nat (table_len type_name bm)) target with
      | Some p => Some (select_elem type_name p bm)
      | None => None
      end
    else Some bm
  else Some bm.

(** The state after an invocation that reached the [try] block with the
    cursor position [c] and the target [target]: finished with the mesh
    [bm'], or cancelled by the [IndexError] handler. *)
Definition finished_world (p : nat) (item : TopoIssueItem) (ids : list Z) (c target : Z)
           (bm' : BMesh) (obj : Object) (w : World) : World :=
  {| topo_report_list :=
       update_nth p (with_current_pointer (c + 1)) (topo_report_list w);
     topo_stats := topo_stats w;
     active_object := Some (with_data bm' (in_mode EDIT obj));
     reports :=
       (reports w ++
        [(INFO, focus_message (element_type item) target (c + 1) (Py.len ids))])%list;
     bmeshes := bmeshes w;
     view_selected_calls := S (view_selected_calls w) |}.

Definition cancelled_world (p : nat) (c : Z) (obj : Object) (w : World) : World :=
  {| topo_report_list := update_nth p (with_current_pointer c) (topo_report_list w);
     topo_stats := topo_stats w;
     active_object :=
       Some (with_data (with_select_history [] (deselect_all (obj_data obj)))
               (in_mode EDIT obj));
     reports := (reports w ++ [(ERROR, "Geometry changed. Please Re-Analyze.")])%list;
     bmeshes := bmeshes w;
     view_selected_calls := view_selected_calls w |}.

(** Records whose lists were written by hand, with negative indices,
    over three plates. *)
Definition minus_seven_record : TopoIssueItem :=
  issue "HIGH" "1 N-Gons Detected" ngon_description "-7" "FACE".

Definition minus_one_record : TopoIssueItem :=
  issue "HIGH" "1 N-Gons Detected" ngon_description "-1" "FACE".

Definition world_negative_records : World :=
  world_of [minus_seven_record; minus_one_record] default_stats
    (Some (mesh_object "Plates" EDIT (islands [4; 5; 4]%nat))).


(** A float whose mantissa, when it has one, fits the 53 bits of a
    binary64 number: every result of a binary64 operation is one. *)
Definition mantissa_fits (x : Py.float) : Prop :=
  match x with
  | S754_finite _ m _ => Zpos (digits2_pos m) <= Py.prec
  | _ => True
  end.

(** The positions of a table whose element passes a test, in index
    order: the list of them is strictly increasing and holds exactly
    those positions. *)
Definition flagged_positions {A : Type} (P : A -> bool) (table : list A)
           (found : list nat) : Prop :=
  StronglySorted lt found /\
  forall i, In i found <-> exists a, nth_error table i = Some a /\ P a = true.

(** The record that a check writes for the positions [found]: it is in
    the report with the description and the element type of the check,
    and its serialized list has, between the commas, the decimal
    numerals of the first 200 positions of [found] and nothing more;
    [int()] reads them back when the positions are below 2^53. *)
Definition check_written (rl : list TopoIssueItem) (descr type_name : string)
           (found : list nat) : Prop :=
  exists it,
    In it rl /\
    description it = descr /\
    element_type it = type_name /\
    Py.split "," (element_indices it) = map Py.str_nat (firstn 200 found) /\
    List.length (Py.split "," (element_indices it))
      = Nat.min 200 (List.length found) /\
    (Forall (fun i => Z.of_nat i < 2 ^ 53) found ->
     parse_ids (element_indices it) = inr (map Z.of_nat (firstn 200 found))).





(** No element of the mesh is hidden. *)
Definition nothing_hidden (bm : BMesh) : bool :=
  forallb (fun v => negb (v_hide v)) (bm_verts bm)
  && forallb (fun e => negb (e_hide e)) (bm_edges bm)
  && forallb (fun f => negb (f_hide f)) (bm_faces bm).

(** The element tables have fewer than 2^53 entries (the host counts
    them in a C [int]), so that [int()] reads every index back. *)
Definition host_sized (bm : BMesh) : Prop :=
  Py.len (bm_verts bm) < 2 ^ 53 /\
  Py.len (bm_edges bm) < 2 ^ 53 /\
  Py.len (bm_faces bm) < 2 ^ 53.

(** ** Hidden elements in concrete meshes

    What hiding a face does in the host: the face is deselected and
    hidden, and with it the edges and the vertices that no visible face
    uses; in a mesh of islands these are all the edges and vertices of
    the face. *)
Definition vert_hidden (v : BMVert) : BMVert :=
  {| v_select := false; v_hide := true; v_link_edges := v_link_edges v |}.

Definition edge_hidden (e : BMEdge) : BMEdge :=
  {| e_select := false; e_hide := true; e_verts := e_verts e;
     e_is_manifold := e_is_manifold e; e_length := e_length e |}.

Definition face_hidden (f : BMFace) : BMFace :=
  {| f_select := false; f_hide := true; f_verts := f_verts f; f_edges := f_edges f |}.

Definition hide_island (p : nat) (bm : BMesh) : BMesh :=
  match nth_error (bm_faces bm) p with
  | Some f =>
      with_faces (update_nth p face_hidden (bm_faces bm))
        (with_edges
           (fold_left (fun l i => update_nth i edge_hidden l) (f_edges f) (bm_edges bm))
           (with_verts
              (fold_left (fun l i => update_nth i vert_hidden l) (f_verts f) (bm_verts bm))
              bm))
  | None => bm
  end.

(** The ten plates in edit mode with the first pentagon hidden, under
    the record that names it first. *)
Definition world_hidden_plate : World :=
  world_of [ngon_record_2_5_9] default_stats
    (Some (mesh_object "Plates" EDIT (hide_island 2 ten_plates))).

(** Three plates of which a script has set both flags of the first:
    hidden and selected. *)
Definition face_hidden_selected (f : BMFace) : BMFace :=
  {| f_select := true; f_hide := true; f_verts := f_verts f; f_edges := f_edges f |}.

Definition world_scripted_flags : World :=
  world_of [minus_seven_record] default_stats
    (Some (mesh_object "Plates" EDIT
             (with_faces (update_nth 0 face_hidden_selected
                            (bm_faces (islands [4; 5; 4]%nat)))
                (islands [4; 5; 4]%nat)))).

(** ** Lists that Python's [int] refuses

    The information separator of code 28 is white space for [str.split]
    and [str.isspace], and not for [int]. *)
Definition separator_record : TopoIssueItem :=
  issue "HIGH" "3 N-Gons Detected" ngon_description
    (String (ascii_of_nat 28) "2,5,9") "FACE".

Definition world_separator_record : World :=
  world_of [separator_record] default_stats
    (Some (mesh_object "Plates" EDIT ten_plates)).

(** A numeral of [n] digits 7. *)
Definition sevens (n : nat) : string := string_of_list_ascii (repeat "7"%char n).
(* ================================================================== *)
(** * The panel: [VIEW3D_PT_TopoDoctorPanel]                            *)
(* ================================================================== *)

(** What [draw] puts into the layout: labels and operator buttons,
    inside rows, boxes and columns.  A label has a text and an icon
    (["NONE"] when none is given); an operator button has the name of
    the operator, a text, an icon and, for the focus operator, the
    value of its [index] property; a row has its vertical scale. *)
Inductive UI : Type :=
| Label (text icon : string)
| Operator (idname text icon : string) (index : option Z)
| Row (scale_y : Py.float) (children : list UI)
| Box (children : list UI)
| Column (children : list UI).

(** The scale of a row as the host creates it, and the literal [1.6]. *)
Definition scale_default : Py.float := Py.float_of_int 1.
Definition scale_1_6 : Py.float :=
  SFdiv Py.prec Py.emax (Py.float_of_int 16) (Py.float_of_int 10).

Definition health_icon (sc : Z) : string :=
  if 90 <=? sc then "CHECKBOX_HLT"
  else if 50 <=? sc then "ERROR"
  else "CANCEL".

Definition severity_icon (sev : string) : string :=
  if String.eqb sev "CRITICAL" then "CANCEL"
  else if String.eqb sev "HIGH" then "ERROR"
  else if String.eqb sev "MEDIUM" then "SOLO_ON"
  else if String.eqb sev "GOOD" then "CHECKBOX_HLT"
  else "INFO".

(** The header row with the button of the analysis operator. *)
Definition analyze_button : UI :=
  Row scale_1_6
    [Operator "mesh.analyze_topo_ultimate" "Analyze Mesh" "SHADING_WIRE" None].

(** The box with the health score and its icon. *)
Definition health_box (sc : Z) : UI :=
  Box [Row scale_default
         [Label ("Health: " ++ Py.str sc ++ "/100") "NONE";
          Label "" (health_icon sc)]].

Definition issues_label : UI := Label "Issues (Click icon to Focus):" "NONE".

Section Panel.

(** [textwrap.wrap(text, width=...)] of the standard library. *)
Variable wrap : string -> Z -> list string.

(** The box of one issue: the header row with the severity, the focus
    button when there are elements to select, and the title; then the
    wrapped description. *)
Definition draw_issue (index : nat) (item : TopoIssueItem) : UI :=
  Box
    [Row scale_default
       ([Label ("[" ++ severity item ++ "]") (severity_icon (severity item))]
        ++ (if String.eqb (element_indices item) "" then []
            else [Operator "mesh.focus_issue_element" "" "VIEWZOOM"
                    (Some (Z.of_nat index))])
        ++ [Label (name item) "NONE"]);
     Column (map (fun line => Label (" " ++ line) "NONE")
               (wrap (description item) 35))].

Definition draw (w : World) : list UI :=
  let stats := topo_stats w in
  if String.eqb (target_name stats) "" then [analyze_button]
  else
    [analyze_button; health_box (score stats); issues_label]
    ++ map (fun x => draw_issue (fst x) (snd x)) (Py.enumerate (topo_report_list w)).

End Panel.

(** The values of [index] on the focus buttons of a layout, in drawing
    order. *)
Fixpoint focus_buttons_of (u : UI) : list Z :=
  match u with
  | Label _ _ => []
  | Operator idname _ _ index =>
      if String.eqb idname "mesh.focus_issue_element" then
        match index with
        | Some i => [i]
        | None => []
        end
      else []
  | Row _ children => flat_map focus_buttons_of children
  | Box children => flat_map focus_buttons_of children
  | Column children => flat_map focus_buttons_of children
  end.

Definition focus_buttons (layout : list UI) : list Z :=
  flat_map focus_buttons_of layout.

(** A wrapping function to run the panel with: one line per text. *)
Definition one_line (s : string) (width : Z) : list string := [s].


(** The positions of the records that have elements to select. *)
Definition focusable (l : list TopoIssueItem) : list Z :=
  map (fun x => Z.of_nat (fst x))
    (filter (fun x => negb (String.eqb (element_indices (snd x)) ""))
       (Py.enumerate l)).

(** The panel of a scene whose report list is empty: the button, the
    health box and the heading, and no issue. *)
Definition panel_without_issues (sc : Z) : list UI :=
  [analyze_button; health_box sc; issues_label].

(** Whether the last invocation of the analysis ended before the
    checks: nothing to analyse, or a mesh without faces. *)
Definition analysis_incomplete (w : World) : Prop :=
  active_mesh w = None \/
  exists obj, active_object w = Some obj /\ is_mesh_type (obj_type obj) = true /\
              bm_faces (obj_data obj) = [].
(* ================================================================== *)
(** * Strings: [int] reads back what [str] writes                       *)
(* ================================================================== *)

Section StringFacts.

Fixpoint string_forallb (p : ascii -> bool) (s : string) : bool :=
  match s with
  | EmptyString => true
  | String c r => p c && string_forallb p r
  end.

Definition is_digit (c : ascii) : bool :=
  match Py.digit_val c with
  | Some _ => true
  | None => false
  end.

Definition digit_string (s : string) : bool := string_forallb is_digit s.

Lemma is_digit_not_space c : is_digit c = true -> Py.is_space c = false.
Proof.
  unfold is_digit, Py.digit_val, Py.is_space.
  destruct (_ && _)%bool eqn:E; [intros _ | discriminate].
  apply andb_true_iff in E as [E1 E2].
  apply Nat.leb_le in E1, E2.
  repeat (apply orb_false_iff; split).
  - apply andb_false_iff. right. apply Nat.leb_gt. lia.
  - apply Nat.eqb_neq. lia.
  - apply Nat.eqb_neq. lia.
  - apply Nat.eqb_neq. lia.
Qed.

Lemma is_digit_not_comma c : is_digit c = true -> Ascii.eqb c "," = false.
Proof.
  intros H. destruct (Ascii.eqb_spec c ","); [subst; discriminate | reflexivity].
Qed.

Lemma uint_digit_string d : digit_string (NilEmpty.string_of_uint d) = true.
Proof. unfold digit_string. induction d; simpl; auto. Qed.

Lemma digit_string_app s t :
  digit_string s = true -> digit_string t = true -> digit_string (s ++ t) = true.
Proof.
  unfold digit_string.
  induction s as [|c s IH]; simpl; auto.
  intros H Ht. apply andb_true_iff in H as [Hc Hs].
  rewrite Hc. simpl. auto.
Qed.

(** Stripping leaves a string alone when neither end is white space. *)
Lemma rstrip_no_space s :
  string_forallb (fun c => negb (Py.is_space c)) s = true -> Py.rstrip s = s.
Proof.
  induction s as [|c s IH]; simpl; auto.
  intros H. apply andb_true_iff in H as [Hc Hs].
  rewrite (IH Hs). apply negb_true_iff in Hc. rewrite Hc.
  destruct s; reflexivity.
Qed.

Lemma lstrip_no_space s :
  string_forallb (fun c => negb (Py.is_space c)) s = true -> Py.lstrip s = s.
Proof.
  destruct s as [|c s]; simpl; auto.
  intros H. apply andb_true_iff in H as [Hc _].
  apply negb_true_iff in Hc. now rewrite Hc.
Qed.

Lemma string_forallb_impl (p q : ascii -> bool) s :
  (forall c, p c = true -> q c = true) ->
  string_forallb p s = true -> string_forallb q s = true.
Proof.
  intros Hpq. induction s as [|c s IH]; simpl; auto.
  intros H. apply andb_true_iff in H as [Hc Hs].
  rewrite (Hpq _ Hc). simpl. auto.
Qed.

Lemma strip_digit_string s : digit_string s = true -> Py.strip s = s.
Proof.
  intros H. unfold Py.strip.
  assert (Hs : string_forallb (fun c => negb (Py.is_space c)) s = true).
  { revert H. apply string_forallb_impl. intros c Hc.
    now rewrite (is_digit_not_space _ Hc). }
  now rewrite (lstrip_no_space _ Hs), (rstrip_no_space _ Hs).
Qed.

(** The digits of a decimal numeral, read from the left with an
    accumulator, are its value. *)
Lemma digits_acc_digit c d acc r :
  Py.digit_val c = Some d ->
  Py.digits_acc acc (String c r) = Py.digits_acc (10 * acc + d) r.
Proof. intros H. cbn [Py.digits_acc]. now rewrite H. Qed.

Lemma parse_digits_digit c d r :
  Py.digit_val c = Some d ->
  Py.parse_digits (String c r) = Py.digits_acc d r.
Proof. intros H. cbn [Py.parse_digits]. now rewrite H. Qed.

Ltac read_digit :=
  match goal with
  | |- context [Py.digits_acc _ (String ?c _)] =>
      let v := eval vm_compute in (Py.digit_val c) in
      match v with
      | Some ?d => rewrite (digits_acc_digit c d) by reflexivity
      end
  | |- context [Py.parse_digits (String ?c _)] =>
      let v := eval vm_compute in (Py.digit_val c) in
      match v with
      | Some ?d => rewrite (parse_digits_digit c d) by reflexivity
      end
  end.

Lemma digits_acc_uint d : forall a : positive,
  Py.digits_acc (Zpos a) (NilEmpty.string_of_uint d)
  = Some (Zpos (Pos.of_uint_acc d a)).
Proof.
  induction d; intros a; cbn [NilEmpty.string_of_uint Pos.of_uint_acc];
    [ reflexivity | .. ];
    (read_digit; rewrite <- IHd; f_equal; lia).
Qed.

Lemma digits_acc_uint_zero d :
  Py.digits_acc 0 (NilEmpty.string_of_uint d) = Some (Z.of_N (Pos.of_uint d)).
Proof.
  induction d; cbn [NilEmpty.string_of_uint Pos.of_uint];
    [ reflexivity | read_digit; exact IHd | .. ];
    (read_digit; cbn [Z.of_N]; rewrite <- digits_acc_uint; f_equal).
Qed.

Lemma parse_digits_uint d :
  d <> Decimal.Nil ->
  Py.parse_digits (NilEmpty.string_of_uint d) = Some (Z.of_N (Pos.of_uint d)).
Proof.
  destruct d; intros Hd; [ congruence | .. ];
    cbn [NilEmpty.string_of_uint Pos.of_uint]; read_digit;
    [ apply digits_acc_uint_zero | .. ];
    (cbn [Z.of_N]; apply digits_acc_uint).
Qed.

Lemma pos_to_uint_not_nil p : Pos.to_uint p <> Decimal.Nil.
Proof.
  intros H.
  pose proof (DecimalPos.Unsigned.of_to p) as E.
  rewrite H in E. discriminate.
Qed.

Lemma parse_digits_pos p :
  Py.parse_digits (NilEmpty.string_of_uint (Pos.to_uint p)) = Some (Zpos p).
Proof.
  rewrite parse_digits_uint by apply pos_to_uint_not_nil.
  now rewrite DecimalPos.Unsigned.of_to.
Qed.

Lemma nilzero_pos p :
  NilZero.string_of_uint (Pos.to_uint p) = NilEmpty.string_of_uint (Pos.to_uint p).
Proof.
  unfold NilZero.string_of_uint.
  pose proof (pos_to_uint_not_nil p).
  destruct (Pos.to_uint p); congruence.
Qed.

(** What [str] writes for a natural number is a string of digits. *)
Lemma str_nonneg_digits z : 0 <= z -> digit_string (Py.str z) = true.
Proof.
  intros Hz. unfold Py.str. destruct z as [|p|p]; [reflexivity | | lia].
  cbn [Z.to_int NilZero.string_of_int]. rewrite nilzero_pos.
  apply uint_digit_string.
Qed.

Lemma str_nonneg_not_empty z : 0 <= z -> Py.str z <> EmptyString.
Proof.
  intros Hz. unfold Py.str. destruct z as [|p|p]; [discriminate | | lia].
  cbn [Z.to_int NilZero.string_of_int]. rewrite nilzero_pos.
  pose proof (pos_to_uint_not_nil p).
  destruct (Pos.to_uint p); cbn; congruence.
Qed.

(** ** The bound on the number of digits

    A decimal numeral has no more digits than the binary one. *)

Lemma nb_digits_double d :
  (Decimal.nb_digits (Decimal.Little.double d) <= S (Decimal.nb_digits d)
   /\ Decimal.nb_digits (Decimal.Little.succ_double d) <= S (Decimal.nb_digits d))%nat.
Proof.
  induction d as [|d [IH1 IH2]|d [IH1 IH2]|d [IH1 IH2]|d [IH1 IH2]|d [IH1 IH2]
                  |d [IH1 IH2]|d [IH1 IH2]|d [IH1 IH2]|d [IH1 IH2]|d [IH1 IH2]];
    cbn [Decimal.Little.double Decimal.Little.succ_double Decimal.nb_digits];
    split; lia.
Qed.

Lemma nb_digits_to_little p :
  (Decimal.nb_digits (Pos.to_little_uint p) <= Pos.size_nat p)%nat.
Proof.
  induction p as [p IH|p IH|]; cbn [Pos.to_little_uint Pos.size_nat].
  - destruct (nb_digits_double (Pos.to_little_uint p)) as [_ H]. lia.
  - destruct (nb_digits_double (Pos.to_little_uint p)) as [H _]. lia.
  - cbn. lia.
Qed.

Lemma size_nat_size p : Z.of_nat (Pos.size_nat p) = Zpos (Pos.size p).
Proof. induction p; cbn [Pos.size_nat Pos.size]; lia. Qed.

Lemma size_nat_bound p : Zpos p < 2 ^ 53 -> (Pos.size_nat p <= 53)%nat.
Proof.
  intros H. pose proof (Pos.size_le p) as Hle.
  assert (Hz : 2 ^ Zpos (Pos.size p) <= 2 * Zpos p).
  { rewrite <- Pos2Z.inj_pow. change (2 * Zpos p) with (Zpos p~0).
    apply Pos2Z.pos_le_pos. exact Hle. }
  assert (Hlt : 2 ^ Zpos (Pos.size p) < 2 ^ 54).
  { change (2 ^ 54) with (2 * 2 ^ 53). lia. }
  apply Z.pow_lt_mono_r_iff in Hlt; [|lia|lia].
  rewrite <- size_nat_size in Hlt. lia.
Qed.

Lemma count_digits_uint d :
  Py.count_digits (NilEmpty.string_of_uint d) = Z.of_nat (Decimal.nb_digits d).
Proof.
  induction d; cbn [NilEmpty.string_of_uint Decimal.nb_digits];
    [reflexivity | ..];
    (cbn [Py.count_digits];
     match goal with
     | |- context [Py.digit_val ?c] =>
         let v := eval vm_compute in (Py.digit_val c) in
         change (Py.digit_val c) with v
     end; cbv iota; rewrite IHd; lia).
Qed.

(** What [str] writes for an integer below 2^53 is within the bound of
    [int]. *)
Lemma count_digits_str z :
  0 <= z < 2 ^ 53 -> Py.count_digits (Py.str z) <= Py.max_str_digits.
Proof.
  intros [Hz Hb]. unfold Py.str, Py.max_str_digits.
  destruct z as [|p|p]; [vm_compute; discriminate | | lia].
  cbn [Z.to_int NilZero.string_of_int]. rewrite nilzero_pos.
  rewrite count_digits_uint. unfold Pos.to_uint.
  rewrite DecimalFacts.nb_digits_rev.
  pose proof (nb_digits_to_little p). pose proof (size_nat_bound p Hb). lia.
Qed.

Lemma first_digit_int s :
  digit_string s = true -> s <> EmptyString ->
  Py.count_digits s <= Py.max_str_digits ->
  Py.int s = match Py.parse_digits s with
             | Some z => inr z
             | None => inl Py.ValueError
             end.
Proof.
  intros H Hne Hcount. unfold Py.int. rewrite (strip_digit_string _ H).
  destruct (Z.ltb_spec Py.max_str_digits (Py.count_digits s)) as [Hgt|_]; [lia|].
  destruct s as [|c r]; [congruence|].
  simpl in H. apply andb_true_iff in H as [Hc _].
  destruct (Ascii.eqb_spec c "+"); [subst; discriminate|].
  destruct (Ascii.eqb_spec c "-"); [subst; discriminate|].
  destruct c as [[] [] [] [] [] [] [] []]; try reflexivity; congruence.
Qed.

(** [int(str(z)) == z]. *)
Lemma int_str_nonneg z : 0 <= z < 2 ^ 53 -> Py.int (Py.str z) = inr z.
Proof.
  intros [Hz Hb].
  rewrite first_digit_int
    by (auto using str_nonneg_digits, str_nonneg_not_empty, count_digits_str).
  unfold Py.str. destruct z as [|p|p]; [reflexivity | | lia].
  cbn [Z.to_int NilZero.string_of_int]. rewrite nilzero_pos.
  now rewrite parse_digits_pos.
Qed.

(** ** [split] undoes [join] *)

Definition no_comma (s : string) : bool :=
  string_forallb (fun c => negb (Ascii.eqb c ",")) s.

Lemma digit_string_no_comma s : digit_string s = true -> no_comma s = true.
Proof.
  apply string_forallb_impl. intros c Hc. now rewrite (is_digit_not_comma _ Hc).
Qed.

Lemma split_no_comma s : no_comma s = true -> Py.split "," s = [s].
Proof.
  induction s as [|c s IH]; simpl; auto.
  intros H. apply andb_true_iff in H as [Hc Hs].
  apply negb_true_iff in Hc. rewrite Hc. now rewrite (IH Hs).
Qed.

Lemma split_app_comma s t :
  no_comma s = true ->
  Py.split "," (s ++ String "," t) = s :: Py.split "," t.
Proof.
  induction s as [|c s IH]; simpl; auto.
  intros H. apply andb_true_iff in H as [Hc Hs].
  apply negb_true_iff in Hc. rewrite Hc. now rewrite (IH Hs).
Qed.

Lemma split_join l :
  l <> [] -> Forall (fun s => no_comma s = true) l ->
  Py.split "," (Py.join "," l) = l.
Proof.
  intros Hne H. induction H as [|s l Hs Hl IH]; [congruence|].
  destruct l as [|s' l'].
  - simpl. now apply split_no_comma.
  - unfold Py.join in *.
    change (String.concat "," (s :: s' :: l'))
      with (s ++ String "," (String.concat "," (s' :: l')))%string.
    rewrite split_app_comma by assumption.
    f_equal. apply IH. discriminate.
Qed.

Lemma map_exc_map {A B : Type} (f : A -> Py.exc B) (g : A -> B) l :
  (forall a, In a l -> f a = inr (g a)) ->
  Py.map_exc f l = inr (map g l).
Proof.
  induction l as [|a l IH]; intros H; simpl; auto.
  rewrite (H a) by now left. simpl.
  rewrite IH by (intros; apply H; now right). reflexivity.
Qed.

(** The serialized list of a non-empty list of indices is read back by
    the parser of the focus operator. *)
Lemma parse_ids_join (l : list nat) :
  l <> [] ->
  Forall (fun n => Z.of_nat n < 2 ^ 53) l ->
  Py.split "," (Py.join "," (map Py.str_nat l)) = map Py.str_nat l /\
  parse_ids (Py.join "," (map Py.str_nat l)) = inr (map Z.of_nat l).
Proof.
  intros Hne Hb. rewrite Forall_forall in Hb.
  assert (E : Py.split "," (Py.join "," (map Py.str_nat l)) = map Py.str_nat l).
  { apply split_join.
    - destruct l; [congruence | discriminate].
    - apply Forall_forall. intros s Hs. apply in_map_iff in Hs as [n [<- _]].
      apply digit_string_no_comma, str_nonneg_digits. lia. }
  split; [exact E|].
  unfold parse_ids. rewrite E.
  rewrite map_exc_map with (g := fun s => match Py.int s with inr z => z | inl _ => 0 end).
  - f_equal. rewrite map_map. apply map_ext_in. intros n Hn.
    unfold Py.str_nat. specialize (Hb n Hn).
    rewrite int_str_nonneg by lia. reflexivity.
  - intros s Hs. apply in_map_iff in Hs as [n [<- Hn]].
    unfold Py.str_nat. specialize (Hb n Hn).
    rewrite int_str_nonneg by lia. reflexivity.
Qed.

End StringFacts.

(* ================================================================== *)
(** * The analysis engine computes what [analyzed_report] and
      [analyzed_stats] say                                              *)
(* ================================================================== *)

Section MonadLaws.

Context {A B : Type}.

Lemma bind_ret (a : A) (k : A -> M B) w : bind (ret a) k w = k a w.
Proof. reflexivity. Qed.

Lemma bind_get (k : World -> M B) w : bind get k w = k w w.
Proof. reflexivity. Qed.

Lemma bind_lift_inr (a : A) (k : A -> M B) w : bind (lift (inr a)) k w = k a w.
Proof. reflexivity. Qed.

Lemma bind_lift_inl (e : Py.PyExc) (k : A -> M B) w :
  bind (lift (inl e)) k w = (inl e, w).
Proof. reflexivity. Qed.

Lemma bind_raise (e : Py.PyExc) (k : A -> M B) w :
  bind (raise e) k w = (inl e, w).
Proof. reflexivity. Qed.

End MonadLaws.

Lemma bind_modify {B : Type} f (k : unit -> M B) w :
  bind (modify f) k w = k tt (f w).
Proof. reflexivity. Qed.

Lemma bind_when {B : Type} (b : bool) f (k : unit -> M B) w :
  bind (when b (modify f)) k w = k tt (if b then f w else w).
Proof. destruct b; reflexivity. Qed.

(** [mode_set] on an active object whose type has the mode. *)
Lemma bind_mode_set {B : Type} m obj (k : unit -> M B) w :
  active_object w = Some obj ->
  supports_mode (obj_type obj) m = true ->
  bind (mode_set m) k w = k tt (set_active_object (Some (with_mode m obj)) w).
Proof.
  intros Ho Hs. unfold mode_set. unfold bind at 1 2. unfold get.
  rewrite Ho, Hs. reflexivity.
Qed.

Lemma mesh_supports t m : is_mesh_type t = true -> supports_mode t m = true.
Proof. destruct t; try discriminate. destruct m; reflexivity. Qed.

Lemma bind_bind {A B C : Type} (m : M A) (k : A -> M B) (h : B -> M C) w :
  bind (bind m k) h w = bind m (fun a => bind (k a) h) w.
Proof. unfold bind. destruct (m w) as [[e|a] w']; reflexivity. Qed.

(** ** The sliver loop never raises *)

Lemma flt_zero_not_zero x :
  Py.flt (Py.float_of_int 0) x = true -> Py.is_zero x = false.
Proof. destruct x; simpl; intros H; try reflexivity. discriminate. Qed.

Lemma is_sliver_total bm f :
  is_sliver bm f = inr (sliver_test (edge_lengths bm f)).
Proof.
  unfold is_sliver, sliver_test, edge_lengths.
  unfold Py.len at 1. rewrite <- (length_map e_length).
  fold (Py.len (map e_length (face_edges bm f))).
  destruct (map e_length (face_edges bm f)) as [|x r] eqn:E.
  - reflexivity.
  - destruct (2 <? Py.len (x :: r)); [|reflexivity].
    cbn [Py.min_list Py.max_list Py.exc_bind Py.num_lt Py.to_float andb].
    destruct (Py.flt (Py.float_of_int 0) (Py.min_from x r)) eqn:Hpos;
      [|reflexivity].
    unfold Py.truediv. rewrite (flt_zero_not_zero _ Hpos). reflexivity.
Qed.

Lemma filter_exc_total {A : Type} (p : A -> Py.exc bool) (q : A -> bool) l :
  (forall a, p a = inr (q a)) -> filter_exc p l = inr (filter q l).
Proof.
  intros H. induction l as [|a l IH]; simpl; auto.
  rewrite H, IH. simpl. destruct (q a); reflexivity.
Qed.

Lemma sliver_loop bm :
  filter_exc (fun x => is_sliver bm (snd x)) (Py.enumerate (bm_faces bm))
  = inr (sliver_found bm).
Proof.
  unfold sliver_found, flagged.
  apply filter_exc_total. intros a. apply is_sliver_total.
Qed.

(** ** The clamp never raises *)

Lemma clamp_total cs :
  Py.int_of_num (Py.max2 (Py.NInt 0) (Py.min2 (Py.NInt 100) (Py.NFloat cs)))
  = inr (clamp_score cs).
Proof.
  unfold clamp_score, Py.min2.
  cbn [Py.num_lt Py.to_float].
  destruct (Py.flt cs (Py.float_of_int 100)) eqn:E1.
  - unfold Py.max2. cbn [Py.num_lt Py.to_float].
    destruct (Py.flt (Py.float_of_int 0) cs) eqn:E2; [|reflexivity].
    destruct cs as [s|s| |s m e]; try discriminate.
    + destruct s; discriminate.
    + reflexivity.
  - reflexivity.
Qed.

Lemma int_truediv_nonzero a b :
  b <> 0 ->
  Py.int_truediv a b
  = inr (SFdiv Py.prec Py.emax (Py.float_of_int a) (Py.float_of_int b)).
Proof.
  intros Hb. unfold Py.int_truediv.
  destruct (Z.eqb_spec b 0); [contradiction | reflexivity].
Qed.

Lemma len_zero_iff {A : Type} (l : list A) : Py.len l = 0 <-> l = [].
Proof.
  unfold Py.len. destruct l; simpl; split; intros H; try reflexivity;
    try discriminate; lia.
Qed.

Lemma len_eqb_nonempty {A : Type} (l : list A) :
  (Py.len l =? 0) = negb (nonempty l).
Proof.
  destruct l; reflexivity.
Qed.

Lemma with_mode_restore obj m :
  with_mode (obj_mode obj) (with_mode m obj) = obj.
Proof. destruct obj; reflexivity. Qed.

(** ** The normal form of a completed analysis *)

Lemma set_report_list_same w : set_report_list (topo_report_list w) w = w.
Proof. destruct w; reflexivity. Qed.

Lemma bind_when_issue {B : Type} (b : bool) (it : TopoIssueItem)
      (k : unit -> M B) w :
  bind (when b (modify (fun w0 =>
                  set_report_list (topo_report_list w0 ++ [it]) w0))) k w
  = k tt (set_report_list (topo_report_list w ++ (if b then [it] else [])) w).
Proof.
  destruct b; [reflexivity|].
  rewrite app_nil_r, set_report_list_same. reflexivity.
Qed.

Lemma bind_if_lift_issue {A B : Type} (b : bool) (x : A)
      (it : A -> TopoIssueItem) (k : unit -> M B) w :
  bind (if b
        then bind (lift (inr x)) (fun q =>
               modify (fun w0 =>
                 set_report_list (topo_report_list w0 ++ [it q]) w0))
        else ret tt) k w
  = k tt (set_report_list (topo_report_list w ++ (if b then [it x] else [])) w).
Proof.
  destruct b; [reflexivity|].
  rewrite app_nil_r, set_report_list_same. reflexivity.
Qed.

Lemma report_close (l : list TopoIssueItem) g :
  (l ++ (if Py.len l =? 0 then [g] else []))%list = if nonempty l then l else [g].
Proof. destruct l; [reflexivity|]. cbn. now rewrite app_nil_r. Qed.

Opaque Py.float_of_int Py.fsub Py.fmul SFdiv Py.str indices_str flagged
  sliver_found clamp_score Py.flt.

Ltac norm_world :=
  cbn [set_report_list set_stats set_active_object set_reports set_bmeshes
       set_view_selected_calls
       topo_report_list topo_stats active_object reports bmeshes
       view_selected_calls option_map tl app
       with_score with_ngon_count with_tri_count with_face_count
       with_vert_count with_target_name
       vert_count face_count tri_count ngon_count score target_name].

(** The steps from the copy of the mesh to the last [bm.free()]. *)
Ltac analysis_steps obj Ht :=
  unfold bind at 1; unfold bmesh_new_from_mesh at 1;
  destruct (Z.eqb_spec (Py.len (bm_faces (obj_data obj))) 0) as [E|_];
    [contradiction|];
  do 4 (rewrite bind_modify; norm_world);
  rewrite (int_truediv_nonzero _ _ Ht);
  rewrite (bind_if_lift_issue _ _
             (fun q => {| severity := _; name := _; description := _;
                          element_indices := _; element_type := _;
                          current_pointer := _ |}));
  norm_world;
  rewrite bind_when_issue; norm_world;
  rewrite sliver_loop, bind_lift_inr;
  rewrite bind_when_issue; norm_world;
  rewrite bind_when_issue; norm_world;
  rewrite bind_lift_inr;
  rewrite (int_truediv_nonzero _ _ Ht), bind_lift_inr;
  rewrite clamp_total, bind_lift_inr, bind_modify; norm_world;
  rewrite bind_get, bind_when_issue; norm_world;
  rewrite report_close;
  rewrite bind_modify; norm_world.

Ltac analysis_fold :=
  unfold analyzed_report, defect_issues, ngon_issue, bad_edge_issue,
    sliver_issue, pole_issue, analyzed_stats, score_binary64, ngon_severity,
    good_issue, issue, ngon_description, bad_edge_description,
    sliver_description, pole_description;
  cbv zeta; cbn [Py.num_lt Py.to_float]; rewrite <- !app_assoc;
  reflexivity.

Lemma analyze_on_faces w obj :
  active_object w = Some obj ->
  is_mesh_type (obj_type obj) = true ->
  bm_faces (obj_data obj) <> [] ->
  analyze_execute w =
    (inr FINISHED,
     set_stats (analyzed_stats (obj_name obj) (obj_data obj))
       (set_report_list (analyzed_report (obj_data obj)) w)).
Proof.
  intros Hobj Hmesh Hfaces.
  assert (Ht : Py.len (bm_faces (obj_data obj)) <> 0).
  { intros E. apply len_zero_iff in E. contradiction. }
  destruct w as [rl st ao rp bms vs]. cbn [active_object] in Hobj. subst ao.
  unfold analyze_execute.
  rewrite bind_modify, bind_get. cbv beta. norm_world.
  rewrite Hmesh. cbn [negb]. cbv zeta.
  unfold modify_stats, bmesh_free, add_issue.
  rewrite bind_modify. norm_world.
  destruct (mode_eqb (obj_mode obj) OBJECT) eqn:Hmode; cbn [negb when].
  - rewrite bind_ret. analysis_steps obj Ht.
    rewrite bind_ret. unfold ret. norm_world. f_equal. analysis_fold.
  - rewrite (bind_mode_set OBJECT obj) by reflexivity. norm_world.
    analysis_steps obj Ht.
    rewrite (bind_mode_set (obj_mode obj) (with_mode OBJECT obj))
      by (try reflexivity; apply mesh_supports; exact Hmesh).
    unfold ret. norm_world. rewrite with_mode_restore. f_equal. analysis_fold.
Qed.

Transparent Py.float_of_int Py.fsub Py.fmul SFdiv Py.str indices_str flagged
  sliver_found clamp_score Py.flt.

(** ** The two early exits *)

Lemma active_mesh_none w :
  active_mesh w = None ->
  active_object w = None \/
  exists obj, active_object w = Some obj /\ is_mesh_type (obj_type obj) = false.
Proof.
  unfold active_mesh. destruct (active_object w) as [obj|]; [|now left].
  destruct (is_mesh_type (obj_type obj)) eqn:E; [discriminate|].
  intros _. right. now exists obj.
Qed.

Lemma analyze_without_mesh w :
  active_mesh w = None ->
  analyze_execute w =
    (inr CANCELLED,
     set_reports (reports w ++ [(ERROR, "Please select a Mesh object.")])
       (set_report_list [] w)).
Proof.
  intros H. apply active_mesh_none in H.
  destruct w as [rl st ao rp bms vs]. cbn [active_object] in H.
  unfold analyze_execute.
  rewrite bind_modify, bind_get. cbv beta. norm_world.
  destruct H as [-> | [obj [-> Hty]]].
  - reflexivity.
  - rewrite Hty. reflexivity.
Qed.

Lemma analyze_without_faces w obj :
  active_object w = Some obj ->
  is_mesh_type (obj_type obj) = true ->
  bm_faces (obj_data obj) = [] ->
  analyze_execute w =
    (inr FINISHED,
     set_active_object (Some (in_mode OBJECT obj))
       (set_stats (with_target_name (obj_name obj) (topo_stats w))
          (set_report_list [] w))).
Proof.
  intros Hobj Hmesh Hfaces.
  destruct w as [rl st ao rp bms vs]. cbn [active_object] in Hobj. subst ao.
  unfold analyze_execute.
  rewrite bind_modify, bind_get. cbv beta. norm_world.
  rewrite Hmesh. cbn [negb]. cbv zeta.
  unfold modify_stats, bmesh_free.
  rewrite bind_modify. norm_world. unfold in_mode.
  destruct (mode_eqb (obj_mode obj) OBJECT); cbn [negb when].
  - rewrite bind_ret.
    unfold bind at 1. unfold bmesh_new_from_mesh at 1.
    rewrite Hfaces. cbn [Py.len List.length Z.of_nat Z.eqb].
    rewrite bind_modify. reflexivity.
  - rewrite (bind_mode_set OBJECT obj) by reflexivity. norm_world.
    unfold bind at 1. unfold bmesh_new_from_mesh at 1.
    rewrite Hfaces. cbn [Py.len List.length Z.of_nat Z.eqb].
    rewrite bind_modify. reflexivity.
Qed.

(* ================================================================== *)
(** * Binary64 facts used by the scoring lines                          *)
(* ================================================================== *)

Section FloatFacts.

Lemma digits2_pos_size p : digits2_pos p = Pos.size p.
Proof. induction p; simpl; congruence. Qed.

Lemma digits2_pos_bound p : Zpos p < 2 ^ 53 -> Zpos (digits2_pos p) <= 53.
Proof.
  intros H. rewrite digits2_pos_size.
  pose proof (Pos.size_le p) as Hle.
  assert (Hz : 2 ^ Zpos (Pos.size p) <= 2 * Zpos p).
  { rewrite <- Pos2Z.inj_pow. change (2 * Zpos p) with (Zpos p~0).
    apply Pos2Z.pos_le_pos. exact Hle. }
  assert (Hlt : 2 ^ Zpos (Pos.size p) < 2 ^ 54).
  { change (2 ^ 54) with (2 * 2 ^ 53). lia. }
  apply Z.pow_lt_mono_r_iff in Hlt; lia.
Qed.

Lemma digits2_pos_iter p k :
  digits2_pos (Pos.iter xO p k) = (digits2_pos p + k)%positive.
Proof.
  induction k using Pos.peano_ind.
  - simpl. lia.
  - rewrite Pos.iter_succ. simpl. rewrite IHk. lia.
Qed.

(** A mantissa of 53 bits with an exponent in range is kept as it is. *)
Lemma binary_round_aux_exact mz ez :
  Zpos (digits2_pos mz) = 53 -> -1074 <= ez <= 971 ->
  binary_round_aux Py.prec Py.emax false (Zpos mz) ez loc_Exact
  = S754_finite false mz ez.
Proof.
  intros Hd He.
  assert (Hshift : fexp Py.prec Py.emax (Zdigits2 (Zpos mz) + ez) - ez = 0).
  { unfold fexp, emin, Py.prec, Py.emax. cbn [Zdigits2]. rewrite Hd. lia. }
  unfold binary_round_aux, shr_fexp.
  rewrite Hshift. cbn [shr shr_record_of_loc shr_m loc_of_shr_record
                       round_nearest_even].
  rewrite Hshift. cbn [shr shr_record_of_loc shr_m].
  destruct (Z.leb_spec ez (Py.emax - Py.prec)) as [_|Hgt]; [reflexivity|].
  unfold Py.emax, Py.prec in Hgt. lia.
Qed.

(** [float(n)] for a positive integer below 2^53 is a positive finite
    number. *)
Lemma float_of_int_pos p :
  Zpos p < 2 ^ 53 ->
  exists m e, Py.float_of_int (Zpos p) = S754_finite false m e.
Proof.
  intros Hp. pose proof (digits2_pos_bound p Hp) as Hd.
  unfold Py.float_of_int, binary_normalize, binary_round.
  assert (Hf : fexp Py.prec Py.emax (Zpos (digits2_pos p) + 0)
               = Zpos (digits2_pos p) - 53).
  { unfold fexp, emin, Py.prec, Py.emax. lia. }
  rewrite Hf. unfold shl_align.
  destruct (Zpos (digits2_pos p) - 53 - 0) as [|k|k] eqn:Ek; try lia.
  - exists p, 0. apply binary_round_aux_exact; lia.
  - exists (Pos.iter xO p k), (Zpos (digits2_pos p) - 53).
    apply binary_round_aux_exact; [|lia].
    rewrite digits2_pos_iter. lia.
Qed.

Lemma zero_div_pos t :
  0 < t < 2 ^ 53 ->
  SFdiv Py.prec Py.emax (Py.float_of_int 0) (Py.float_of_int t) = S754_zero false.
Proof.
  intros [H0 H1]. destruct t as [|p|p]; try lia.
  destruct (float_of_int_pos p H1) as [m [e ->]]. reflexivity.
Qed.

(** With no n-gon and no sliver the score is 100, or 75 when a
    non-manifold edge exists. *)
Lemma score_binary64_clean bad t :
  0 < t < 2 ^ 53 ->
  score_binary64 0 bad 0 t = if bad then 75 else 100.
Proof.
  intros Ht. unfold score_binary64. cbv zeta.
  rewrite (zero_div_pos t Ht). destruct bad; vm_compute; reflexivity.
Qed.

End FloatFacts.

(* ================================================================== *)
(** * The analysis operator: what the specification says of it         *)
(* ================================================================== *)

(** The three ways through [analyze_execute]. *)
Lemma analyze_cases w :
  active_mesh w = None \/
  (exists obj, active_object w = Some obj /\ is_mesh_type (obj_type obj) = true
               /\ bm_faces (obj_data obj) = []) \/
  (exists obj, active_object w = Some obj /\ is_mesh_type (obj_type obj) = true
               /\ bm_faces (obj_data obj) <> []).
Proof.
  unfold active_mesh. destruct (active_object w) as [obj|]; [|now left].
  destruct (is_mesh_type (obj_type obj)) eqn:E; [|now left].
  right. destruct (bm_faces (obj_data obj)) eqn:F.
  - left. now exists obj.
  - right. exists obj. rewrite F. repeat split; auto. discriminate.
Qed.

(** C4, as amended.  When no object is active, or the active object is
    not a mesh, the analysis operator reports an error and is cancelled;
    the stats record, the active object and the live BMesh copies are
    exactly as before, and the report list is empty afterwards: it is
    cleared before the object is looked at. *)
Theorem analyze_rejects_non_mesh w :
  active_mesh w = None ->
  fst (analyze_execute w) = inr CANCELLED /\
  reports (snd (analyze_execute w))
    = (reports w ++ [(ERROR, "Please select a Mesh object.")])%list /\
  topo_stats (snd (analyze_execute w)) = topo_stats w /\
  topo_report_list (snd (analyze_execute w)) = [] /\
  active_object (snd (analyze_execute w)) = active_object w /\
  bmeshes (snd (analyze_execute w)) = bmeshes w.
Proof.
  intros H. rewrite (analyze_without_mesh w H).
  destruct w; repeat split.
Qed.

Lemma analyze_rejects_non_mesh_witness :
  active_mesh world_camera_active = None /\
  fst (analyze_execute world_camera_active) = inr CANCELLED /\
  reports (snd (analyze_execute world_camera_active))
    = (reports world_camera_active ++ [(ERROR, "Please select a Mesh object.")])%list /\
  topo_stats (snd (analyze_execute world_camera_active))
    = topo_stats world_camera_active /\
  topo_report_list (snd (analyze_execute world_camera_active)) = [] /\
  active_object (snd (analyze_execute world_camera_active))
    = active_object world_camera_active /\
  bmeshes (snd (analyze_execute world_camera_active)) = bmeshes world_camera_active.
Proof.
  split; [reflexivity | apply (analyze_rejects_non_mesh world_camera_active); reflexivity].
Defined.

(** C4 as stated fails: with nothing active, the report list of the
    earlier run is gone after the cancelled invocation. *)
Lemma analyze_cancelled_clears_report :
  active_object world_nothing_active = None /\
  fst (analyze_execute world_nothing_active) = inr CANCELLED /\
  topo_report_list world_nothing_active = earlier_report /\
  topo_report_list (snd (analyze_execute world_nothing_active)) = [] /\
  topo_report_list (snd (analyze_execute world_nothing_active))
    <> topo_report_list world_nothing_active.
Proof. repeat split; discriminate. Qed.

(** C5, as amended.  On a mesh with zero faces the analysis operator
    finishes without any report; of the stats record it writes the
    target name only, so the vertex, face, triangle and n-gon counts and
    the score keep their earlier values; the report list is empty and
    no BMesh copy is left alive. *)
Theorem analyze_faceless_mesh w obj :
  active_object w = Some obj ->
  is_mesh_type (obj_type obj) = true ->
  bm_faces (obj_data obj) = [] ->
  fst (analyze_execute w) = inr FINISHED /\
  reports (snd (analyze_execute w)) = reports w /\
  topo_report_list (snd (analyze_execute w)) = [] /\
  topo_stats (snd (analyze_execute w))
    = with_target_name (obj_name obj) (topo_stats w) /\
  vert_count (topo_stats (snd (analyze_execute w))) = vert_count (topo_stats w) /\
  face_count (topo_stats (snd (analyze_execute w))) = face_count (topo_stats w) /\
  score (topo_stats (snd (analyze_execute w))) = score (topo_stats w) /\
  bmeshes (snd (analyze_execute w)) = bmeshes w.
Proof.
  intros Hobj Hmesh Hfaces.
  rewrite (analyze_without_faces w obj Hobj Hmesh Hfaces).
  destruct w; repeat split.
Qed.

Lemma analyze_faceless_mesh_witness :
  let w := world_faceless_edit in
  let obj := mesh_object "Dots" EDIT loose_verts in
  active_object w = Some obj /\
  is_mesh_type (obj_type obj) = true /\
  bm_faces (obj_data obj) = [] /\
  fst (analyze_execute w) = inr FINISHED /\
  reports (snd (analyze_execute w)) = reports w /\
  topo_report_list (snd (analyze_execute w)) = [] /\
  topo_stats (snd (analyze_execute w))
    = with_target_name (obj_name obj) (topo_stats w) /\
  vert_count (topo_stats (snd (analyze_execute w))) = vert_count (topo_stats w) /\
  face_count (topo_stats (snd (analyze_execute w))) = face_count (topo_stats w) /\
  score (topo_stats (snd (analyze_execute w))) = score (topo_stats w) /\
  bmeshes (snd (analyze_execute w)) = bmeshes w.
Proof.
  cbv zeta. split; [reflexivity|]. split; [reflexivity|]. split; [reflexivity|].
  apply (analyze_faceless_mesh world_faceless_edit
           (mesh_object "Dots" EDIT loose_verts)); reflexivity.
Defined.

(** C5 as stated fails: the mesh has three vertices and no face, and
    after the run the stats still hold the counts of the earlier mesh
    (8 and 6), under the name of the new one. *)
Lemma analyze_faceless_keeps_old_counts :
  Py.len (bm_verts loose_verts) = 3 /\ Py.len (bm_faces loose_verts) = 0 /\
  vert_count (topo_stats (snd (analyze_execute world_faceless_edit))) = 8 /\
  face_count (topo_stats (snd (analyze_execute world_faceless_edit))) = 6 /\
  target_name (topo_stats world_faceless_edit) = "Cube" /\
  target_name (topo_stats (snd (analyze_execute world_faceless_edit))) = "Dots".
Proof. repeat split. Qed.

(** C6 fails on the zero-face exit: the object was in edit mode, the
    operator finishes, and the object is left in object mode. *)
Theorem analyze_faceless_leaves_object_mode :
  active_mode world_faceless_edit = Some EDIT /\
  fst (analyze_execute world_faceless_edit) = inr FINISHED /\
  active_mode (snd (analyze_execute world_faceless_edit)) = Some OBJECT.
Proof. repeat split. Qed.

(** The exit at the end of the operator does restore the mode. *)
Lemma analyze_restores_mode w obj :
  active_object w = Some obj ->
  is_mesh_type (obj_type obj) = true ->
  bm_faces (obj_data obj) <> [] ->
  active_mode (snd (analyze_execute w)) = active_mode w.
Proof.
  intros Hobj Hmesh Hfaces.
  rewrite (analyze_on_faces w obj Hobj Hmesh Hfaces).
  destruct w; reflexivity.
Qed.

(** C10.  On every path the analysis operator returns normally, the
    mesh data of the active object is what it was, and every BMesh copy
    that was made has been freed. *)
Theorem analyze_leaves_mesh_untouched w :
  (exists r, fst (analyze_execute w) = inr r) /\
  active_data (snd (analyze_execute w)) = active_data w /\
  bmeshes (snd (analyze_execute w)) = bmeshes w.
Proof.
  destruct (analyze_cases w) as [H | [[obj [Hobj [Hmesh Hf]]] | [obj [Hobj [Hmesh Hf]]]]].
  - rewrite (analyze_without_mesh w H). split; [now exists CANCELLED|].
    destruct w; split; reflexivity.
  - rewrite (analyze_without_faces w obj Hobj Hmesh Hf).
    split; [now exists FINISHED|].
    destruct w as [rl st ao rp bms vs]. cbn [active_object] in Hobj. subst ao.
    unfold active_data, in_mode. cbn.
    destruct (mode_eqb (obj_mode obj) OBJECT); split; reflexivity.
  - rewrite (analyze_on_faces w obj Hobj Hmesh Hf).
    split; [now exists FINISHED|].
    destruct w; split; reflexivity.
Qed.

(** ** The score *)

Lemma map_fst_nil {A B : Type} (l : list (A * B)) : map fst l = [] -> l = [].
Proof. destruct l; [reflexivity | discriminate]. Qed.

Lemma len_map_fst {A B : Type} (l : list (A * B)) : Py.len (map fst l) = Py.len l.
Proof. unfold Py.len. now rewrite length_map. Qed.

Lemma nonempty_map_fst {A B : Type} (l : list (A * B)) :
  nonempty (map fst l) = nonempty l.
Proof. destruct l; reflexivity. Qed.

Lemma nonempty_true {A : Type} (l : list A) : l <> [] -> nonempty l = true.
Proof. destruct l; [congruence | reflexivity]. Qed.

Lemma analyzed_score nm bm :
  score (analyzed_stats nm bm)
  = score_binary64 (Py.len (ngon_indices bm)) (nonempty (bad_edge_indices bm))
      (Py.len (sliver_indices bm)) (Py.len (bm_faces bm)).
Proof.
  unfold ngon_indices, bad_edge_indices, sliver_indices.
  rewrite !len_map_fst, nonempty_map_fst. reflexivity.
Qed.

(** C1, as amended.  After the analysis of a mesh with at least one
    face, the stored score is 100.0 minus (n-gons / faces) * 200, minus
    25 when a non-manifold edge exists, minus (slivers / faces) * 100,
    every operation being the binary64 operation of the interpreter in
    this order, then clamped to [0, 100] and truncated.  In particular a
    mesh (of fewer than 2^53 faces) whose only defect is non-manifold
    edges gets exactly one issue record, of severity CRITICAL, and the
    score 75. *)
Theorem analyze_score w obj :
  active_object w = Some obj ->
  is_mesh_type (obj_type obj) = true ->
  bm_faces (obj_data obj) <> [] ->
  fst (analyze_execute w) = inr FINISHED /\
  score (topo_stats (snd (analyze_execute w)))
    = score_binary64
        (Py.len (ngon_indices (obj_data obj)))
        (nonempty (bad_edge_indices (obj_data obj)))
        (Py.len (sliver_indices (obj_data obj)))
        (Py.len (bm_faces (obj_data obj))) /\
  (ngon_indices (obj_data obj) = [] ->
   sliver_indices (obj_data obj) = [] ->
   pole_indices (obj_data obj) = [] ->
   bad_edge_indices (obj_data obj) <> [] ->
   Py.len (bm_faces (obj_data obj)) < 2 ^ 53 ->
   score (topo_stats (snd (analyze_execute w))) = 75 /\
   exists it, topo_report_list (snd (analyze_execute w)) = [it] /\
              severity it = "CRITICAL").
Proof.
  intros Hobj Hmesh Hfaces.
  rewrite (analyze_on_faces w obj Hobj Hmesh Hfaces).
  cbn [fst snd].
  assert (Hscore : score (topo_stats
            (set_stats (analyzed_stats (obj_name obj) (obj_data obj))
              (set_report_list (analyzed_report (obj_data obj)) w)))
          = score (analyzed_stats (obj_name obj) (obj_data obj))).
  { destruct w; reflexivity. }
  split; [reflexivity|]. split.
  - rewrite Hscore. apply analyzed_score.
  - intros Hn Hs Hp Hb Hlt. split.
    + rewrite Hscore, analyzed_score, Hn, Hs.
      rewrite (nonempty_true _ Hb).
      apply (score_binary64_clean true).
      split; [|exact Hlt].
      unfold Py.len. destruct (bm_faces (obj_data obj)); [congruence|].
      cbn [List.length]. lia.
    + unfold ngon_indices, sliver_indices, pole_indices, bad_edge_indices in *.
      apply map_fst_nil in Hn, Hs, Hp.
      assert (Hb' : nonempty (flagged is_bad_edge (bm_edges (obj_data obj))) = true).
      { rewrite <- nonempty_map_fst. now apply nonempty_true. }
      eexists. split.
      * destruct w. cbn [set_stats set_report_list topo_report_list].
        unfold analyzed_report, defect_issues, ngon_issue, bad_edge_issue,
          sliver_issue, pole_issue, sliver_found.
        cbv zeta. rewrite Hn, Hs, Hp, Hb'. cbn [nonempty app]. reflexivity.
      * reflexivity.
Qed.

Lemma analyze_score_witness :
  active_object world_open_quad = Some (mesh_object "Plane" OBJECT (islands [4%nat])) /\
  is_mesh_type MESH = true /\
  bm_faces (islands [4%nat]) <> [] /\
  fst (analyze_execute world_open_quad) = inr FINISHED /\
  score (topo_stats (snd (analyze_execute world_open_quad)))
    = score_binary64 0 true 0 1 /\
  score (topo_stats (snd (analyze_execute world_open_quad))) = 75 /\
  exists it, topo_report_list (snd (analyze_execute world_open_quad)) = [it] /\
             severity it = "CRITICAL".
Proof.
  assert (Hf : bm_faces (islands [4%nat]) <> []) by discriminate.
  destruct (analyze_score world_open_quad
              (mesh_object "Plane" OBJECT (islands [4%nat]))
              eq_refl eq_refl Hf) as [H1 [H2 H3]].
  split; [reflexivity|]. split; [reflexivity|]. split; [exact Hf|].
  split; [exact H1|]. split; [exact H2|].
  apply H3; [reflexivity | reflexivity | reflexivity | discriminate | reflexivity].
Defined.

(** C1 as stated fails when the sentence is read in exact arithmetic:
    for 7 n-gons among 25 faces (and boundary edges) the sentence gives
    100 - 56 - 25 = 19, and the operator stores 18, because
    (7 / 25) * 200 is 56.00000000000001 in binary64. *)
Lemma score_is_not_exact_arithmetic :
  Py.len (bm_faces quads_and_pentagons) = 25 /\
  Py.len (ngon_indices quads_and_pentagons) = 7 /\
  nonempty (bad_edge_indices quads_and_pentagons) = true /\
  sliver_indices quads_and_pentagons = [] /\
  fst (analyze_execute world_quads_and_pentagons) = inr FINISHED /\
  score (topo_stats (snd (analyze_execute world_quads_and_pentagons))) = 18 /\
  score_exact 7 true 0 25 = 19.
Proof. vm_compute. repeat split. Qed.

(** ** The serialized index lists *)

Section Flagged.

Context {A : Type} (p : A -> bool).

Lemma in_combine_seq (l : list A) : forall s i a,
  In (i, a) (combine (seq s (List.length l)) l)
  <-> (s <= i)%nat /\ nth_error l (i - s) = Some a.
Proof.
  induction l as [|x l IH]; intros s i a; cbn [List.length seq combine].
  - split; [intros [] | intros [_ H]]. destruct (i - s)%nat; discriminate.
  - cbn [In]. rewrite IH. split.
    + intros [E | [Hle Hn]].
      * inversion E; subst. rewrite Nat.sub_diag. split; [lia | reflexivity].
      * split; [lia|]. replace (i - s)%nat with (S (i - S s)) by lia. exact Hn.
    + intros [Hle Hn]. destruct (Nat.eq_dec i s) as [->|Hne].
      * rewrite Nat.sub_diag in Hn. cbn in Hn. inversion Hn. now left.
      * right. split; [lia|].
        replace (i - s)%nat with (S (i - S s)) in Hn by lia. exact Hn.
Qed.

(** The flagged indices are the positions whose element passes the
    test. *)
Lemma flagged_indices_spec (t : list A) i :
  In i (map fst (flagged p t))
  <-> exists a, nth_error t i = Some a /\ p a = true.
Proof.
  unfold flagged, Py.enumerate. rewrite in_map_iff. split.
  - intros [[j a] [E Hin]]. cbn in E. subst j.
    apply filter_In in Hin as [Hin Hp]. apply in_combine_seq in Hin as [_ Hn].
    rewrite Nat.sub_0_r in Hn. now exists a.
  - intros [a [Hn Hp]]. exists (i, a). split; [reflexivity|].
    apply filter_In. split; [|exact Hp].
    apply in_combine_seq. rewrite Nat.sub_0_r. split; [lia | exact Hn].
Qed.

Lemma filter_combine_seq_sorted (q : nat * A -> bool) (l : list A) : forall s,
  StronglySorted lt (map fst (filter q (combine (seq s (List.length l)) l))) /\
  Forall (fun i => (s <= i)%nat) (map fst (filter q (combine (seq s (List.length l)) l))).
Proof.
  induction l as [|x l IH]; intros s; cbn [List.length seq combine filter].
  - split; constructor.
  - destruct (IH (S s)) as [Hs Hf].
    assert (Hf' : Forall (fun i => (s <= i)%nat)
                    (map fst (filter q (combine (seq (S s) (List.length l)) l)))).
    { eapply Forall_impl; [|exact Hf]. cbn. intros; lia. }
    destruct (q (s, x)); cbn [map fst].
    + split.
      * constructor; [exact Hs|]. eapply Forall_impl; [|exact Hf]. cbn. intros; lia.
      * constructor; [lia | exact Hf'].
    + split; assumption.
Qed.

(** They come in index order, without repetition. *)
Lemma flagged_indices_sorted (t : list A) :
  StronglySorted lt (map fst (flagged p t)).
Proof. unfold flagged, Py.enumerate. apply filter_combine_seq_sorted. Qed.

Lemma indices_str_eq (found : list (nat * A)) :
  indices_str found = Py.join "," (map Py.str_nat (firstn 200 (map fst found))).
Proof. unfold indices_str. now rewrite firstn_map, map_map. Qed.

(** The entries of a serialized list. *)
Lemma indices_str_split (found : list (nat * A)) :
  found <> [] ->
  Py.split "," (indices_str found) = map Py.str_nat (firstn 200 (map fst found)) /\
  (List.length (Py.split "," (indices_str found)) <= 200)%nat.
Proof.
  intros Hne. rewrite indices_str_eq.
  assert (Hne' : map Py.str_nat (firstn 200 (map fst found)) <> []).
  { destruct found; [congruence | discriminate]. }
  assert (Hs : Py.split "," (Py.join "," (map Py.str_nat (firstn 200 (map fst found))))
               = map Py.str_nat (firstn 200 (map fst found))).
  { apply split_join; [exact Hne'|].
    apply Forall_forall. intros s Hs. apply in_map_iff in Hs as [n [<- _]].
    apply digit_string_no_comma, str_nonneg_digits. lia. }
  split; [exact Hs|].
  rewrite Hs, length_map, length_firstn. apply Nat.le_min_l.
Qed.

(** What the focus operator reads back from a serialized list. *)
Lemma indices_str_parse (found : list (nat * A)) :
  found <> [] ->
  Forall (fun i => Z.of_nat i < 2 ^ 53) (map fst found) ->
  parse_ids (indices_str found) = inr (map Z.of_nat (firstn 200 (map fst found))).
Proof.
  intros Hne Hb. rewrite indices_str_eq.
  assert (Hne' : firstn 200 (map fst found) <> []).
  { destruct found; [congruence | discriminate]. }
  apply parse_ids_join; [exact Hne'|].
  rewrite Forall_forall in *. intros n Hn. apply Hb.
  rewrite <- (firstn_skipn 200 (map fst found)). apply in_or_app. now left.
Qed.

Lemma flagged_positions_flagged (t : list A) :
  flagged_positions p t (map fst (flagged p t)).
Proof.
  split; [apply flagged_indices_sorted | apply flagged_indices_spec].
Qed.

End Flagged.

Lemma nonempty_ne {A : Type} (l : list A) : nonempty l = true -> l <> [].
Proof. destruct l; [discriminate | discriminate]. Qed.


(** The records of a completed analysis, one by one. *)
Lemma analyzed_report_In bm it :
  In it (analyzed_report bm) ->
  it = good_issue \/
  (exists found : list (nat * BMFace), found <> [] /\
      element_indices it = indices_str found) \/
  (exists found : list (nat * BMEdge), found <> [] /\
      element_indices it = indices_str found) \/
  (exists found : list (nat * BMVert), found <> [] /\
      element_indices it = indices_str found).
Proof.
  unfold analyzed_report.
  assert (Hd : In it (defect_issues bm) ->
    (exists found : list (nat * BMFace), found <> [] /\
        element_indices it = indices_str found) \/
    (exists found : list (nat * BMEdge), found <> [] /\
        element_indices it = indices_str found) \/
    (exists found : list (nat * BMVert), found <> [] /\
        element_indices it = indices_str found)).
  { unfold defect_issues, ngon_issue, bad_edge_issue, sliver_issue, pole_issue.
    cbv zeta. rewrite !in_app_iff.
    intros [H | [H | [H | H]]].
    - destruct (nonempty (flagged is_ngon (bm_faces bm))) eqn:E; [|contradiction].
      destruct H as [<-|[]]. left. eexists. split; [|reflexivity].
      now apply nonempty_ne.
    - destruct (nonempty (flagged is_bad_edge (bm_edges bm))) eqn:E; [|contradiction].
      destruct H as [<-|[]]. right; left. eexists. split; [|reflexivity].
      now apply nonempty_ne.
    - destruct (nonempty (sliver_found bm)) eqn:E; [|contradiction].
      destruct H as [<-|[]]. left. eexists. split; [|reflexivity].
      now apply nonempty_ne.
    - destruct (nonempty (flagged is_pole (bm_verts bm))) eqn:E; [|contradiction].
      destruct H as [<-|[]]. right; right. eexists. split; [|reflexivity].
      now apply nonempty_ne. }
  destruct (nonempty (defect_issues bm)).
  - intros H. right. now apply Hd.
  - intros [<-|[]]. now left.
Qed.

Lemma analyzed_report_has bm it :
  In it (defect_issues bm) -> In it (analyzed_report bm).
Proof.
  intros H. unfold analyzed_report.
  destruct (defect_issues bm); [contradiction | exact H].
Qed.

(** A strictly increasing list is known by its elements. *)
Lemma sorted_unique (l1 : list nat) : forall l2,
  StronglySorted lt l1 -> StronglySorted lt l2 ->
  (forall i, In i l1 <-> In i l2) -> l1 = l2.
Proof.
  induction l1 as [|a1 t1 IH]; intros l2 H1 H2 Hin.
  - destruct l2 as [|a2 t2]; [reflexivity|].
    exfalso. apply (Hin a2). now left.
  - destruct l2 as [|a2 t2]; [exfalso; apply (Hin a1); now left|].
    inversion H1 as [|? ? Hs1 Hf1]; subst. inversion H2 as [|? ? Hs2 Hf2]; subst.
    rewrite Forall_forall in Hf1, Hf2.
    assert (E : a1 = a2).
    { destruct (proj1 (Hin a1) (or_introl eq_refl)) as [E|Hi]; [now symmetry|].
      destruct (proj2 (Hin a2) (or_introl eq_refl)) as [E|Hj]; [exact E|].
      specialize (Hf2 a1 Hi). specialize (Hf1 a2 Hj). lia. }
    subst a2. f_equal. apply IH; [exact Hs1 | exact Hs2 |].
    intros i. split; intros Hi.
    + destruct (proj1 (Hin i) (or_intror Hi)) as [E|Hj]; [|exact Hj].
      specialize (Hf1 i Hi). lia.
    + destruct (proj2 (Hin i) (or_intror Hi)) as [E|Hj]; [|exact Hj].
      specialize (Hf2 i Hi). lia.
Qed.

Lemma flagged_positions_unique {A : Type} (P : A -> bool) (t : list A) found :
  flagged_positions P t found -> found = map fst (flagged P t).
Proof.
  intros [Hs Hi]. apply sorted_unique; [exact Hs | apply flagged_indices_sorted |].
  intros i. rewrite Hi. symmetry. apply flagged_indices_spec.
Qed.

(** The record of one check. *)
Lemma check_record {A : Type} (P : A -> bool) (t : list A)
      (rl : list TopoIssueItem) sev nm descr ty :
  flagged P t <> [] ->
  In (issue sev nm descr (indices_str (flagged P t)) ty) rl ->
  forall found, flagged_positions P t found -> check_written rl descr ty found.
Proof.
  intros Hne Hin found Hfound.
  rewrite (flagged_positions_unique P t found Hfound).
  destruct (indices_str_split _ Hne) as [Hs Hl].
  exists (issue sev nm descr (indices_str (flagged P t)) ty).
  split; [exact Hin|]. split; [reflexivity|]. split; [reflexivity|].
  split; [exact Hs|]. split.
  - cbn [issue element_indices]. rewrite Hs, length_map, length_firstn. reflexivity.
  - intros Hb. now apply indices_str_parse.
Qed.

Lemma flagged_positions_nonempty {A : Type} (P : A -> bool) (t : list A) found :
  flagged_positions P t found -> found <> [] -> flagged P t <> [].
Proof.
  intros Hf Hne E. apply Hne.
  rewrite (flagged_positions_unique P t found Hf), E. reflexivity.
Qed.

(** C7.  After the analysis of a mesh with at least one face, the
    serialized list of every record of the report has at most 200
    entries.  For each of the four checks (n-gons, non-manifold edges,
    slivers, poles): whenever [found] is the strictly increasing list of
    the positions of the table whose element the check flags, and it is
    not empty, the report holds the record of that check, and the
    entries of its serialized list are the decimal numerals of the
    first 200 positions of [found], in that order, and no more; the
    parser of the focus operator reads these positions back. *)
Theorem serialized_indices_capped w obj :
  active_object w = Some obj ->
  is_mesh_type (obj_type obj) = true ->
  bm_faces (obj_data obj) <> [] ->
  Forall (fun it => (List.length (Py.split "," (element_indices it)) <= 200)%nat)
    (topo_report_list (snd (analyze_execute w))) /\
  (forall found,
      flagged_positions is_ngon (bm_faces (obj_data obj)) found -> found <> [] ->
      check_written (topo_report_list (snd (analyze_execute w)))
        ngon_description "FACE" found) /\
  (forall found,
      flagged_positions is_bad_edge (bm_edges (obj_data obj)) found -> found <> [] ->
      check_written (topo_report_list (snd (analyze_execute w)))
        bad_edge_description "EDGE" found) /\
  (forall found,
      flagged_positions (fun f => sliver_test (edge_lengths (obj_data obj) f))
        (bm_faces (obj_data obj)) found -> found <> [] ->
      check_written (topo_report_list (snd (analyze_execute w)))
        sliver_description "FACE" found) /\
  (forall found,
      flagged_positions is_pole (bm_verts (obj_data obj)) found -> found <> [] ->
      check_written (topo_report_list (snd (analyze_execute w)))
        pole_description "VERT" found).
Proof.
  intros Hobj Hmesh Hfaces.
  rewrite (analyze_on_faces w obj Hobj Hmesh Hfaces). cbn [snd].
  assert (Hrl : topo_report_list
                  (set_stats (analyzed_stats (obj_name obj) (obj_data obj))
                     (set_report_list (analyzed_report (obj_data obj)) w))
                = analyzed_report (obj_data obj)).
  { destruct w; reflexivity. }
  rewrite Hrl. clear Hrl. set (bm := obj_data obj).
  split; [|split; [|split; [|split]]].
  - apply Forall_forall. intros it Hin.
    apply analyzed_report_In in Hin
      as [-> | [[found [Hne ->]] | [[found [Hne ->]] | [found [Hne ->]]]]].
    + cbn. lia.
    + now apply indices_str_split.
    + now apply indices_str_split.
    + now apply indices_str_split.
  - intros found Hf Hne.
    pose proof (flagged_positions_nonempty _ _ _ Hf Hne) as Hne'.
    eapply check_record; [exact Hne' | | exact Hf].
    apply analyzed_report_has. unfold defect_issues.
    apply in_or_app. left.
    unfold ngon_issue. cbv zeta. rewrite (nonempty_true _ Hne'). now left.
  - intros found Hf Hne.
    pose proof (flagged_positions_nonempty _ _ _ Hf Hne) as Hne'.
    eapply check_record; [exact Hne' | | exact Hf].
    apply analyzed_report_has. unfold defect_issues.
    apply in_or_app. right. apply in_or_app. left.
    unfold bad_edge_issue. cbv zeta. rewrite (nonempty_true _ Hne'). now left.
  - intros found Hf Hne.
    pose proof (flagged_positions_nonempty _ _ _ Hf Hne) as Hne'.
    fold (sliver_found bm) in Hne'.
    eapply (check_record (fun f => sliver_test (edge_lengths bm f)));
      [exact Hne' | | exact Hf].
    apply analyzed_report_has. unfold defect_issues.
    apply in_or_app. right. apply in_or_app. right. apply in_or_app. left.
    unfold sliver_issue. cbv zeta. rewrite (nonempty_true _ Hne'). now left.
  - intros found Hf Hne.
    pose proof (flagged_positions_nonempty _ _ _ Hf Hne) as Hne'.
    eapply check_record; [exact Hne' | | exact Hf].
    apply analyzed_report_has. unfold defect_issues.
    apply in_or_app. right. apply in_or_app. right. apply in_or_app. right.
    unfold pole_issue. cbv zeta. rewrite (nonempty_true _ Hne'). now left.
Qed.

(** Seventy open quads have 280 boundary edges, at the positions 0 to
    279: the record of the check holds the numerals of 0 to 199. *)
Lemma seventy_quads_bad_edges :
  flagged_positions is_bad_edge (bm_edges seventy_quads) (seq 0 280).
Proof.
  assert (E : seq 0 280 = map fst (flagged is_bad_edge (bm_edges seventy_quads)))
    by (vm_compute; reflexivity).
  rewrite E. apply flagged_positions_flagged.
Qed.

Lemma below_2_53 (l : list nat) (n : nat) :
  Z.of_nat n < 2 ^ 53 -> Forall (fun i => (i < n)%nat) l ->
  Forall (fun i => Z.of_nat i < 2 ^ 53) l.
Proof. intros Hn. apply Forall_impl. intros i Hi. lia. Qed.

Lemma serialized_indices_capped_witness :
  let w := world_seventy_quads in
  let obj := mesh_object "Tiles" OBJECT seventy_quads in
  active_object w = Some obj /\
  is_mesh_type (obj_type obj) = true /\
  bm_faces (obj_data obj) <> [] /\
  flagged_positions is_bad_edge (bm_edges (obj_data obj)) (seq 0 280) /\
  seq 0 280 <> [] /\
  exists it,
    In it (topo_report_list (snd (analyze_execute w))) /\
    description it = bad_edge_description /\
    element_type it = "EDGE" /\
    Py.split "," (element_indices it) = map Py.str_nat (seq 0 200) /\
    List.length (Py.split "," (element_indices it)) = 200%nat /\
    parse_ids (element_indices it) = inr (map Z.of_nat (seq 0 200)).
Proof.
  cbv zeta.
  assert (Hf : bm_faces (obj_data (mesh_object "Tiles" OBJECT seventy_quads)) <> [])
    by discriminate.
  assert (Hne : seq 0 280 <> []) by discriminate.
  assert (Hb : Forall (fun i => Z.of_nat i < 2 ^ 53) (seq 0 280)).
  { apply (below_2_53 _ 280); [reflexivity|].
    apply Forall_forall. intros i Hi. apply in_seq in Hi. lia. }
  split; [reflexivity|]. split; [reflexivity|]. split; [exact Hf|].
  split; [exact seventy_quads_bad_edges|]. split; [exact Hne|].
  destruct (serialized_indices_capped world_seventy_quads
              (mesh_object "Tiles" OBJECT seventy_quads) eq_refl eq_refl Hf)
    as [_ [_ [H _]]].
  destruct (H (seq 0 280) seventy_quads_bad_edges Hne)
    as [it [Hin [Hd [Ht [Hs [Hl Hp]]]]]].
  exists it. split; [exact Hin|]. split; [exact Hd|]. split; [exact Ht|].
  split; [exact Hs|]. split; [exact Hl|]. exact (Hp Hb).
Defined.

Example seventy_quads_capped :
  List.length (bad_edge_indices seventy_quads) = 280%nat /\
  map (fun it => List.length (Py.split "," (element_indices it)))
      (topo_report_list (snd (analyze_execute world_seventy_quads))) = [200%nat] /\
  map (fun it => option_map (@List.length Z)
                   (match parse_ids (element_indices it) with
                    | inr ids => Some ids
                    | inl _ => None
                    end))
      (topo_report_list (snd (analyze_execute world_seventy_quads))) = [Some 200%nat].
Proof. vm_compute. repeat split. Qed.

(** ** Slivers *)












(* ================================================================== *)
(** * The focus operator                                                *)
(* ================================================================== *)

Section UpdateNth.

Context {A : Type}.

Lemma length_update_nth (f : A -> A) (l : list A) : forall n,
  List.length (update_nth n f l) = List.length l.
Proof.
  induction l as [|a l IH]; intros [|n]; cbn; auto.
Qed.

Lemma nth_error_update_nth (f : A -> A) (l : list A) : forall n a,
  nth_error l n = Some a -> nth_error (update_nth n f l) n = Some (f a).
Proof.
  induction l as [|x l IH]; intros [|n] a H; cbn in *; try discriminate.
  - now inversion H.
  - now apply IH.
Qed.

Lemma update_nth_same (f : A -> A) (l : list A) : forall n a,
  nth_error l n = Some a -> f a = a -> update_nth n f l = l.
Proof.
  induction l as [|x l IH]; intros [|n] a H E; cbn in *; try discriminate.
  - inversion H; subst. now rewrite E.
  - f_equal. eapply IH; eauto.
Qed.

Lemma update_nth_twice (f g : A -> A) (l : list A) : forall n,
  update_nth n f (update_nth n g l) = update_nth n (fun a => f (g a)) l.
Proof.
  induction l as [|x l IH]; intros [|n]; cbn; auto. now rewrite IH.
Qed.

Lemma update_nth_ext (f g : A -> A) (l : list A) : forall n,
  (forall a, f a = g a) -> update_nth n f l = update_nth n g l.
Proof.
  intros n H. revert n. induction l as [|x l IH]; intros [|n]; cbn; auto.
  - now rewrite H.
  - now rewrite IH.
Qed.

End UpdateNth.

Lemma subscript_pos_in_range n i :
  0 <= i < Z.of_nat n -> Py.subscript_pos n i = Some (Z.to_nat i).
Proof.
  intros [H0 H1]. unfold Py.subscript_pos.
  destruct (Z.leb_spec 0 i); [|lia].
  destruct (Z.ltb_spec i (Z.of_nat n)); [reflexivity | lia].
Qed.

Lemma subscript_in_range {A : Type} (l : list A) i d :
  0 <= i < Py.len l -> Py.subscript l i = inr (nth (Z.to_nat i) l d).
Proof.
  intros H. unfold Py.subscript. unfold Py.len in H.
  rewrite (subscript_pos_in_range _ _ H).
  destruct (nth_error l (Z.to_nat i)) as [a|] eqn:E.
  - now rewrite (nth_error_nth _ _ d E).
  - apply nth_error_None in E. lia.
Qed.

Lemma nth_error_in_range {A : Type} (l : list A) i :
  0 <= i < Py.len l -> exists a, nth_error l (Z.to_nat i) = Some a.
Proof.
  intros H. unfold Py.len in H.
  destruct (nth_error l (Z.to_nat i)) as [a|] eqn:E; [now exists a|].
  apply nth_error_None in E. lia.
Qed.

(** ** Monad steps of the operator *)

Lemma bind_item_at {B : Type} p it (k : TopoIssueItem -> M B) w :
  nth_error (topo_report_list w) p = Some it ->
  bind (item_at p) k w = k it w.
Proof.
  intros H. unfold item_at. rewrite bind_bind, bind_get. cbv beta.
  rewrite H. reflexivity.
Qed.

Lemma bind_when_mode {B : Type} m obj (k : unit -> M B) w :
  active_object w = Some obj ->
  supports_mode (obj_type obj) m = true ->
  bind (when (negb (mode_eqb (obj_mode obj) m)) (mode_set m)) k w
  = k tt (set_active_object (Some (in_mode m obj)) w).
Proof.
  intros H Hs. unfold in_mode.
  destruct (mode_eqb (obj_mode obj) m); cbn [negb when].
  - rewrite bind_ret. destruct w. cbn in H. subst. reflexivity.
  - now apply bind_mode_set.
Qed.

(** An object that is in the mode already is left alone, whatever its
    type. *)
Lemma bind_when_mode_same {B : Type} m obj (k : unit -> M B) w :
  mode_eqb (obj_mode obj) m = true ->
  bind (when (negb (mode_eqb (obj_mode obj) m)) (mode_set m)) k w = k tt w.
Proof. intros H. rewrite H. reflexivity. Qed.

(** An object of a type without the mode: [mode_set] raises, and
    nothing has changed. *)
Lemma bind_when_mode_unsupported {B : Type} m obj (k : unit -> M B) w :
  active_object w = Some obj ->
  mode_eqb (obj_mode obj) m = false ->
  supports_mode (obj_type obj) m = false ->
  bind (when (negb (mode_eqb (obj_mode obj) m)) (mode_set m)) k w
  = (inl Py.TypeError, w).
Proof.
  intros H Hm Hs. rewrite Hm. cbn [negb when].
  unfold mode_set. unfold bind at 1 2. unfold get. rewrite H, Hs. reflexivity.
Qed.

Lemma bind_from_edit_mesh {B : Type} obj (k : BMesh -> M B) w :
  active_object w = Some obj ->
  is_mesh_type (obj_type obj) = true ->
  bind from_edit_mesh k w = k (obj_data obj) w.
Proof.
  intros H Hm. unfold from_edit_mesh. rewrite bind_bind, bind_get. cbv beta.
  rewrite H, Hm. reflexivity.
Qed.

Lemma bind_try {A B : Type} (m : M A) (k : Py.exc A -> M B) w :
  bind (try m) k w = k (fst (m w)) (snd (m w)).
Proof. unfold bind, try. destruct (m w). reflexivity. Qed.

Lemma parse_ids_not_empty s ids :
  parse_ids s = inr ids -> String.eqb s "" = false /\ ids <> [].
Proof.
  intros H. split.
  - destruct (String.eqb_spec s ""); [subst; discriminate | reflexivity].
  - intros ->. unfold parse_ids in H. destruct s as [|c r]; [discriminate|].
    cbn [Py.split] in H.
    destruct (Ascii.eqb c ","); cbn [Py.map_exc] in H.
    + destruct (Py.int ""); [discriminate|]. cbn in H.
      destruct (Py.map_exc Py.int (Py.split "," r)); discriminate.
    + destruct (Py.split "," r) as [|h t]; cbn [Py.map_exc] in H.
      * destruct (Py.int (String c "")); discriminate.
      * destruct (Py.int (String c h)); [discriminate|]. cbn in H.
        destruct (Py.map_exc Py.int t); discriminate.
Qed.

Lemma table_len_type ty bm :
  is_element_type ty = true ->
  (ty = "FACE" /\ table_len ty bm = Py.len (bm_faces bm)) \/
  (ty = "EDGE" /\ table_len ty bm = Py.len (bm_edges bm)) \/
  (ty = "VERT" /\ table_len ty bm = Py.len (bm_verts bm)).
Proof.
  unfold is_element_type, table_len. intros H.
  destruct (String.eqb_spec ty "FACE"); [now left|].
  destruct (String.eqb_spec ty "EDGE"); [right; now left|].
  destruct (String.eqb_spec ty "VERT"); [right; now right|].
  discriminate.
Qed.

Lemma set_active_object_same w obj :
  active_object w = Some obj ->
  set_active_object (Some (with_data (obj_data obj) obj)) w = w.
Proof. intros H. destruct w, obj. cbn in H. subst. reflexivity. Qed.

(** The [try] block for a target that is not negative: no exception. *)
Lemma select_target_spec ty target obj w :
  active_object w = Some obj ->
  is_mesh_type (obj_type obj) = true ->
  0 <= target ->
  select_target ty target w
  = (inr tt,
     set_active_object
       (Some (with_data (select_checked ty target (obj_data obj)) obj)) w).
Proof.
  intros Hobj Hmesh Hpos.
  unfold select_target. rewrite (bind_from_edit_mesh obj _ _ Hobj Hmesh).
  unfold select_checked, table_len, select_elem, modify_edit_mesh.
  destruct (String.eqb ty "FACE");
    [|destruct (String.eqb ty "EDGE"); [|destruct (String.eqb ty "VERT")]].
  - destruct (Z.ltb_spec target (Py.len (bm_faces (obj_data obj)))) as [Hlt|Hge].
    + assert (Hin : 0 <= target < Py.len (bm_faces (obj_data obj))) by lia.
      rewrite (subscript_pos_in_range _ _ Hin).
      destruct (nth_error_in_range _ _ Hin) as [a Ha]. rewrite Ha.
      rewrite bind_modify.
      destruct w as [rl st ao rp bms vs]. cbn [active_object] in Hobj. subst ao.
      destruct obj; reflexivity.
    + unfold ret. now rewrite set_active_object_same.
  - destruct (Z.ltb_spec target (Py.len (bm_edges (obj_data obj)))) as [Hlt|Hge].
    + assert (Hin : 0 <= target < Py.len (bm_edges (obj_data obj))) by lia.
      rewrite (subscript_pos_in_range _ _ Hin).
      destruct (nth_error_in_range _ _ Hin) as [a Ha]. rewrite Ha.
      rewrite bind_modify.
      destruct w as [rl st ao rp bms vs]. cbn [active_object] in Hobj. subst ao.
      destruct obj; reflexivity.
    + unfold ret. now rewrite set_active_object_same.
  - destruct (Z.ltb_spec target (Py.len (bm_verts (obj_data obj)))) as [Hlt|Hge].
    + assert (Hin : 0 <= target < Py.len (bm_verts (obj_data obj))) by lia.
      rewrite (subscript_pos_in_range _ _ Hin).
      destruct w as [rl st ao rp bms vs]. cbn [active_object] in Hobj. subst ao.
      destruct obj; reflexivity.
    + unfold ret. now rewrite set_active_object_same.
  - unfold ret. cbn [Z.ltb]. destruct (target <? 0); now rewrite set_active_object_same.
Qed.

(** ** One invocation that selects *)

Lemma with_current_pointer_twice c1 c2 it :
  with_current_pointer c2 (with_current_pointer c1 it) = with_current_pointer c2 it.
Proof. reflexivity. Qed.

Lemma with_current_pointer_same it :
  with_current_pointer (current_pointer it) it = it.
Proof. destruct it; reflexivity. Qed.

Lemma wrap_cursor_range n c : 0 < n -> 0 <= c -> 0 <= wrap_cursor n c < n.
Proof.
  intros Hn Hc. unfold wrap_cursor. destruct (Z.leb_spec n c); lia.
Qed.

Ltac norm_focus :=
  cbv beta iota delta
    [set_report_list set_stats set_active_object set_reports set_bmeshes
     set_view_selected_calls
     topo_report_list topo_stats active_object reports bmeshes
     view_selected_calls option_map with_data obj_data].

Opaque Py.str deselect_all select_checked.

(** The operator on an item whose list parses and whose target is not
    negative: it finishes, and leaves [focused_world]. *)
Lemma focus_selects index p item ids obj w :
  Py.subscript_pos (List.length (topo_report_list w)) index = Some p ->
  nth_error (topo_report_list w) p = Some item ->
  active_object w = Some obj ->
  is_mesh_type (obj_type obj) = true ->
  parse_ids (element_indices item) = inr ids ->
  0 <= current_pointer item ->
  0 <= nth (Z.to_nat (wrap_cursor (Py.len ids) (current_pointer item))) ids 0 ->
  focus_execute index w = (inr FINISHED, focused_world p item ids obj w).
Proof.
  intros Hp Hitem Hobj Hmesh Hparse Hc Hin.
  destruct (parse_ids_not_empty _ _ Hparse) as [Hne Hids].
  assert (Hn : 0 < Py.len ids).
  { unfold Py.len. destruct ids; [congruence | cbn; lia]. }
  pose proof (wrap_cursor_range _ _ Hn Hc) as Hw.
  unfold focused_world. cbv zeta.
  set (c := wrap_cursor (Py.len ids) (current_pointer item)) in *.
  set (target := nth (Z.to_nat c) ids 0) in *.
  unfold focus_execute.
  rewrite bind_get. cbv beta. rewrite Hp, Hobj.
  rewrite (bind_when_mode EDIT obj _ _ Hobj (mesh_supports _ EDIT Hmesh)).
  destruct w as [rl st ao rp bms vs].
  cbn [active_object topo_report_list] in *. subst ao. norm_focus.
  rewrite (bind_item_at p item) by exact Hitem.
  rewrite Hne, Hparse.
  unfold set_current_pointer. rewrite bind_when. norm_focus.
  assert (Hrl : (if Py.len ids <=? current_pointer item
                 then {| topo_report_list := update_nth p (with_current_pointer 0) rl;
                         topo_stats := st;
                         active_object := Some (in_mode EDIT obj);
                         reports := rp; bmeshes := bms;
                         view_selected_calls := vs |}
                 else {| topo_report_list := rl; topo_stats := st;
                         active_object := Some (in_mode EDIT obj);
                         reports := rp; bmeshes := bms;
                         view_selected_calls := vs |})
                = {| topo_report_list := update_nth p (with_current_pointer c) rl;
                     topo_stats := st;
                     active_object := Some (in_mode EDIT obj);
                     reports := rp; bmeshes := bms;
                     view_selected_calls := vs |}).
  { unfold c, wrap_cursor. destruct (Py.len ids <=? current_pointer item).
    - reflexivity.
    - f_equal. symmetry. eapply update_nth_same; [exact Hitem|].
      apply with_current_pointer_same. }
  rewrite Hrl. clear Hrl.
  rewrite (bind_item_at p (with_current_pointer c item))
    by (cbn [topo_report_list]; now apply nth_error_update_nth).
  cbn [current_pointer with_current_pointer element_type].
  rewrite (subscript_in_range ids c 0 Hw), bind_lift_inr. fold target.
  assert (Hmesh' : is_mesh_type (obj_type (in_mode EDIT obj)) = true).
  { unfold in_mode. destruct (mode_eqb (obj_mode obj) EDIT); destruct obj; exact Hmesh. }
  rewrite (bind_from_edit_mesh (in_mode EDIT obj)) by (auto; reflexivity).
  unfold modify_edit_mesh.
  rewrite bind_modify. norm_focus.
  rewrite bind_modify. norm_focus.
  rewrite bind_try.
  erewrite select_target_spec;
    [ | reflexivity | | exact Hin ].
  - cbn [fst snd]. unfold update_edit_mesh, view_selected, report.
    rewrite bind_ret, bind_modify. norm_focus.
    rewrite bind_modify. norm_focus.
    rewrite update_nth_twice.
    rewrite (bind_item_at p (with_current_pointer (c + 1) item)).
    + rewrite bind_modify. norm_focus. unfold ret. f_equal.
      unfold focus_message. cbn [element_type with_current_pointer current_pointer].
      destruct obj as [nm ty md d]. unfold in_mode.
      cbn [obj_mode obj_data with_data with_mode obj_name obj_type].
      destruct (mode_eqb md EDIT); reflexivity.
    + cbn [topo_report_list].
      rewrite (nth_error_update_nth _ _ _ _ Hitem). reflexivity.
  - destruct obj as [nm ty md d]. unfold in_mode. cbn [obj_mode].
    destruct (mode_eqb md EDIT); exact Hmesh.
Qed.

Transparent Py.str deselect_all select_checked.

(** ** What is selected after the [try] block *)

Lemma nth_error_update_nth_other {A : Type} (f : A -> A) (l : list A) : forall p i,
  i <> p -> nth_error (update_nth p f l) i = nth_error l i.
Proof.
  induction l as [|a l IH]; intros [|p] [|i] H; cbn; auto; congruence.
Qed.

Lemma nth_error_update_nth_any {A : Type} (f : A -> A) (l : list A) p i :
  nth_error (update_nth p f l) i
  = if Nat.eqb i p then option_map f (nth_error l i) else nth_error l i.
Proof.
  destruct (Nat.eqb_spec i p) as [->|Hne].
  - destruct (nth_error l p) as [a|] eqn:E.
    + now apply nth_error_update_nth.
    + apply nth_error_None. rewrite length_update_nth. now apply nth_error_None.
  - now apply nth_error_update_nth_other.
Qed.

Lemma update_nth_outside {A : Type} (f : A -> A) (l : list A) : forall p,
  nth_error l p = None -> update_nth p f l = l.
Proof.
  induction l as [|a l IH]; intros [|p] H; cbn in *; try reflexivity; try discriminate.
  f_equal. now apply IH.
Qed.

Lemma update_nth_ext_at {A : Type} (f g : A -> A) (l : list A) : forall p a,
  nth_error l p = Some a -> f a = g a -> update_nth p f l = update_nth p g l.
Proof.
  induction l as [|x l IH]; intros [|p] a H E; cbn in *; try discriminate.
  - injection H as ->. now rewrite E.
  - f_equal. now apply (IH p a).
Qed.

Lemma map_update_nth {A B : Type} (g : A -> B) (f : A -> A) (l : list A) : forall p,
  (forall a, g (f a) = g a) -> map g (update_nth p f l) = map g l.
Proof.
  induction l as [|a l IH]; intros [|p] H; cbn; try reflexivity.
  - now rewrite H.
  - now rewrite IH.
Qed.

Lemma Forall_update_nth_all {A : Type} (P : A -> Prop) (f : A -> A) (l : list A) :
  forall p, Forall P l -> (forall a, P a -> P (f a)) -> Forall P (update_nth p f l).
Proof.
  induction l as [|a l IH]; intros [|p] H Hf; cbn; auto;
    inversion H; subst; constructor; auto.
Qed.

Lemma existsb_eqb_In i vs : existsb (Nat.eqb i) vs = true <-> In i vs.
Proof.
  rewrite existsb_exists. split.
  - intros [x [Hx E]]. apply Nat.eqb_eq in E. now subst.
  - intros H. exists i. split; [exact H | apply Nat.eqb_refl].
Qed.

(** *** Positions with a flag *)

Section SelectionFlags.

Context {A : Type} (sel : A -> bool).

Lemma selected_positions_In (l : list A) (i : nat) :
  In (Z.of_nat i) (selected_positions sel l)
  <-> exists a, nth_error l i = Some a /\ sel a = true.
Proof.
  unfold selected_positions. rewrite <- (flagged_indices_spec sel l i).
  rewrite <- map_map. rewrite in_map_iff. split.
  - intros [j [E Hj]]. apply Nat2Z.inj in E. now subst.
  - intros H. now exists i.
Qed.

Lemma filter_combine_off (l : list A) : forall s,
  Forall (fun a => sel a = false) l ->
  filter (fun x => sel (snd x)) (combine (seq s (List.length l)) l) = [].
Proof.
  induction l as [|a l IH]; intros s H; cbn; [reflexivity|].
  inversion H as [|? ? Ha Hl]; subst. rewrite Ha. now apply IH.
Qed.

Lemma selected_positions_off (l : list A) :
  Forall (fun a => sel a = false) l -> selected_positions sel l = [].
Proof.
  intros H. unfold selected_positions, flagged, Py.enumerate.
  now rewrite filter_combine_off.
Qed.

Lemma flagged_one_from (on : A -> A) (l : list A) : forall t s a,
  Forall (fun a => sel a = false) l ->
  nth_error l t = Some a -> sel (on a) = true ->
  map fst
    (filter (fun x => sel (snd x))
       (combine (seq s (List.length (update_nth t on l))) (update_nth t on l)))
  = [(s + t)%nat].
Proof.
  induction l as [|x l IH]; intros t s a Hoff Hn Hon; [destruct t; discriminate|].
  inversion Hoff as [|? ? Hx Hl]; subst.
  destruct t as [|t]; cbn [update_nth List.length seq combine filter snd].
  - cbn in Hn. injection Hn as ->. rewrite Hon. cbn [map fst].
    rewrite filter_combine_off by exact Hl. f_equal. lia.
  - rewrite Hx. cbn in Hn. rewrite (IH t (S s) a Hl Hn Hon). f_equal. lia.
Qed.

(** No flag is set, then one is: that position alone has the flag. *)
Lemma selected_positions_one (on : A -> A) (l : list A) t a :
  Forall (fun a => sel a = false) l ->
  nth_error l t = Some a -> sel (on a) = true ->
  selected_positions sel (update_nth t on l) = [Z.of_nat t].
Proof.
  intros Hoff Hn Hon. unfold selected_positions, flagged, Py.enumerate.
  rewrite <- map_map, (flagged_one_from on l t 0 a Hoff Hn Hon). reflexivity.
Qed.

Lemma selected_positions_map (f : A -> A) (l : list A) :
  selected_positions sel (map f l) = selected_positions (fun a => sel (f a)) l.
Proof.
  unfold selected_positions, flagged, Py.enumerate. rewrite length_map.
  generalize 0%nat. induction l as [|a l IH]; intros s; cbn; [reflexivity|].
  destruct (sel (f a)); cbn; now rewrite IH.
Qed.

Lemma selected_positions_ext (sel' : A -> bool) (l : list A) :
  (forall a, sel a = sel' a) -> selected_positions sel l = selected_positions sel' l.
Proof.
  intros H. unfold selected_positions, flagged. f_equal.
  apply filter_ext. intros x. apply H.
Qed.

End SelectionFlags.

(** *** The writes of the flags, table by table *)

Lemma vert_select_set_hide b v : v_hide (vert_select_set b v) = v_hide v.
Proof. unfold vert_select_set. destruct (v_hide v) eqn:E; [exact E | cbn; exact E]. Qed.

Lemma edge_flag_set_hide b e : e_hide (edge_flag_set b e) = e_hide e.
Proof. unfold edge_flag_set. destruct (e_hide e) eqn:E; [exact E | cbn; exact E]. Qed.

Lemma face_flag_set_hide b f : f_hide (face_flag_set b f) = f_hide f.
Proof. unfold face_flag_set. destruct (f_hide f) eqn:E; [exact E | cbn; exact E]. Qed.

Lemma edge_flag_set_verts b e : e_verts (edge_flag_set b e) = e_verts e.
Proof. unfold edge_flag_set. destruct (e_hide e); reflexivity. Qed.

Lemma vert_select_set_select b v :
  v_select (vert_select_set b v) = if v_hide v then v_select v else b.
Proof. unfold vert_select_set. destruct (v_hide v); reflexivity. Qed.

Lemma edge_flag_set_select b e :
  e_select (edge_flag_set b e) = if e_hide e then e_select e else b.
Proof. unfold edge_flag_set. destruct (e_hide e); reflexivity. Qed.

Lemma face_flag_set_select b f :
  f_select (face_flag_set b f) = if f_hide f then f_select f else b.
Proof. unfold face_flag_set. destruct (f_hide f); reflexivity. Qed.

Lemma vert_select_set_twice v :
  vert_select_set true (vert_select_set true v) = vert_select_set true v.
Proof. unfold vert_select_set. destruct (v_hide v) eqn:E; cbn; now rewrite ?E. Qed.

Lemma edge_flag_set_twice e :
  edge_flag_set true (edge_flag_set true e) = edge_flag_set true e.
Proof. unfold edge_flag_set. destruct (e_hide e) eqn:E; cbn; now rewrite ?E. Qed.

(** [select_verts] writes the vertex table only. *)
Lemma select_verts_verts vs : forall bm,
  bm_verts (select_verts vs bm) = select_verts_in vs (bm_verts bm).
Proof.
  unfold select_verts, select_verts_in.
  induction vs as [|v vs IH]; intros bm; cbn [fold_left]; [reflexivity|].
  now rewrite IH.
Qed.

Lemma select_verts_faces vs : forall bm, bm_faces (select_verts vs bm) = bm_faces bm.
Proof.
  unfold select_verts. induction vs as [|v vs IH]; intros bm; cbn; [reflexivity|].
  now rewrite IH.
Qed.

Lemma select_verts_edges vs : forall bm, bm_edges (select_verts vs bm) = bm_edges bm.
Proof.
  unfold select_verts. induction vs as [|v vs IH]; intros bm; cbn; [reflexivity|].
  now rewrite IH.
Qed.

Lemma select_verts_history vs : forall bm,
  bm_select_history (select_verts vs bm) = bm_select_history bm.
Proof.
  unfold select_verts. induction vs as [|v vs IH]; intros bm; cbn; [reflexivity|].
  now rewrite IH.
Qed.

Lemma select_verts_in_app vs1 vs2 l :
  select_verts_in (vs1 ++ vs2) l = select_verts_in vs2 (select_verts_in vs1 l).
Proof. unfold select_verts_in. apply fold_left_app. Qed.

(** The vertex at a position after the writes: written when the
    position is among them. *)
Lemma nth_error_select_verts_in vs : forall l i,
  nth_error (select_verts_in vs l) i
  = option_map (fun v => if existsb (Nat.eqb i) vs then vert_select_set true v else v)
      (nth_error l i).
Proof.
  unfold select_verts_in.
  induction vs as [|v vs IH]; intros l i; cbn [fold_left existsb].
  - destruct (nth_error l i); reflexivity.
  - rewrite IH. rewrite nth_error_update_nth_any.
    destruct (Nat.eqb i v); cbn [orb];
      destruct (nth_error l i) as [a|]; cbn [option_map]; try reflexivity.
    destruct (existsb (Nat.eqb i) vs); [|reflexivity].
    now rewrite vert_select_set_twice.
Qed.

Lemma nth_error_select_edges_in es : forall l i,
  nth_error (select_edges_in es l) i
  = option_map (fun e => if existsb (Nat.eqb i) es then edge_flag_set true e else e)
      (nth_error l i).
Proof.
  unfold select_edges_in.
  induction es as [|e es IH]; intros l i; cbn [fold_left existsb].
  - destruct (nth_error l i); reflexivity.
  - rewrite IH. rewrite nth_error_update_nth_any.
    destruct (Nat.eqb i e); cbn [orb];
      destruct (nth_error l i) as [a|]; cbn [option_map]; try reflexivity.
    destruct (existsb (Nat.eqb i) es); [|reflexivity].
    now rewrite edge_flag_set_twice.
Qed.

Lemma length_select_verts_in vs : forall l,
  List.length (select_verts_in vs l) = List.length l.
Proof.
  unfold select_verts_in. induction vs as [|v vs IH]; intros l; cbn; [reflexivity|].
  rewrite IH. apply length_update_nth.
Qed.

Lemma length_select_edges_in es : forall l,
  List.length (select_edges_in es l) = List.length l.
Proof.
  unfold select_edges_in. induction es as [|v es IH]; intros l; cbn; [reflexivity|].
  rewrite IH. apply length_update_nth.
Qed.

(** [e.select = True]. *)
Lemma select_edge_edges p bm :
  bm_edges (select_edge p bm) = update_nth p (edge_flag_set true) (bm_edges bm).
Proof.
  unfold select_edge. destruct (nth_error (bm_edges bm) p) as [e|] eqn:E.
  - destruct (e_hide e) eqn:Eh.
    + symmetry. apply (update_nth_same _ _ _ e E).
      unfold edge_flag_set. now rewrite Eh.
    + rewrite select_verts_edges. cbn [bm_edges with_edges].
      apply (update_nth_ext_at _ _ _ _ e E).
      unfold edge_flag_set. now rewrite Eh.
  - symmetry. now apply update_nth_outside.
Qed.

Lemma select_edge_faces p bm : bm_faces (select_edge p bm) = bm_faces bm.
Proof.
  unfold select_edge. destruct (nth_error (bm_edges bm) p) as [e|]; [|reflexivity].
  destruct (e_hide e); [reflexivity|]. now rewrite select_verts_faces.
Qed.

Lemma select_edge_history p bm :
  bm_select_history (select_edge p bm) = bm_select_history bm.
Proof.
  unfold select_edge. destruct (nth_error (bm_edges bm) p) as [e|]; [|reflexivity].
  destruct (e_hide e); [reflexivity|]. now rewrite select_verts_history.
Qed.

Lemma select_edge_verts p bm :
  bm_verts (select_edge p bm) = select_verts_in (edge_verts_shown bm p) (bm_verts bm).
Proof.
  unfold select_edge, edge_verts_shown.
  destruct (nth_error (bm_edges bm) p) as [e|]; [|reflexivity].
  destruct (e_hide e); [reflexivity|]. now rewrite select_verts_verts.
Qed.

Lemma edge_verts_shown_edges bm bm' j :
  map e_hide (bm_edges bm') = map e_hide (bm_edges bm) ->
  map e_verts (bm_edges bm') = map e_verts (bm_edges bm) ->
  edge_verts_shown bm' j = edge_verts_shown bm j.
Proof.
  intros Hh Hv. unfold edge_verts_shown.
  pose proof (f_equal (fun l => nth_error l j) Hh) as Hh'.
  pose proof (f_equal (fun l => nth_error l j) Hv) as Hv'.
  cbv beta in Hh', Hv'. rewrite !nth_error_map in Hh', Hv'.
  destruct (nth_error (bm_edges bm') j) as [e'|],
    (nth_error (bm_edges bm) j) as [e|]; cbn in Hh', Hv'; try discriminate;
    [|reflexivity].
  injection Hh' as ->. injection Hv' as ->. reflexivity.
Qed.

Lemma select_edge_shown p bm j :
  edge_verts_shown (select_edge p bm) j = edge_verts_shown bm j.
Proof.
  apply edge_verts_shown_edges; rewrite select_edge_edges; apply map_update_nth;
    intros a; [apply edge_flag_set_hide | apply edge_flag_set_verts].
Qed.

(** The edges of a face, one after the other. *)
Lemma select_edges_edges es : forall bm,
  bm_edges (select_edges es bm) = select_edges_in es (bm_edges bm).
Proof.
  unfold select_edges, select_edges_in.
  induction es as [|e es IH]; intros bm; cbn [fold_left]; [reflexivity|].
  now rewrite IH, select_edge_edges.
Qed.

Lemma select_edges_faces es : forall bm, bm_faces (select_edges es bm) = bm_faces bm.
Proof.
  unfold select_edges. induction es as [|e es IH]; intros bm; cbn [fold_left];
    [reflexivity|]. now rewrite IH, select_edge_faces.
Qed.

Lemma select_edges_history es : forall bm,
  bm_select_history (select_edges es bm) = bm_select_history bm.
Proof.
  unfold select_edges. induction es as [|e es IH]; intros bm; cbn [fold_left];
    [reflexivity|]. now rewrite IH, select_edge_history.
Qed.

Lemma select_edges_verts es : forall bm,
  bm_verts (select_edges es bm)
  = select_verts_in (flat_map (edge_verts_shown bm) es) (bm_verts bm).
Proof.
  unfold select_edges.
  induction es as [|e es IH]; intros bm; cbn [fold_left flat_map]; [reflexivity|].
  rewrite IH, select_edge_verts, select_verts_in_app. f_equal.
  apply flat_map_ext. intros j. apply select_edge_shown.
Qed.

(** [f.select = True]. *)
Lemma select_face_faces p bm :
  bm_faces (select_face p bm) = update_nth p (face_flag_set true) (bm_faces bm).
Proof.
  unfold select_face. destruct (nth_error (bm_faces bm) p) as [f|] eqn:E.
  - destruct (f_hide f) eqn:Eh.
    + symmetry. apply (update_nth_same _ _ _ f E).
      unfold face_flag_set. now rewrite Eh.
    + rewrite select_edges_faces, select_verts_faces. cbn [bm_faces with_faces].
      apply (update_nth_ext_at _ _ _ _ f E).
      unfold face_flag_set. now rewrite Eh.
  - symmetry. now apply update_nth_outside.
Qed.

Lemma select_face_edges p bm :
  bm_edges (select_face p bm)
  = select_edges_in (target_edges "FACE" p bm) (bm_edges bm).
Proof.
  unfold select_face, target_edges. cbn [String.eqb Ascii.eqb Bool.eqb].
  destruct (nth_error (bm_faces bm) p) as [f|]; [|reflexivity].
  destruct (f_hide f); [reflexivity|].
  now rewrite select_edges_edges, select_verts_edges.
Qed.

Lemma select_face_history p bm :
  bm_select_history (select_face p bm) = bm_select_history bm.
Proof.
  unfold select_face. destruct (nth_error (bm_faces bm) p) as [f|]; [|reflexivity].
  destruct (f_hide f); [reflexivity|].
  now rewrite select_edges_history, select_verts_history.
Qed.

Lemma select_face_verts p bm f :
  nth_error (bm_faces bm) p = Some f ->
  bm_verts (select_face p bm)
  = select_verts_in
      (if f_hide f then []
       else f_verts f ++ flat_map (edge_verts_shown bm) (f_edges f))
      (bm_verts bm).
Proof.
  intros E. unfold select_face. rewrite E.
  destruct (f_hide f); [reflexivity|].
  rewrite select_edges_verts, select_verts_verts, select_verts_in_app.
  cbn [bm_verts with_faces]. f_equal.
  apply flat_map_ext. intros j. apply edge_verts_shown_edges;
    now rewrite select_verts_edges.
Qed.

(** *** The tables after the writes of the [try] block *)

Lemma select_elem_faces ty p bm :
  bm_faces (select_elem ty p bm)
  = if String.eqb ty "FACE" then update_nth p (face_flag_set true) (bm_faces bm)
    else bm_faces bm.
Proof.
  unfold select_elem. destruct (String.eqb ty "FACE").
  - destruct (nth_error (bm_faces bm) p) as [f|] eqn:E.
    + now rewrite select_verts_faces, select_face_faces.
    + symmetry. now apply update_nth_outside.
  - destruct (String.eqb ty "EDGE").
    + destruct (nth_error (bm_edges bm) p); [|reflexivity].
      now rewrite select_verts_faces, select_edge_faces.
    + destruct (String.eqb ty "VERT"); reflexivity.
Qed.

Lemma select_elem_edges ty p bm :
  bm_edges (select_elem ty p bm) = select_edges_in (target_edges ty p bm) (bm_edges bm).
Proof.
  unfold select_elem, target_edges. destruct (String.eqb ty "FACE").
  - destruct (nth_error (bm_faces bm) p) as [f|] eqn:E; [|reflexivity].
    rewrite select_verts_edges, select_face_edges.
    unfold target_edges. cbn [String.eqb Ascii.eqb Bool.eqb]. now rewrite E.
  - destruct (String.eqb ty "EDGE").
    + destruct (nth_error (bm_edges bm) p) eqn:E.
      * now rewrite select_verts_edges, select_edge_edges.
      * cbn [select_edges_in fold_left]. symmetry. now apply update_nth_outside.
    + destruct (String.eqb ty "VERT"); reflexivity.
Qed.

Lemma select_elem_verts ty p bm :
  bm_verts (select_elem ty p bm) = select_verts_in (target_verts ty p bm) (bm_verts bm).
Proof.
  unfold select_elem, target_verts. destruct (String.eqb ty "FACE").
  - destruct (nth_error (bm_faces bm) p) as [f|] eqn:E; [|reflexivity].
    rewrite select_verts_verts, (select_face_verts p bm f E).
    now rewrite select_verts_in_app.
  - destruct (String.eqb ty "EDGE").
    + destruct (nth_error (bm_edges bm) p) as [e|] eqn:E; [|reflexivity].
      rewrite select_verts_verts, select_edge_verts.
      now rewrite select_verts_in_app.
    + destruct (String.eqb ty "VERT"); reflexivity.
Qed.

Lemma select_elem_history ty p bm :
  bm_select_history (select_elem ty p bm) = bm_select_history bm.
Proof.
  unfold select_elem. destruct (String.eqb ty "FACE").
  - destruct (nth_error (bm_faces bm) p); [|reflexivity].
    now rewrite select_verts_history, select_face_history.
  - destruct (String.eqb ty "EDGE").
    + destruct (nth_error (bm_edges bm) p); [|reflexivity].
      now rewrite select_verts_history, select_edge_history.
    + destruct (String.eqb ty "VERT"); reflexivity.
Qed.

Lemma select_elem_lengths ty t bm :
  List.length (bm_faces (select_elem ty t bm)) = List.length (bm_faces bm) /\
  List.length (bm_edges (select_elem ty t bm)) = List.length (bm_edges bm) /\
  List.length (bm_verts (select_elem ty t bm)) = List.length (bm_verts bm).
Proof.
  rewrite select_elem_faces, select_elem_edges, select_elem_verts.
  rewrite length_select_edges_in, length_select_verts_in.
  destruct (String.eqb ty "FACE"); rewrite ?length_update_nth; auto.
Qed.

Lemma deselect_all_lengths bm :
  List.length (bm_faces (with_select_history [] (deselect_all bm)))
    = List.length (bm_faces bm) /\
  List.length (bm_edges (with_select_history [] (deselect_all bm)))
    = List.length (bm_edges bm) /\
  List.length (bm_verts (with_select_history [] (deselect_all bm)))
    = List.length (bm_verts bm).
Proof. cbn. now rewrite !length_map. Qed.

(** The [try] block changes flags only: every table keeps its length. *)
Lemma select_checked_table_len ty' ty target bm :
  table_len ty' (select_checked ty target (with_select_history [] (deselect_all bm)))
  = table_len ty' bm.
Proof.
  destruct (deselect_all_lengths bm) as [Hf [He Hv]].
  unfold select_checked.
  destruct (target <? table_len ty (with_select_history [] (deselect_all bm))).
  - destruct (select_elem_lengths ty (Z.to_nat target)
                (with_select_history [] (deselect_all bm))) as [Hf' [He' Hv']].
    unfold table_len, Py.len. now rewrite Hf', He', Hv', Hf, He, Hv.
  - unfold table_len, Py.len. now rewrite Hf, He, Hv.
Qed.

(** *** Hidden elements keep their flags *)

Lemma hide_flags_select_elem ty p bm : hide_flags (select_elem ty p bm) = hide_flags bm.
Proof.
  unfold hide_flags.
  rewrite select_elem_faces, select_elem_edges, select_elem_verts.
  f_equal; [f_equal|].
  - unfold select_verts_in. generalize (bm_verts bm).
    induction (target_verts ty p bm) as [|v vs IH]; intros l; cbn [fold_left];
      [reflexivity|].
    rewrite IH. apply map_update_nth. intros a. apply vert_select_set_hide.
  - unfold select_edges_in. generalize (bm_edges bm).
    induction (target_edges ty p bm) as [|v vs IH]; intros l; cbn [fold_left];
      [reflexivity|].
    rewrite IH. apply map_update_nth. intros a. apply edge_flag_set_hide.
  - destruct (String.eqb ty "FACE"); [|reflexivity].
    apply map_update_nth. intros a. apply face_flag_set_hide.
Qed.

Lemma hide_flags_deselect_all bm :
  hide_flags (with_select_history [] (deselect_all bm)) = hide_flags bm.
Proof.
  unfold hide_flags, deselect_all.
  cbn [bm_verts bm_edges bm_faces with_select_history with_faces with_edges with_verts].
  rewrite !map_map. f_equal; [f_equal|]; apply map_ext; intros a.
  - apply vert_select_set_hide.
  - apply edge_flag_set_hide.
  - apply face_flag_set_hide.
Qed.

Lemma hide_flags_select_checked ty target bm :
  hide_flags (select_checked ty target (with_select_history [] (deselect_all bm)))
  = hide_flags bm.
Proof.
  unfold select_checked. destruct (_ <? _).
  - now rewrite hide_flags_select_elem, hide_flags_deselect_all.
  - apply hide_flags_deselect_all.
Qed.

Lemma nth_error_map_eq {A B : Type} (g : A -> B) (l l' : list A) i :
  map g l' = map g l ->
  option_map g (nth_error l' i) = option_map g (nth_error l i).
Proof. intros H. rewrite <- !nth_error_map. now rewrite H. Qed.

Lemma hidden_at_hide_flags ty p bm bm' :
  hide_flags bm' = hide_flags bm -> hidden_at ty p bm' = hidden_at ty p bm.
Proof.
  unfold hide_flags. intros H. injection H as Hv He Hf. unfold hidden_at.
  pose proof (nth_error_map_eq v_hide _ _ p Hv) as Hv'.
  pose proof (nth_error_map_eq e_hide _ _ p He) as He'.
  pose proof (nth_error_map_eq f_hide _ _ p Hf) as Hf'.
  destruct (String.eqb ty "FACE").
  - destruct (nth_error (bm_faces bm') p), (nth_error (bm_faces bm) p);
      cbn in Hf'; congruence.
  - destruct (String.eqb ty "EDGE").
    + destruct (nth_error (bm_edges bm') p), (nth_error (bm_edges bm) p);
        cbn in He'; congruence.
    + destruct (String.eqb ty "VERT"); [|reflexivity].
      destruct (nth_error (bm_verts bm') p), (nth_error (bm_verts bm) p);
        cbn in Hv'; congruence.
Qed.

(** The elements that are hidden and selected, table by table. *)
Lemma hidden_unselected_spec bm :
  hidden_unselected bm = true <->
  Forall (fun v => v_hide v && v_select v = false) (bm_verts bm) /\
  Forall (fun e => e_hide e && e_select e = false) (bm_edges bm) /\
  Forall (fun f => f_hide f && f_select f = false) (bm_faces bm).
Proof.
  unfold hidden_unselected. rewrite !andb_true_iff, !forallb_forall, !Forall_forall.
  split.
  - intros [[Hv He] Hf]. repeat split; intros x Hx; apply negb_true_iff; auto.
  - intros [Hv [He Hf]]. repeat split; intros x Hx; apply negb_true_iff; auto.
Qed.

Lemma stuck_selected_none ty bm :
  hidden_unselected bm = true -> stuck_selected ty bm = [].
Proof.
  intros H. apply hidden_unselected_spec in H as [Hv [He Hf]].
  unfold stuck_selected.
  destruct (String.eqb ty "FACE"); [now apply selected_positions_off|].
  destruct (String.eqb ty "EDGE"); [now apply selected_positions_off|].
  destruct (String.eqb ty "VERT"); [now apply selected_positions_off|].
  reflexivity.
Qed.

(** After the three loops the selected elements are the hidden ones
    that were selected. *)
Lemma deselect_all_selected ty bm :
  selected_of ty (with_select_history [] (deselect_all bm)) = stuck_selected ty bm.
Proof.
  unfold selected_of, stuck_selected, deselect_all.
  cbn [bm_verts bm_edges bm_faces with_select_history with_faces with_edges with_verts].
  rewrite !selected_positions_map.
  destruct (String.eqb ty "FACE").
  - apply selected_positions_ext. intros f. rewrite face_flag_set_select.
    destruct (f_hide f); reflexivity.
  - destruct (String.eqb ty "EDGE").
    + apply selected_positions_ext. intros e. rewrite edge_flag_set_select.
      destruct (e_hide e); reflexivity.
    + destruct (String.eqb ty "VERT"); [|reflexivity].
      apply selected_positions_ext. intros v. rewrite vert_select_set_select.
      destruct (v_hide v); reflexivity.
Qed.

Lemma cleared_tables bm :
  hidden_unselected bm = true ->
  Forall (fun v => v_select v = false)
    (bm_verts (with_select_history [] (deselect_all bm))) /\
  Forall (fun e => e_select e = false)
    (bm_edges (with_select_history [] (deselect_all bm))) /\
  Forall (fun f => f_select f = false)
    (bm_faces (with_select_history [] (deselect_all bm))).
Proof.
  intros H. apply hidden_unselected_spec in H as [Hv [He Hf]].
  unfold deselect_all.
  cbn [bm_verts bm_edges bm_faces with_select_history with_faces with_edges with_verts].
  rewrite !Forall_map. repeat split.
  - eapply Forall_impl; [|exact Hv]. intros v E. cbv beta in *.
    rewrite vert_select_set_select. destruct (v_hide v); [exact E | reflexivity].
  - eapply Forall_impl; [|exact He]. intros e E. cbv beta in *.
    rewrite edge_flag_set_select. destruct (e_hide e); [exact E | reflexivity].
  - eapply Forall_impl; [|exact Hf]. intros f E. cbv beta in *.
    rewrite face_flag_set_select. destruct (f_hide f); [exact E | reflexivity].
Qed.

(** No write selects a hidden element. *)
Lemma hidden_unselected_deselect_all bm :
  hidden_unselected bm = true ->
  hidden_unselected (with_select_history [] (deselect_all bm)) = true.
Proof.
  intros H. destruct (cleared_tables bm H) as [Hv [He Hf]].
  apply hidden_unselected_spec. repeat split.
  - eapply Forall_impl; [|exact Hv]. intros v E. cbv beta in *.
    rewrite E. apply andb_false_r.
  - eapply Forall_impl; [|exact He]. intros e E. cbv beta in *.
    rewrite E. apply andb_false_r.
  - eapply Forall_impl; [|exact Hf]. intros f E. cbv beta in *.
    rewrite E. apply andb_false_r.
Qed.

Lemma hidden_unselected_select_elem ty p bm :
  hidden_unselected bm = true -> hidden_unselected (select_elem ty p bm) = true.
Proof.
  intros H. apply hidden_unselected_spec in H as [Hv [He Hf]].
  apply hidden_unselected_spec.
  rewrite select_elem_faces, select_elem_edges, select_elem_verts.
  repeat split.
  - unfold select_verts_in. revert Hv. generalize (bm_verts bm).
    induction (target_verts ty p bm) as [|v vs IH]; intros l Hl; cbn [fold_left];
      [exact Hl|].
    apply IH. apply Forall_update_nth_all; [exact Hl|].
    intros a Ha. cbv beta in *. rewrite vert_select_set_hide, vert_select_set_select.
    destruct (v_hide a); [exact Ha | reflexivity].
  - unfold select_edges_in. revert He. generalize (bm_edges bm).
    induction (target_edges ty p bm) as [|v vs IH]; intros l Hl; cbn [fold_left];
      [exact Hl|].
    apply IH. apply Forall_update_nth_all; [exact Hl|].
    intros a Ha. cbv beta in *. rewrite edge_flag_set_hide, edge_flag_set_select.
    destruct (e_hide a); [exact Ha | reflexivity].
  - destruct (String.eqb ty "FACE"); [|exact Hf].
    apply Forall_update_nth_all; [exact Hf|].
    intros a Ha. cbv beta in *. rewrite face_flag_set_hide, face_flag_set_select.
    destruct (f_hide a); [exact Ha | reflexivity].
Qed.

Lemma hidden_unselected_select_checked ty target bm :
  hidden_unselected bm = true ->
  hidden_unselected
    (select_checked ty target (with_select_history [] (deselect_all bm))) = true.
Proof.
  intros H. unfold select_checked. destruct (_ <? _).
  - now apply hidden_unselected_select_elem, hidden_unselected_deselect_all.
  - now apply hidden_unselected_deselect_all.
Qed.

(** *** The one selected element *)

Lemma table_len_cleared ty bm :
  table_len ty (with_select_history [] (deselect_all bm)) = table_len ty bm.
Proof. unfold table_len, Py.len. cbn. now rewrite !length_map. Qed.

(** A target inside its table that is not hidden is the one selected
    element of it, on a mesh without hidden selected elements. *)
Lemma select_checked_selected ty target bm :
  is_element_type ty = true ->
  0 <= target < table_len ty bm ->
  hidden_unselected bm = true ->
  hidden_at ty (Z.to_nat target) bm = false ->
  selected_of ty (select_checked ty target (with_select_history [] (deselect_all bm)))
  = [target].
Proof.
  intros Hty Hin Hhu Hvis.
  set (b0 := with_select_history [] (deselect_all bm)).
  destruct (cleared_tables bm Hhu) as [Hv [He Hf]]. fold b0 in Hv, He, Hf.
  assert (Hvis0 : hidden_at ty (Z.to_nat target) b0 = false).
  { rewrite (hidden_at_hide_flags ty _ bm b0); [exact Hvis|].
    apply hide_flags_deselect_all. }
  assert (Hlen0 : table_len ty b0 = table_len ty bm) by apply table_len_cleared.
  unfold select_checked. rewrite Hlen0.
  destruct (Z.ltb_spec target (table_len ty bm)); [|lia].
  assert (Ht : Z.of_nat (Z.to_nat target) = target) by lia.
  rewrite <- Hlen0 in Hin.
  destruct (table_len_type ty b0 Hty) as [[-> E] | [[-> E] | [-> E]]];
    rewrite E in Hin; unfold selected_of, hidden_at in *;
    cbn [String.eqb Ascii.eqb Bool.eqb] in *; unfold Py.len in Hin.
  - rewrite select_elem_faces. cbn [String.eqb Ascii.eqb Bool.eqb].
    destruct (nth_error (bm_faces b0) (Z.to_nat target)) as [a|] eqn:Ea;
      [|apply nth_error_None in Ea; lia].
    rewrite (selected_positions_one f_select _ _ _ a Hf Ea), Ht; [reflexivity|].
    rewrite face_flag_set_select, Hvis0. reflexivity.
  - rewrite select_elem_edges. unfold target_edges, select_edges_in.
    cbn [String.eqb Ascii.eqb Bool.eqb fold_left].
    destruct (nth_error (bm_edges b0) (Z.to_nat target)) as [a|] eqn:Ea;
      [|apply nth_error_None in Ea; lia].
    rewrite (selected_positions_one e_select _ _ _ a He Ea), Ht; [reflexivity|].
    rewrite edge_flag_set_select, Hvis0. reflexivity.
  - rewrite select_elem_verts. unfold target_verts, select_verts_in.
    cbn [String.eqb Ascii.eqb Bool.eqb fold_left].
    destruct (nth_error (bm_verts b0) (Z.to_nat target)) as [a|] eqn:Ea;
      [|apply nth_error_None in Ea; lia].
    rewrite (selected_positions_one v_select _ _ _ a Hv Ea), Ht; [reflexivity|].
    rewrite vert_select_set_select, Hvis0. reflexivity.
Qed.

(** A hidden target is not selected: the write is ignored. *)
Lemma select_checked_hidden ty target bm :
  0 <= target ->
  hidden_unselected bm = true ->
  hidden_at ty (Z.to_nat target) bm = true ->
  selected_of ty (select_checked ty target (with_select_history [] (deselect_all bm)))
  = [].
Proof.
  intros H0 Hhu Hhid.
  pose proof (hidden_unselected_select_checked ty target bm Hhu) as Hhu'.
  pose proof (hide_flags_select_checked ty target bm) as Hfl.
  set (b1 := select_checked ty target (with_select_history [] (deselect_all bm))) in *.
  set (b0 := with_select_history [] (deselect_all bm)).
  destruct (cleared_tables bm Hhu) as [Hv [He Hf]]. fold b0 in Hv, He, Hf.
  assert (Hhid0 : hidden_at ty (Z.to_nat target) b0 = true).
  { rewrite (hidden_at_hide_flags ty _ bm b0); [exact Hhid|].
    apply hide_flags_deselect_all. }
  unfold b1, select_checked. fold b0.
  destruct (target <? table_len ty b0).
  2:{ unfold b0. rewrite deselect_all_selected. now apply stuck_selected_none. }
  unfold selected_of, hidden_at in *.
  destruct (String.eqb ty "FACE") eqn:Efa.
  - apply String.eqb_eq in Efa. subst ty.
    rewrite select_elem_faces. cbn [String.eqb Ascii.eqb Bool.eqb].
    destruct (nth_error (bm_faces b0) (Z.to_nat target)) as [a|] eqn:Ea;
      [|discriminate].
    rewrite (update_nth_same _ _ _ a Ea); [now apply selected_positions_off|].
    unfold face_flag_set. now rewrite Hhid0.
  - destruct (String.eqb ty "EDGE") eqn:Eed.
    + apply String.eqb_eq in Eed. subst ty.
      rewrite select_elem_edges. unfold target_edges, select_edges_in.
      cbn [String.eqb Ascii.eqb Bool.eqb fold_left].
      destruct (nth_error (bm_edges b0) (Z.to_nat target)) as [a|] eqn:Ea;
        [|discriminate].
      rewrite (update_nth_same _ _ _ a Ea); [now apply selected_positions_off|].
      unfold edge_flag_set. now rewrite Hhid0.
    + destruct (String.eqb ty "VERT") eqn:Eve; [|reflexivity].
      apply String.eqb_eq in Eve. subst ty.
      rewrite select_elem_verts. unfold target_verts, select_verts_in.
      cbn [String.eqb Ascii.eqb Bool.eqb fold_left].
      destruct (nth_error (bm_verts b0) (Z.to_nat target)) as [a|] eqn:Ea;
        [|discriminate].
      rewrite (update_nth_same _ _ _ a Ea); [now apply selected_positions_off|].
      unfold vert_select_set. now rewrite Hhid0.
Qed.

(** A target at or beyond the end of its table selects nothing: what
    is selected are the hidden elements that were. *)
Lemma select_checked_nothing ty' ty target bm :
  table_len ty bm <= target ->
  selected_of ty' (select_checked ty target (with_select_history [] (deselect_all bm)))
  = stuck_selected ty' bm.
Proof.
  intros Hge. unfold select_checked. rewrite table_len_cleared.
  destruct (Z.ltb_spec target (table_len ty bm)); [lia|].
  apply deselect_all_selected.
Qed.
(** ** Repeated invocations *)

Lemma wrap_cursor_after n k :
  0 < n -> wrap_cursor n (cursor_after n k) = Z.of_nat k mod n.
Proof.
  intros Hn. unfold wrap_cursor. destruct k as [|k]; cbn [cursor_after].
  - destruct (Z.leb_spec n 0); [lia|]. now rewrite Z.mod_0_l by lia.
  - pose proof (Z.mod_pos_bound (Z.of_nat k) n Hn) as Hb.
    pose proof (Z.div_mod (Z.of_nat k) n ltac:(lia)) as Hk.
    rewrite Nat2Z.inj_succ. unfold Z.succ.
    destruct (Z.leb_spec n (Z.of_nat k mod n + 1)) as [Hle|Hlt].
    + apply Z.mod_unique_pos with (q := Z.of_nat k / n + 1); lia.
    + apply Z.mod_unique_pos with (q := Z.of_nat k / n); lia.
Qed.

Lemma cursor_after_range n k : 0 < n -> 0 <= cursor_after n k <= n.
Proof.
  intros Hn. destruct k as [|k]; cbn [cursor_after]; [lia|].
  pose proof (Z.mod_pos_bound (Z.of_nat k) n Hn). lia.
Qed.

Lemma in_mode_type m obj : obj_type (in_mode m obj) = obj_type obj.
Proof. unfold in_mode. destruct (mode_eqb (obj_mode obj) m); destruct obj; reflexivity. Qed.

Lemma in_mode_data m obj : obj_data (in_mode m obj) = obj_data obj.
Proof. unfold in_mode. destruct (mode_eqb (obj_mode obj) m); destruct obj; reflexivity. Qed.

Section Cycling.

Variables (index : Z) (p : nat) (item : TopoIssueItem) (ids : list Z).
Variables (obj : Object) (w : World).

Hypothesis Hpos : Py.subscript_pos (List.length (topo_report_list w)) index = Some p.
Hypothesis Hitem : nth_error (topo_report_list w) p = Some item.
Hypothesis Hobj : active_object w = Some obj.
Hypothesis Hmesh : is_mesh_type (obj_type obj) = true.
Hypothesis Hparse : parse_ids (element_indices item) = inr ids.
Hypothesis Hfresh : current_pointer item = 0.
Hypothesis Hty : is_element_type (element_type item) = true.
Hypothesis Hbounds :
  Forall (fun id => 0 <= id < table_len (element_type item) (obj_data obj)) ids.
Hypothesis Hshown :
  Forall (fun id => hidden_at (element_type item) (Z.to_nat id) (obj_data obj) = false)
    ids.
Hypothesis Hclean : hidden_unselected (obj_data obj) = true.

Let n : Z := Py.len ids.
Let target (k : nat) : Z := nth (Z.to_nat (Z.of_nat k mod n)) ids 0.

Lemma ids_not_empty : 0 < n.
Proof.
  destruct (parse_ids_not_empty _ _ Hparse) as [_ Hne].
  unfold n, Py.len. destruct ids; [congruence | cbn; lia].
Qed.

Lemma target_in_bounds k :
  0 <= target k < table_len (element_type item) (obj_data obj).
Proof.
  pose proof ids_not_empty as Hn.
  pose proof (Z.mod_pos_bound (Z.of_nat k) n Hn) as Hb.
  rewrite Forall_forall in Hbounds. apply Hbounds.
  unfold target. apply nth_In. unfold n, Py.len in *. lia.
Qed.

Lemma target_shown k :
  hidden_at (element_type item) (Z.to_nat (target k)) (obj_data obj) = false.
Proof.
  pose proof ids_not_empty as Hn.
  pose proof (Z.mod_pos_bound (Z.of_nat k) n Hn) as Hb.
  rewrite Forall_forall in Hshown. apply Hshown.
  unfold target. apply nth_In. unfold n, Py.len in *. lia.
Qed.

(** What holds of the state after [k] invocations. *)
Definition cycle_state (k : nat) (rs : list (Py.exc OpResult)) (wk : World) : Prop :=
  rs = repeat (inr FINISHED) k /\
  List.length (topo_report_list wk) = List.length (topo_report_list w) /\
  nth_error (topo_report_list wk) p
    = Some (with_current_pointer (cursor_after n k) item) /\
  exists objk,
    active_object wk = Some objk /\
    is_mesh_type (obj_type objk) = true /\
    table_len (element_type item) (obj_data objk)
      = table_len (element_type item) (obj_data obj) /\
    hide_flags (obj_data objk) = hide_flags (obj_data obj) /\
    hidden_unselected (obj_data objk) = true /\
    (forall k', k = S k' ->
       selected_of (element_type item) (obj_data objk) = [target k']).

Lemma cycle_invariant k :
  cycle_state k (fst (focus_times k index w)) (snd (focus_times k index w)).
Proof.
  pose proof ids_not_empty as Hn.
  induction k as [|k IH].
  - cbn [focus_times fst snd cursor_after repeat]. unfold cycle_state.
    repeat split; auto.
    + rewrite Hitem. f_equal. change (cursor_after n 0) with 0.
      rewrite <- Hfresh. symmetry.
      apply with_current_pointer_same.
    + exists obj. repeat split; auto. intros k' E. discriminate.
  - cbn [focus_times].
    destruct (focus_times k index w) as [rs wk]. cbn [fst snd] in IH.
    destruct IH as [Hrs [Hlen [Hnth [objk [Hok [Hmk [Htl [Hfl [Hhu _]]]]]]]]].
    assert (Hwrap : wrap_cursor (Py.len ids)
                      (current_pointer (with_current_pointer (cursor_after n k) item))
                    = Z.of_nat k mod n).
    { cbn [current_pointer with_current_pointer]. now apply wrap_cursor_after. }
    rewrite (focus_selects index p (with_current_pointer (cursor_after n k) item)
               ids objk wk).
    + cbn [fst snd]. unfold cycle_state, focused_world.
      cbv zeta. rewrite Hwrap. cbn [topo_report_list active_object element_type
                                     with_current_pointer].
      split; [|split; [|split]].
      * rewrite Hrs. change (repeat (inr FINISHED) (S k))
          with (@inr Py.PyExc _ FINISHED :: repeat (inr FINISHED) k).
        now rewrite repeat_cons.
      * now rewrite length_update_nth.
      * rewrite (nth_error_update_nth _ _ _ _ Hnth). reflexivity.
      * eexists. split; [reflexivity|].
        split; [|split; [|split; [|split]]].
        -- cbn [obj_type with_data]. now rewrite in_mode_type.
        -- cbn [obj_data with_data]. now rewrite select_checked_table_len.
        -- cbn [obj_data with_data]. now rewrite hide_flags_select_checked.
        -- cbn [obj_data with_data]. now apply hidden_unselected_select_checked.
        -- intros k' E. injection E as <-. cbn [obj_data with_data].
           apply select_checked_selected; [exact Hty | | exact Hhu |].
           ++ rewrite Htl. apply target_in_bounds.
           ++ rewrite (hidden_at_hide_flags _ _ _ _ Hfl). apply target_shown.
    + now rewrite Hlen.
    + exact Hnth.
    + exact Hok.
    + exact Hmk.
    + exact Hparse.
    + cbn [current_pointer with_current_pointer].
      pose proof (cursor_after_range n k Hn). lia.
    + rewrite Hwrap. apply target_in_bounds.
Qed.

End Cycling.

(* ================================================================== *)
(** * The focus operator: what the specification says of it            *)
(* ================================================================== *)

Lemma cursor_after_full (l : list Z) :
  l <> [] -> cursor_after (Py.len l) (List.length l) = Py.len l.
Proof.
  intros Hne. destruct l as [|a l]; [congruence|].
  unfold Py.len. cbn [List.length cursor_after].
  rewrite Z.mod_small; lia.
Qed.

(** C2, as amended.  Take a record whose serialized list parses to
    n > 0 indices, all of them inside the table of its element type and
    none of them the index of a hidden element, with its cursor at 0,
    over a mesh in which no hidden element is selected, and invoke the
    focus operator again and again on the unchanged mesh.  Every
    invocation finishes; invocation number k + 1 leaves exactly the
    element indices[k mod n] selected in that table, so the selection
    runs through indices[0], ..., indices[n-1] and starts again at
    indices[0]; the stored cursor after it is (k mod n) + 1.  After
    exactly n invocations the stored cursor is therefore n, not 0: it is
    put back to 0 only at the start of the next invocation. *)
Theorem focus_cycles index p item ids obj w (k : nat) :
  Py.subscript_pos (List.length (topo_report_list w)) index = Some p ->
  nth_error (topo_report_list w) p = Some item ->
  active_object w = Some obj ->
  is_mesh_type (obj_type obj) = true ->
  parse_ids (element_indices item) = inr ids ->
  current_pointer item = 0 ->
  is_element_type (element_type item) = true ->
  Forall (fun id => 0 <= id < table_len (element_type item) (obj_data obj)) ids ->
  Forall (fun id => hidden_at (element_type item) (Z.to_nat id) (obj_data obj) = false)
    ids ->
  hidden_unselected (obj_data obj) = true ->
  fst (focus_times (S k) index w) = repeat (inr FINISHED) (S k) /\
  (exists objk,
      active_object (snd (focus_times (S k) index w)) = Some objk /\
      selected_of (element_type item) (obj_data objk)
        = [nth (Z.to_nat (Z.of_nat k mod Py.len ids)) ids 0]) /\
  pointer_at p (snd (focus_times (S k) index w))
    = Some (Z.of_nat k mod Py.len ids + 1) /\
  pointer_at p (snd (focus_times (List.length ids) index w)) = Some (Py.len ids).
Proof.
  intros Hpos Hitem Hobj Hmesh Hparse Hfresh Hty Hbounds Hshown Hclean.
  pose proof (cycle_invariant index p item ids obj w
                Hpos Hitem Hobj Hmesh Hparse Hfresh Hty Hbounds Hshown Hclean)
    as Hinv.
  destruct (Hinv (S k)) as [Hrs [_ [Hnth [objk [Hok [_ [_ [_ [_ Hsel]]]]]]]]].
  split; [exact Hrs|]. split; [|split].
  - exists objk. split; [exact Hok|]. now apply Hsel.
  - unfold pointer_at. rewrite Hnth. reflexivity.
  - destruct (Hinv (List.length ids)) as [_ [_ [Hn _]]].
    unfold pointer_at. rewrite Hn. cbn [option_map current_pointer with_current_pointer].
    f_equal. apply cursor_after_full.
    now destruct (parse_ids_not_empty _ _ Hparse).
Qed.

Lemma focus_cycles_witness :
  let index := 0 in
  let p := 0%nat in
  let item := ngon_record_2_5_9 in
  let ids := [2; 5; 9] in
  let obj := mesh_object "Plates" OBJECT ten_plates in
  let w := world_ten_plates in
  let k := 3%nat in
  Py.subscript_pos (List.length (topo_report_list w)) index = Some p /\
  nth_error (topo_report_list w) p = Some item /\
  active_object w = Some obj /\
  is_mesh_type (obj_type obj) = true /\
  parse_ids (element_indices item) = inr ids /\
  current_pointer item = 0 /\
  is_element_type (element_type item) = true /\
  Forall (fun id => 0 <= id < table_len (element_type item) (obj_data obj)) ids /\
  Forall (fun id => hidden_at (element_type item) (Z.to_nat id) (obj_data obj) = false)
    ids /\
  hidden_unselected (obj_data obj) = true /\
  fst (focus_times (S k) index w) = repeat (inr FINISHED) (S k) /\
  (exists objk,
      active_object (snd (focus_times (S k) index w)) = Some objk /\
      selected_of (element_type item) (obj_data objk)
        = [nth (Z.to_nat (Z.of_nat k mod Py.len ids)) ids 0]) /\
  pointer_at p (snd (focus_times (S k) index w))
    = Some (Z.of_nat k mod Py.len ids + 1) /\
  pointer_at p (snd (focus_times (List.length ids) index w)) = Some (Py.len ids).
Proof.
  cbv zeta.
  assert (Hb : Forall (fun id => 0 <= id < table_len (element_type ngon_record_2_5_9)
                                         (obj_data (mesh_object "Plates" OBJECT ten_plates)))
                 [2; 5; 9]).
  { repeat constructor; vm_compute; congruence. }
  assert (Hs : Forall (fun id => hidden_at (element_type ngon_record_2_5_9) (Z.to_nat id)
                                   (obj_data (mesh_object "Plates" OBJECT ten_plates))
                                 = false)
                 [2; 5; 9]).
  { repeat constructor. }
  split; [reflexivity|]. split; [reflexivity|]. split; [reflexivity|].
  split; [reflexivity|]. split; [reflexivity|]. split; [reflexivity|].
  split; [reflexivity|]. split; [exact Hb|]. split; [exact Hs|].
  split; [reflexivity|].
  exact (focus_cycles 0 0%nat ngon_record_2_5_9 [2; 5; 9]
           (mesh_object "Plates" OBJECT ten_plates) world_ten_plates 3%nat
           eq_refl eq_refl eq_refl eq_refl eq_refl eq_refl eq_refl Hb Hs eq_refl).
Defined.

(** C2 as stated fails in its last part: the record lists the faces 2,
    5 and 9, three invocations select them in this order, and the
    stored cursor is then 3. *)
Lemma cursor_after_full_round_is_not_zero :
  parse_ids (element_indices ngon_record_2_5_9) = inr [2; 5; 9] /\
  fst (focus_times 3 0 world_ten_plates)
    = [inr FINISHED; inr FINISHED; inr FINISHED] /\
  reports (snd (focus_times 3 0 world_ten_plates))
    = [(INFO, "Selected FACE #2 (1/3)"); (INFO, "Selected FACE #5 (2/3)");
       (INFO, "Selected FACE #9 (3/3)")] /\
  pointer_at 0 (snd (focus_times 3 0 world_ten_plates)) = Some 3 /\
  pointer_at 0 (snd (focus_times 3 0 world_ten_plates)) <> Some 0.
Proof. vm_compute. repeat split. discriminate. Qed.

(** The operator on a target at or beyond the end of its table: it
    finishes, nothing is selected (a hidden element that was selected
    stays so), the cursor advances and a message of success is
    reported. *)
Lemma focus_beyond_table index p item ids obj w :
  Py.subscript_pos (List.length (topo_report_list w)) index = Some p ->
  nth_error (topo_report_list w) p = Some item ->
  active_object w = Some obj ->
  is_mesh_type (obj_type obj) = true ->
  parse_ids (element_indices item) = inr ids ->
  0 <= current_pointer item ->
  table_len (element_type item) (obj_data obj)
    <= nth (Z.to_nat (wrap_cursor (Py.len ids) (current_pointer item))) ids 0 ->
  fst (focus_execute index w) = inr FINISHED /\
  pointer_at p (snd (focus_execute index w))
    = Some (wrap_cursor (Py.len ids) (current_pointer item) + 1) /\
  (exists msg, reports (snd (focus_execute index w)) = (reports w ++ [(INFO, msg)])%list) /\
  (exists objk, active_object (snd (focus_execute index w)) = Some objk /\
                selected_of (element_type item) (obj_data objk)
                = stuck_selected (element_type item) (obj_data obj)).
Proof.
  intros Hpos Hitem Hobj Hmesh Hparse Hc Hge.
  assert (H0 : 0 <= table_len (element_type item) (obj_data obj)).
  { unfold table_len, Py.len.
    destruct (String.eqb _ "FACE"); [lia|].
    destruct (String.eqb _ "EDGE"); [lia|].
    destruct (String.eqb _ "VERT"); lia. }
  rewrite (focus_selects index p item ids obj w) by (auto; lia).
  cbn [fst snd]. unfold focused_world. cbv zeta.
  split; [reflexivity|]. split; [|split].
  - unfold pointer_at. cbn [topo_report_list].
    now rewrite (nth_error_update_nth _ _ _ _ Hitem).
  - eexists. reflexivity.
  - eexists. split; [reflexivity|]. cbn [obj_data with_data].
    now apply select_checked_nothing.
Qed.

(** C3 fails on the code: the record lists the faces 2, 5 and 9 and the
    mesh has one face left.  The target 2 is out of bounds, and the
    operator finishes, advances the cursor to 1 and reports
    "Selected FACE #2 (1/3)" with nothing selected; no error is
    reported. *)
Theorem focus_stale_index_reports_success :
  table_len "FACE" (islands [4%nat]) = 1 /\
  parse_ids (element_indices ngon_record_2_5_9) = inr [2; 5; 9] /\
  fst (focus_execute 0 world_stale_plates) = inr FINISHED /\
  reports (snd (focus_execute 0 world_stale_plates))
    = [(INFO, "Selected FACE #2 (1/3)")] /\
  pointer_at 0 (snd (focus_execute 0 world_stale_plates)) = Some 1 /\
  option_map (selected_of "FACE") (active_data (snd (focus_execute 0 world_stale_plates)))
    = Some [].
Proof. vm_compute. repeat split. Qed.

(** C9, as amended.  With a mesh object active, on a record whose
    serialized list is empty or does not parse as comma-separated
    integers, the focus operator finishes without error; the report
    list (the cursor with it), the mesh data with its selection flags,
    and the view are as before, and the object is in edit mode.  A
    warning is reported when the list is empty, and nothing is reported
    when a non-empty list fails to parse. *)
Theorem focus_without_targets index p item obj e w :
  Py.subscript_pos (List.length (topo_report_list w)) index = Some p ->
  nth_error (topo_report_list w) p = Some item ->
  active_object w = Some obj ->
  is_mesh_type (obj_type obj) = true ->
  parse_ids (element_indices item) = inl e ->
  fst (focus_execute index w) = inr FINISHED /\
  topo_report_list (snd (focus_execute index w)) = topo_report_list w /\
  active_data (snd (focus_execute index w)) = active_data w /\
  active_mode (snd (focus_execute index w)) = Some EDIT /\
  view_selected_calls (snd (focus_execute index w)) = view_selected_calls w /\
  reports (snd (focus_execute index w))
    = (reports w ++
       (if String.eqb (element_indices item) ""
        then [(WARNING, "No specific geometry to select for this issue.")]
        else []))%list.
Proof.
  intros Hpos Hitem Hobj Hmesh Hparse.
  unfold focus_execute.
  rewrite bind_get. cbv beta. rewrite Hpos, Hobj.
  rewrite (bind_when_mode EDIT obj _ _ Hobj (mesh_supports _ EDIT Hmesh)).
  destruct w as [rl st ao rp bms vs].
  cbn [active_object topo_report_list] in *. subst ao. norm_focus.
  rewrite (bind_item_at p item) by exact Hitem.
  assert (Hmode : obj_mode (in_mode EDIT obj) = EDIT).
  { unfold in_mode. destruct obj as [nm ty [] d]; reflexivity. }
  destruct (String.eqb (element_indices item) "").
  - unfold report. rewrite bind_modify. norm_focus. unfold ret.
    cbn [fst snd topo_report_list reports view_selected_calls].
    unfold active_data, active_mode. cbn [active_object option_map].
    rewrite Hmode, in_mode_data. repeat split.
  - rewrite Hparse. unfold ret.
    cbn [fst snd topo_report_list reports view_selected_calls].
    unfold active_data, active_mode. cbn [active_object option_map].
    rewrite Hmode, in_mode_data, app_nil_r. repeat split.
Qed.

Lemma focus_without_targets_witness :
  let index := 1 in
  let p := 1%nat in
  let item := good_issue in
  let obj := mesh_object "Plates" OBJECT ten_plates in
  let w := world_broken_record in
  Py.subscript_pos (List.length (topo_report_list w)) index = Some p /\
  nth_error (topo_report_list w) p = Some item /\
  active_object w = Some obj /\
  is_mesh_type (obj_type obj) = true /\
  parse_ids (element_indices item) = inl Py.ValueError /\
  fst (focus_execute index w) = inr FINISHED /\
  topo_report_list (snd (focus_execute index w)) = topo_report_list w /\
  active_data (snd (focus_execute index w)) = active_data w /\
  active_mode (snd (focus_execute index w)) = Some EDIT /\
  view_selected_calls (snd (focus_execute index w)) = view_selected_calls w /\
  reports (snd (focus_execute index w))
    = (reports w ++
       (if String.eqb (element_indices item) ""
        then [(WARNING, "No specific geometry to select for this issue.")]
        else []))%list.
Proof.
  cbv zeta.
  split; [reflexivity|]. split; [reflexivity|]. split; [reflexivity|].
  split; [reflexivity|]. split; [reflexivity|].
  exact (focus_without_targets 1 1%nat good_issue
           (mesh_object "Plates" OBJECT ten_plates) Py.ValueError
           world_broken_record eq_refl eq_refl eq_refl eq_refl eq_refl).
Defined.

(** C9 as stated fails for a list that does not parse: the operator
    finishes and reports nothing, so no warning is issued. *)
Lemma focus_parse_failure_is_silent :
  parse_ids (element_indices broken_record) = inl Py.ValueError /\
  fst (focus_execute 0 world_broken_record) = inr FINISHED /\
  reports world_broken_record = [] /\
  reports (snd (focus_execute 0 world_broken_record)) = [].
Proof. vm_compute. repeat split. Qed.

(* ================================================================== *)
(** * Further properties of the analysis operator                      *)
(* ================================================================== *)

Lemma analyzed_world_report w nm bm :
  topo_report_list (set_stats (analyzed_stats nm bm)
                      (set_report_list (analyzed_report bm) w))
  = analyzed_report bm.
Proof. destruct w; reflexivity. Qed.

Lemma analyzed_world_stats w nm bm :
  topo_stats (set_stats (analyzed_stats nm bm)
                (set_report_list (analyzed_report bm) w))
  = analyzed_stats nm bm.
Proof. destruct w; reflexivity. Qed.

Lemma length_filter_disjoint {A : Type} (f g : A -> bool) (l : list A) :
  (forall a, f a = true -> g a = false) ->
  (List.length (filter f l) + List.length (filter g l) <= List.length l)%nat.
Proof.
  intros H. induction l as [|a l IH]; cbn; [lia|].
  destruct (f a) eqn:Ef.
  - rewrite (H a Ef). cbn. lia.
  - destruct (g a); cbn; lia.
Qed.

Lemma length_filter_combine_seq {A : Type} (f : A -> bool) (l : list A) : forall s,
  List.length (filter (fun x => f (snd x)) (combine (seq s (List.length l)) l))
  = List.length (filter f l).
Proof.
  induction l as [|a l IH]; intros s; cbn; [reflexivity|].
  destruct (f a); cbn; now rewrite IH.
Qed.

Lemma length_flagged {A : Type} (f : A -> bool) (l : list A) :
  List.length (flagged f l) = List.length (filter f l).
Proof. apply length_filter_combine_seq. Qed.

Lemma tri_not_ngon f : is_tri f = true -> is_ngon f = false.
Proof.
  unfold is_tri, is_ngon. intros H. apply Z.eqb_eq in H. rewrite H. reflexivity.
Qed.

(** X1.  After the analysis of a mesh with at least one face, the stats
    record holds the name of the object and the sizes of its vertex and
    face tables; the n-gon count is the number of faces flagged by the
    n-gon check; and triangles and n-gons together never outnumber the
    faces. *)
Theorem analyze_counts w obj :
  active_object w = Some obj ->
  is_mesh_type (obj_type obj) = true ->
  bm_faces (obj_data obj) <> [] ->
  target_name (topo_stats (snd (analyze_execute w))) = obj_name obj /\
  vert_count (topo_stats (snd (analyze_execute w))) = Py.len (bm_verts (obj_data obj)) /\
  face_count (topo_stats (snd (analyze_execute w))) = Py.len (bm_faces (obj_data obj)) /\
  ngon_count (topo_stats (snd (analyze_execute w)))
    = Py.len (ngon_indices (obj_data obj)) /\
  0 <= tri_count (topo_stats (snd (analyze_execute w))) /\
  0 <= ngon_count (topo_stats (snd (analyze_execute w))) /\
  tri_count (topo_stats (snd (analyze_execute w)))
  + ngon_count (topo_stats (snd (analyze_execute w)))
    <= face_count (topo_stats (snd (analyze_execute w))).
Proof.
  intros Hobj Hmesh Hfaces.
  rewrite (analyze_on_faces w obj Hobj Hmesh Hfaces). cbn [snd].
  rewrite analyzed_world_stats.
  cbn [analyzed_stats target_name vert_count face_count ngon_count tri_count].
  pose proof (length_filter_disjoint is_tri is_ngon (bm_faces (obj_data obj))
                tri_not_ngon) as Hd.
  unfold ngon_indices, Py.len. rewrite length_map, length_flagged.
  repeat split; lia.
Qed.

Lemma analyze_counts_witness :
  let w := world_quads_and_pentagons in
  let obj := mesh_object "Plates" OBJECT quads_and_pentagons in
  active_object w = Some obj /\
  is_mesh_type (obj_type obj) = true /\
  bm_faces (obj_data obj) <> [] /\
  target_name (topo_stats (snd (analyze_execute w))) = obj_name obj /\
  vert_count (topo_stats (snd (analyze_execute w))) = Py.len (bm_verts (obj_data obj)) /\
  face_count (topo_stats (snd (analyze_execute w))) = Py.len (bm_faces (obj_data obj)) /\
  ngon_count (topo_stats (snd (analyze_execute w)))
    = Py.len (ngon_indices (obj_data obj)) /\
  0 <= tri_count (topo_stats (snd (analyze_execute w))) /\
  0 <= ngon_count (topo_stats (snd (analyze_execute w))) /\
  tri_count (topo_stats (snd (analyze_execute w)))
  + ngon_count (topo_stats (snd (analyze_execute w)))
    <= face_count (topo_stats (snd (analyze_execute w))).
Proof.
  cbv zeta.
  assert (Hf : bm_faces (obj_data (mesh_object "Plates" OBJECT quads_and_pentagons)) <> [])
    by discriminate.
  split; [reflexivity|]. split; [reflexivity|]. split; [exact Hf|].
  exact (analyze_counts world_quads_and_pentagons
           (mesh_object "Plates" OBJECT quads_and_pentagons) eq_refl eq_refl Hf).
Defined.

(** ** The shape of the report *)

Lemma indices_str_not_empty {A : Type} (found : list (nat * A)) :
  found <> [] -> indices_str found <> "".
Proof.
  intros Hne E. destruct (indices_str_split found Hne) as [Hs _].
  rewrite E in Hs. cbn [Py.split] in Hs.
  destruct found as [|[i a] found]; [congruence|].
  cbn [map fst firstn] in Hs. injection Hs as Hs _.
  symmetry in Hs. revert Hs. apply str_nonneg_not_empty. lia.
Qed.

Lemma defect_issues_records bm : Forall defect_record (defect_issues bm).
Proof.
  unfold defect_issues, ngon_issue, bad_edge_issue, sliver_issue, pole_issue.
  cbv zeta.
  apply Forall_app; split; [|apply Forall_app; split; [|apply Forall_app; split]].
  - destruct (nonempty (flagged is_ngon (bm_faces bm))) eqn:E; constructor; [|constructor].
    repeat split; cbn [issue element_indices element_type severity current_pointer].
    + apply indices_str_not_empty. now apply nonempty_ne.
    + unfold ngon_severity. destruct (Py.flt _ _); discriminate.
  - destruct (nonempty (flagged is_bad_edge (bm_edges bm))) eqn:E; constructor; [|constructor].
    repeat split; cbn [issue element_indices element_type severity current_pointer].
    + apply indices_str_not_empty. now apply nonempty_ne.
    + discriminate.
  - destruct (nonempty (sliver_found bm)) eqn:E; constructor; [|constructor].
    repeat split; cbn [issue element_indices element_type severity current_pointer].
    + apply indices_str_not_empty. now apply nonempty_ne.
    + discriminate.
  - destruct (nonempty (flagged is_pole (bm_verts bm))) eqn:E; constructor; [|constructor].
    repeat split; cbn [issue element_indices element_type severity current_pointer].
    + apply indices_str_not_empty. now apply nonempty_ne.
    + discriminate.
Qed.

Lemma defect_issues_length bm : (List.length (defect_issues bm) <= 4)%nat.
Proof.
  unfold defect_issues, ngon_issue, bad_edge_issue, sliver_issue, pole_issue.
  cbv zeta. rewrite !length_app.
  destruct (nonempty (flagged is_ngon (bm_faces bm)));
    destruct (nonempty (flagged is_bad_edge (bm_edges bm)));
    destruct (nonempty (sliver_found bm));
    destruct (nonempty (flagged is_pole (bm_verts bm))); cbn; lia.
Qed.

Lemma defect_issues_nil bm :
  defect_issues bm = [] <->
  ngon_indices bm = [] /\ bad_edge_indices bm = [] /\
  sliver_indices bm = [] /\ pole_indices bm = [].
Proof.
  unfold defect_issues, ngon_issue, bad_edge_issue, sliver_issue, pole_issue,
    ngon_indices, bad_edge_indices, sliver_indices, pole_indices.
  fold (sliver_found bm). cbv zeta.
  destruct (flagged is_ngon (bm_faces bm));
    destruct (flagged is_bad_edge (bm_edges bm));
    destruct (sliver_found bm);
    destruct (flagged is_pole (bm_verts bm)); cbn [nonempty map app];
    split; intros H; try reflexivity; try discriminate;
    try (repeat split; reflexivity);
    destruct H as [H1 [H2 [H3 H4]]]; discriminate.
Qed.

(** X2.  The report of a completed analysis is never empty and has at most
    four records, all with their cursor at 0.  It is the single GOOD
    record, which has no index list, exactly when none of the four
    checks flags an element; otherwise every record carries a non-empty
    index list for one of the three element tables, and none is GOOD. *)
Theorem analyze_report_shape w obj :
  active_object w = Some obj ->
  is_mesh_type (obj_type obj) = true ->
  bm_faces (obj_data obj) <> [] ->
  topo_report_list (snd (analyze_execute w)) <> [] /\
  (List.length (topo_report_list (snd (analyze_execute w))) <= 4)%nat /\
  Forall (fun it => current_pointer it = 0) (topo_report_list (snd (analyze_execute w))) /\
  (topo_report_list (snd (analyze_execute w)) = [good_issue] <->
   ngon_indices (obj_data obj) = [] /\ bad_edge_indices (obj_data obj) = [] /\
   sliver_indices (obj_data obj) = [] /\ pole_indices (obj_data obj) = []) /\
  (topo_report_list (snd (analyze_execute w)) <> [good_issue] ->
   Forall (fun it => element_indices it <> "" /\
                     is_element_type (element_type it) = true /\
                     severity it <> "GOOD")
     (topo_report_list (snd (analyze_execute w)))).
Proof.
  intros Hobj Hmesh Hfaces.
  rewrite (analyze_on_faces w obj Hobj Hmesh Hfaces). cbn [snd].
  rewrite analyzed_world_report. set (bm := obj_data obj).
  pose proof (defect_issues_records bm) as Hrec.
  pose proof (defect_issues_length bm) as Hlen.
  pose proof (defect_issues_nil bm) as Hnil.
  unfold analyzed_report.
  destruct (defect_issues bm) as [|it l] eqn:E; cbn [nonempty].
  - split; [discriminate|]. split; [cbn; lia|]. split; [repeat constructor|].
    split; [|congruence].
    split; intros _; [now apply Hnil | reflexivity].
  - split; [discriminate|]. split; [exact Hlen|]. split; [|split].
    + eapply Forall_impl; [|exact Hrec]. intros a Ha. apply Ha.
    + split.
      * intros Hg. inversion Hg; subst.
        apply Forall_inv in Hrec. destruct Hrec as [Hi _]. now elim Hi.
      * intros H. apply Hnil in H. discriminate.
    + intros _. eapply Forall_impl; [|exact Hrec].
      intros a [H1 [H2 [H3 _]]]. auto.
Qed.

Lemma analyze_report_shape_witness :
  let w := world_open_quad in
  let obj := mesh_object "Plane" OBJECT (islands [4%nat]) in
  active_object w = Some obj /\
  is_mesh_type (obj_type obj) = true /\
  bm_faces (obj_data obj) <> [] /\
  topo_report_list (snd (analyze_execute w)) <> [] /\
  (List.length (topo_report_list (snd (analyze_execute w))) <= 4)%nat /\
  Forall (fun it => current_pointer it = 0) (topo_report_list (snd (analyze_execute w))) /\
  (topo_report_list (snd (analyze_execute w)) = [good_issue] <->
   ngon_indices (obj_data obj) = [] /\ bad_edge_indices (obj_data obj) = [] /\
   sliver_indices (obj_data obj) = [] /\ pole_indices (obj_data obj) = []) /\
  (topo_report_list (snd (analyze_execute w)) <> [good_issue] ->
   Forall (fun it => element_indices it <> "" /\
                     is_element_type (element_type it) = true /\
                     severity it <> "GOOD")
     (topo_report_list (snd (analyze_execute w)))).
Proof.
  cbv zeta.
  assert (Hf : bm_faces (obj_data (mesh_object "Plane" OBJECT (islands [4%nat]))) <> [])
    by discriminate.
  split; [reflexivity|]. split; [reflexivity|]. split; [exact Hf|].
  exact (analyze_report_shape world_open_quad
           (mesh_object "Plane" OBJECT (islands [4%nat])) eq_refl eq_refl Hf).
Defined.

(** ** Running the analysis again *)

Lemma in_mode_in_mode m obj : in_mode m (in_mode m obj) = in_mode m obj.
Proof. unfold in_mode. destruct obj as [nm ty [] d], m; reflexivity. Qed.

(** X3.  A second run directly after a first one ends the same way and
    leaves the same report, the same statistics and the same mesh data:
    the analysis reads nothing that it wrote. *)
Theorem analyze_again_same w :
  fst (analyze_execute (snd (analyze_execute w))) = fst (analyze_execute w) /\
  topo_report_list (snd (analyze_execute (snd (analyze_execute w))))
    = topo_report_list (snd (analyze_execute w)) /\
  topo_stats (snd (analyze_execute (snd (analyze_execute w))))
    = topo_stats (snd (analyze_execute w)) /\
  active_object (snd (analyze_execute (snd (analyze_execute w))))
    = active_object (snd (analyze_execute w)).
Proof.
  destruct (analyze_cases w) as [H | [[obj [Hobj [Hmesh Hf]]] | [obj [Hobj [Hmesh Hf]]]]].
  - rewrite (analyze_without_mesh w H). cbn [snd fst].
    rewrite analyze_without_mesh by (destruct w; exact H).
    destruct w; repeat split.
  - rewrite (analyze_without_faces w obj Hobj Hmesh Hf). cbn [snd fst].
    rewrite (analyze_without_faces _ (in_mode OBJECT obj));
      [ | destruct w; reflexivity
        | now rewrite in_mode_type
        | now rewrite in_mode_data ].
    cbn [fst snd]. destruct w as [rl st ao rp bms vs].
    cbn [set_active_object set_stats set_report_list topo_report_list topo_stats
         active_object].
    rewrite in_mode_in_mode.
    assert (Hn : obj_name (in_mode OBJECT obj) = obj_name obj).
    { unfold in_mode. destruct (mode_eqb (obj_mode obj) OBJECT); destruct obj; reflexivity. }
    rewrite Hn. repeat split.
  - rewrite (analyze_on_faces w obj Hobj Hmesh Hf). cbn [snd fst].
    rewrite (analyze_on_faces _ obj); [ | destruct w; exact Hobj | exact Hmesh | exact Hf ].
    cbn [fst snd]. destruct w; repeat split.
Qed.

(* ================================================================== *)
(** * The focus operator changes flags, cursors and the mode only      *)
(* ================================================================== *)

Lemma focus_frame_refl w : focus_frame w w.
Proof. repeat split. Qed.

Lemma focus_frame_trans w1 w2 w3 :
  focus_frame w1 w2 -> focus_frame w2 w3 -> focus_frame w1 w3.
Proof.
  intros [A1 [A2 [A3 A4]]] [B1 [B2 [B3 B4]]].
  repeat split; congruence.
Qed.

Section KeepsFrame.

Context {A B : Type}.

Lemma keeps_ret (a : A) : keeps_frame (ret a).
Proof. intros w. apply focus_frame_refl. Qed.

Lemma keeps_raise (e : Py.PyExc) : keeps_frame (@raise A e).
Proof. intros w. apply focus_frame_refl. Qed.

Lemma keeps_lift (c : Py.exc A) : keeps_frame (lift c).
Proof. intros w. apply focus_frame_refl. Qed.

Lemma keeps_bind (m : M A) (k : A -> M B) :
  keeps_frame m -> (forall a, keeps_frame (k a)) -> keeps_frame (bind m k).
Proof.
  intros Hm Hk w. unfold bind. specialize (Hm w).
  destruct (m w) as [[e|a] w']; cbn [snd] in *; [exact Hm|].
  eapply focus_frame_trans; [exact Hm | apply Hk].
Qed.

Lemma keeps_try (m : M A) : keeps_frame m -> keeps_frame (try m).
Proof.
  intros Hm w. unfold try. specialize (Hm w).
  destruct (m w) as [r w']. exact Hm.
Qed.

End KeepsFrame.

Lemma keeps_get : keeps_frame get.
Proof. intros w. apply focus_frame_refl. Qed.

Lemma keeps_when b (c : M unit) : keeps_frame c -> keeps_frame (when b c).
Proof. intros H. destruct b; [exact H | apply keeps_ret]. Qed.

Lemma keeps_report level msg : keeps_frame (report level msg).
Proof. intros w. destruct w; repeat split. Qed.

Lemma keeps_view_selected : keeps_frame view_selected.
Proof. intros w. destruct w; repeat split. Qed.

Lemma keeps_mode_set m : keeps_frame (mode_set m).
Proof.
  intros w. unfold mode_set, bind, get.
  destruct w as [rl st [o|] rp bms vs]; cbn [active_object];
    [|apply focus_frame_refl].
  destruct (supports_mode (obj_type o) m); [|apply focus_frame_refl].
  repeat split.
Qed.

Lemma record_content_update_nth c (l : list TopoIssueItem) : forall p,
  map record_content (update_nth p (with_current_pointer c) l) = map record_content l.
Proof.
  induction l as [|a l IH]; intros [|p]; cbn; auto.
  now rewrite IH.
Qed.

Lemma keeps_set_current_pointer p c : keeps_frame (set_current_pointer p c).
Proof.
  intros w. destruct w as [rl st ao rp bms vs]; repeat split.
  cbn. apply record_content_update_nth.
Qed.

Lemma keeps_item_at p : keeps_frame (item_at p).
Proof.
  unfold item_at. apply keeps_bind; [apply keeps_get|].
  intros w0. destruct (nth_error _ _); [apply keeps_ret | apply keeps_raise].
Qed.

Lemma keeps_from_edit_mesh : keeps_frame from_edit_mesh.
Proof.
  unfold from_edit_mesh. apply keeps_bind; [apply keeps_get|].
  intros w0. destruct (active_object w0); [|apply keeps_raise].
  destruct (is_mesh_type _); [apply keeps_ret | apply keeps_raise].
Qed.

(** A write to the edit mesh that keeps the topology keeps the frame. *)
Lemma keeps_modify_edit_mesh (f : BMesh -> BMesh) :
  (forall bm, topology (f bm) = topology bm) -> keeps_frame (modify_edit_mesh f).
Proof.
  intros Hf w. destruct w as [rl st [o|] rp bms vs]; repeat split.
  cbn. unfold object_topology. cbn. now rewrite Hf.
Qed.

(** ** The writes of the operator keep the topology *)

Section FlagWrites.

Context {A T : Type} (topo : A -> T) (set : A -> A).
Hypothesis topo_set : forall a, topo (set a) = topo a.

Lemma map_topo_map (l : list A) : map topo (map set l) = map topo l.
Proof. rewrite map_map. apply map_ext. exact topo_set. Qed.

Lemma map_topo_update_nth (l : list A) : forall p,
  map topo (update_nth p set l) = map topo l.
Proof.
  induction l as [|a l IH]; intros [|p]; cbn; auto.
  - now rewrite topo_set.
  - now rewrite IH.
Qed.

End FlagWrites.

Lemma vert_topology_set b v : vert_topology (vert_select_set b v) = vert_topology v.
Proof. unfold vert_select_set. destruct (v_hide v); reflexivity. Qed.

Lemma edge_topology_set b e : edge_topology (edge_flag_set b e) = edge_topology e.
Proof. unfold edge_flag_set. destruct (e_hide e); reflexivity. Qed.

Lemma face_topology_set b f : face_topology (face_flag_set b f) = face_topology f.
Proof. unfold face_flag_set. destruct (f_hide f); reflexivity. Qed.

Lemma topology_deselect_all bm : topology (deselect_all bm) = topology bm.
Proof.
  unfold topology, deselect_all. cbn.
  rewrite (map_topo_map vert_topology), (map_topo_map edge_topology),
    (map_topo_map face_topology);
    auto using vert_topology_set, edge_topology_set, face_topology_set.
Qed.

Lemma topology_with_select_history h bm :
  topology (with_select_history h bm) = topology bm.
Proof. reflexivity. Qed.

Lemma topology_select_vert p bm : topology (select_vert p bm) = topology bm.
Proof.
  unfold topology, select_vert. cbn.
  rewrite (map_topo_update_nth vert_topology); [reflexivity|].
  apply vert_topology_set.
Qed.

Lemma topology_select_verts vs : forall bm,
  topology (select_verts vs bm) = topology bm.
Proof.
  unfold select_verts. induction vs as [|v vs IH]; intros bm; cbn [fold_left];
    [reflexivity|].
  rewrite IH. apply topology_select_vert.
Qed.

Lemma topology_select_edge p bm : topology (select_edge p bm) = topology bm.
Proof.
  unfold select_edge. destruct (nth_error (bm_edges bm) p) as [e|]; [|reflexivity].
  destruct (e_hide e); [reflexivity|].
  rewrite topology_select_verts. unfold topology. cbn.
  now rewrite (map_topo_update_nth edge_topology).
Qed.

Lemma topology_select_edges es : forall bm,
  topology (select_edges es bm) = topology bm.
Proof.
  unfold select_edges. induction es as [|e es IH]; intros bm; cbn [fold_left];
    [reflexivity|].
  rewrite IH. apply topology_select_edge.
Qed.

Lemma topology_select_face p bm : topology (select_face p bm) = topology bm.
Proof.
  unfold select_face. destruct (nth_error (bm_faces bm) p) as [f|]; [|reflexivity].
  destruct (f_hide f); [reflexivity|].
  rewrite topology_select_edges, topology_select_verts. unfold topology. cbn.
  now rewrite (map_topo_update_nth face_topology).
Qed.

Lemma keeps_select_target ty target : keeps_frame (select_target ty target).
Proof.
  unfold select_target. apply keeps_bind; [apply keeps_from_edit_mesh|].
  intros bm.
  destruct (String.eqb ty "FACE").
  { destruct (target <? _); [|apply keeps_ret].
    destruct (Py.subscript_pos _ _); [|apply keeps_raise].
    destruct (nth_error _ _); [|apply keeps_raise].
    apply keeps_bind; [|intros _]; apply keeps_modify_edit_mesh; intros bm0.
    - apply topology_select_face.
    - apply topology_select_verts. }
  destruct (String.eqb ty "EDGE").
  { destruct (target <? _); [|apply keeps_ret].
    destruct (Py.subscript_pos _ _); [|apply keeps_raise].
    destruct (nth_error _ _); [|apply keeps_raise].
    apply keeps_bind; [|intros _]; apply keeps_modify_edit_mesh; intros bm0.
    - apply topology_select_edge.
    - apply topology_select_verts. }
  destruct (String.eqb ty "VERT"); [|apply keeps_ret].
  destruct (target <? _); [|apply keeps_ret].
  destruct (Py.subscript_pos _ _); [|apply keeps_raise].
  apply keeps_modify_edit_mesh; intros bm0. apply topology_select_vert.
Qed.

Lemma keeps_focus_execute index : keeps_frame (focus_execute index).
Proof.
  unfold focus_execute. apply keeps_bind; [apply keeps_get|]. intros w0.
  destruct (Py.subscript_pos _ _) as [p|]; [|apply keeps_raise].
  destruct (active_object w0) as [obj|]; [|apply keeps_raise].
  apply keeps_bind; [apply keeps_when, keeps_mode_set|]. intros _.
  apply keeps_bind; [apply keeps_item_at|]. intros item.
  destruct (String.eqb _ _).
  { apply keeps_bind; [apply keeps_report | intros _; apply keeps_ret]. }
  destruct (parse_ids _) as [e|ids]; [apply keeps_ret|].
  apply keeps_bind; [apply keeps_when, keeps_set_current_pointer|]. intros _.
  apply keeps_bind; [apply keeps_item_at|]. intros item'.
  apply keeps_bind; [apply keeps_lift|]. intros target_id.
  apply keeps_bind; [apply keeps_from_edit_mesh|]. intros _.
  apply keeps_bind;
    [apply keeps_modify_edit_mesh, topology_deselect_all|]. intros _.
  apply keeps_bind;
    [apply keeps_modify_edit_mesh, topology_with_select_history|]. intros _.
  apply keeps_bind; [apply keeps_try, keeps_select_target|]. intros r.
  destruct r as [[]|u];
    try apply keeps_raise;
    try (apply keeps_bind; [apply keeps_report | intros _; apply keeps_ret]).
  unfold update_edit_mesh.
  apply keeps_bind; [apply keeps_ret|]. intros _.
  apply keeps_bind; [apply keeps_view_selected|]. intros _.
  apply keeps_bind; [apply keeps_set_current_pointer|]. intros _.
  apply keeps_bind; [apply keeps_item_at|]. intros item''.
  apply keeps_bind; [apply keeps_report | intros _; apply keeps_ret].
Qed.

(** X4.  However an invocation of the focus operator ends (finished,
    cancelled or with an exception), it has changed nothing but
    selection flags, the selection history, cursors, the mode, the
    reports and the view: the statistics, the live BMesh copies, the
    content of every record of the report, and the name, the type and
    the topology of the active object are as before. *)
Theorem focus_keeps_topology index w :
  topo_stats (snd (focus_execute index w)) = topo_stats w /\
  bmeshes (snd (focus_execute index w)) = bmeshes w /\
  map record_content (topo_report_list (snd (focus_execute index w)))
    = map record_content (topo_report_list w) /\
  option_map object_topology (active_object (snd (focus_execute index w)))
    = option_map object_topology (active_object w).
Proof. exact (keeps_focus_execute index w). Qed.

(* ================================================================== *)
(** * The analysis reads the topology only                              *)
(* ================================================================== *)

Section FlaggedByTopology.

Context {A T : Type} (g : A -> T) (q : T -> bool).

Lemma flagged_map_from (l : list A) : forall s,
  map fst (filter (fun x => q (g (snd x))) (combine (seq s (List.length l)) l))
  = map fst (filter (fun x => q (snd x))
               (combine (seq s (List.length (map g l))) (map g l))).
Proof.
  induction l as [|a l IH]; intros s; cbn; [reflexivity|].
  destruct (q (g a)); cbn; now rewrite IH.
Qed.

Lemma flagged_map (l : list A) :
  map fst (flagged (fun a => q (g a)) l) = map fst (flagged q (map g l)).
Proof. apply flagged_map_from. Qed.

Lemma flagged_same_topology (p : A -> bool) (l l' : list A) :
  (forall a, p a = q (g a)) ->
  map g l = map g l' ->
  map fst (flagged p l) = map fst (flagged p l').
Proof.
  intros Hp E.
  assert (Hf : forall t, map fst (flagged p t) = map fst (flagged q (map g t))).
  { intros t. rewrite <- flagged_map. unfold flagged. f_equal.
    apply filter_ext. intros x. apply Hp. }
  now rewrite !Hf, E.
Qed.

End FlaggedByTopology.

Lemma found_view {A B : Type} (found : list (nat * A)) (found' : list (nat * B)) :
  map fst found = map fst found' ->
  nonempty found = nonempty found' /\
  Py.len found = Py.len found' /\
  indices_str found = indices_str found'.
Proof.
  intros E. split; [|split].
  - rewrite <- (nonempty_map_fst found), <- (nonempty_map_fst found'). now rewrite E.
  - rewrite <- (len_map_fst found), <- (len_map_fst found'). now rewrite E.
  - rewrite !indices_str_eq. now rewrite E.
Qed.

Lemma edge_lengths_topology bm f :
  edge_lengths bm f
  = lengths_of (map edge_topology (bm_edges bm)) (snd (face_topology f)).
Proof.
  unfold edge_lengths, face_edges, lengths_of. cbn [face_topology snd].
  induction (f_edges f) as [|i l IH]; cbn [flat_map map]; [reflexivity|].
  rewrite map_app, IH. f_equal.
  rewrite nth_error_map. destruct (nth_error (bm_edges bm) i); reflexivity.
Qed.

Section SameTopology.

Variables bm bm' : BMesh.
Hypothesis Htopo : topology bm' = topology bm.

Lemma same_verts : map vert_topology (bm_verts bm') = map vert_topology (bm_verts bm).
Proof. unfold topology in Htopo. congruence. Qed.

Lemma same_edges : map edge_topology (bm_edges bm') = map edge_topology (bm_edges bm).
Proof. unfold topology in Htopo. congruence. Qed.

Lemma same_faces : map face_topology (bm_faces bm') = map face_topology (bm_faces bm).
Proof. unfold topology in Htopo. congruence. Qed.

Lemma same_len_faces : Py.len (bm_faces bm') = Py.len (bm_faces bm).
Proof.
  unfold Py.len. rewrite <- (length_map face_topology (bm_faces bm')), same_faces.
  now rewrite length_map.
Qed.

Lemma same_len_verts : Py.len (bm_verts bm') = Py.len (bm_verts bm).
Proof.
  unfold Py.len. rewrite <- (length_map vert_topology (bm_verts bm')), same_verts.
  now rewrite length_map.
Qed.

Lemma same_faces_nil : bm_faces bm' = [] <-> bm_faces bm = [].
Proof.
  pose proof same_len_faces as H. unfold Py.len in H.
  destruct (bm_faces bm'), (bm_faces bm); cbn in H; split; intros E;
    try reflexivity; try discriminate; lia.
Qed.

Lemma same_ngons :
  map fst (flagged is_ngon (bm_faces bm')) = map fst (flagged is_ngon (bm_faces bm)).
Proof.
  apply (flagged_same_topology face_topology (fun t => 4 <? Py.len (fst t)));
    [reflexivity | exact same_faces].
Qed.

Lemma same_bad_edges :
  map fst (flagged is_bad_edge (bm_edges bm'))
  = map fst (flagged is_bad_edge (bm_edges bm)).
Proof.
  apply (flagged_same_topology edge_topology (fun t => negb (snd (fst t))));
    [reflexivity | exact same_edges].
Qed.

Lemma same_poles :
  map fst (flagged is_pole (bm_verts bm')) = map fst (flagged is_pole (bm_verts bm)).
Proof.
  apply (flagged_same_topology vert_topology (fun t => 5 <? Py.len t));
    [reflexivity | exact same_verts].
Qed.

Lemma same_slivers : map fst (sliver_found bm') = map fst (sliver_found bm).
Proof.
  unfold sliver_found.
  assert (Hf : forall b, map edge_topology (bm_edges b) = map edge_topology (bm_edges bm) ->
             forall t, map fst (flagged (fun f => sliver_test (edge_lengths b f)) t)
                       = map fst (flagged
                                    (fun x => sliver_test
                                       (lengths_of (map edge_topology (bm_edges bm)) (snd x)))
                                    (map face_topology t))).
  { intros b Hb t. rewrite <- flagged_map. unfold flagged. f_equal.
    apply filter_ext. intros x. now rewrite edge_lengths_topology, Hb. }
  rewrite (Hf bm' same_edges), (Hf bm eq_refl). now rewrite same_faces.
Qed.

Lemma same_tris :
  Py.len (filter is_tri (bm_faces bm')) = Py.len (filter is_tri (bm_faces bm)).
Proof.
  unfold Py.len. rewrite <- !length_flagged.
  rewrite <- (length_map fst (flagged is_tri (bm_faces bm'))),
          <- (length_map fst (flagged is_tri (bm_faces bm))).
  f_equal. f_equal.
  apply (flagged_same_topology face_topology (fun t => Py.len (fst t) =? 3));
    [reflexivity | exact same_faces].
Qed.

Lemma same_ngon_count :
  Py.len (filter is_ngon (bm_faces bm')) = Py.len (filter is_ngon (bm_faces bm)).
Proof.
  unfold Py.len. rewrite <- !length_flagged.
  rewrite <- (length_map fst (flagged is_ngon (bm_faces bm'))),
          <- (length_map fst (flagged is_ngon (bm_faces bm))).
  now rewrite same_ngons.
Qed.

Lemma analyzed_report_topology : analyzed_report bm' = analyzed_report bm.
Proof.
  destruct (found_view _ _ same_ngons) as [N1 [N2 N3]].
  destruct (found_view _ _ same_bad_edges) as [B1 [B2 B3]].
  destruct (found_view _ _ same_slivers) as [S1 [S2 S3]].
  destruct (found_view _ _ same_poles) as [P1 [P2 P3]].
  unfold analyzed_report, defect_issues, ngon_issue, bad_edge_issue, sliver_issue,
    pole_issue. cbv zeta.
  now rewrite N1, N2, N3, B1, B3, S1, S2, S3, P1, P2, P3, same_len_faces.
Qed.

Lemma analyzed_stats_topology nm : analyzed_stats nm bm' = analyzed_stats nm bm.
Proof.
  destruct (found_view _ _ same_ngons) as [_ [N2 _]].
  destruct (found_view _ _ same_bad_edges) as [B1 _].
  destruct (found_view _ _ same_slivers) as [_ [S2 _]].
  unfold analyzed_stats.
  now rewrite N2, B1, S2, same_len_faces, same_len_verts, same_tris, same_ngon_count.
Qed.

End SameTopology.

Lemma object_topology_eq o o' :
  object_topology o' = object_topology o ->
  obj_name o' = obj_name o /\ obj_type o' = obj_type o /\
  topology (obj_data o') = topology (obj_data o).
Proof.
  intros H. unfold object_topology in H. repeat split.
  - exact (f_equal (fun x => fst (fst x)) H).
  - exact (f_equal (fun x => snd (fst x)) H).
  - exact (f_equal snd H).
Qed.

(** Two states with the same statistics whose active objects have the
    same name, type and topology are analysed alike. *)
Lemma analyze_by_topology w w' :
  topo_stats w' = topo_stats w ->
  option_map object_topology (active_object w')
    = option_map object_topology (active_object w) ->
  fst (analyze_execute w') = fst (analyze_execute w) /\
  topo_report_list (snd (analyze_execute w')) = topo_report_list (snd (analyze_execute w)) /\
  topo_stats (snd (analyze_execute w')) = topo_stats (snd (analyze_execute w)).
Proof.
  intros Hst Hobj.
  destruct (analyze_cases w) as [H | [[obj [Ho [Hmesh Hf]]] | [obj [Ho [Hmesh Hf]]]]].
  - assert (H' : active_mesh w' = None).
    { unfold active_mesh in *. destruct (active_object w) as [o|], (active_object w') as [o'|];
        cbn in Hobj; try discriminate; try reflexivity.
      assert (E : object_topology o' = object_topology o) by congruence.
      apply object_topology_eq in E as [_ [Ety _]]. rewrite Ety.
      destruct (is_mesh_type (obj_type o)); [discriminate | reflexivity]. }
    rewrite (analyze_without_mesh w H), (analyze_without_mesh w' H').
    destruct w, w'. cbn in *. subst. repeat split.
  - rewrite Ho in Hobj. destruct (active_object w') as [obj'|] eqn:Ho'; [|discriminate].
    cbn in Hobj.
    assert (E : object_topology obj' = object_topology obj) by congruence.
    apply object_topology_eq in E as [Enm [Ety Etopo]]. clear Hobj.
    assert (Hmesh' : is_mesh_type (obj_type obj') = true) by now rewrite Ety.
    assert (Hf' : bm_faces (obj_data obj') = []) by now apply (same_faces_nil _ _ Etopo).
    rewrite (analyze_without_faces w obj Ho Hmesh Hf),
            (analyze_without_faces w' obj' Ho' Hmesh' Hf').
    destruct w, w'. cbn in *. subst. rewrite Enm. repeat split.
  - rewrite Ho in Hobj. destruct (active_object w') as [obj'|] eqn:Ho'; [|discriminate].
    cbn in Hobj.
    assert (E : object_topology obj' = object_topology obj) by congruence.
    apply object_topology_eq in E as [Enm [Ety Etopo]]. clear Hobj.
    assert (Hmesh' : is_mesh_type (obj_type obj') = true) by now rewrite Ety.
    assert (Hf' : bm_faces (obj_data obj') <> []).
    { intros E. apply Hf. now apply (same_faces_nil _ _ Etopo). }
    rewrite (analyze_on_faces w obj Ho Hmesh Hf),
            (analyze_on_faces w' obj' Ho' Hmesh' Hf').
    cbn [fst snd]. rewrite !analyzed_world_report, !analyzed_world_stats.
    rewrite (analyzed_report_topology _ _ Etopo), (analyzed_stats_topology _ _ Etopo), Enm.
    repeat split.
Qed.

(** X5.  An invocation of the focus operator before the analysis makes no
    difference to what the analysis returns, reports and counts:
    selecting is invisible to it, and a new analysis puts every cursor
    back to 0. *)
Theorem analyze_after_focus index w :
  fst (analyze_execute (snd (focus_execute index w))) = fst (analyze_execute w) /\
  topo_report_list (snd (analyze_execute (snd (focus_execute index w))))
    = topo_report_list (snd (analyze_execute w)) /\
  topo_stats (snd (analyze_execute (snd (focus_execute index w))))
    = topo_stats (snd (analyze_execute w)).
Proof.
  destruct (keeps_focus_execute index w) as [Hst [_ [_ Hobj]]].
  now apply analyze_by_topology.
Qed.

(* ================================================================== *)
(** * From the analysis to the focus operator                          *)
(* ================================================================== *)

Lemma flagged_indices_bound {A : Type} (p : A -> bool) (t : list A) :
  Forall (fun i => (i < List.length t)%nat) (map fst (flagged p t)).
Proof.
  apply Forall_forall. intros i Hi.
  apply flagged_indices_spec in Hi as [a [Hn _]].
  apply nth_error_Some. congruence.
Qed.

Lemma firstn_Forall {A : Type} (P : A -> Prop) n (l : list A) :
  Forall P l -> Forall P (firstn n l).
Proof.
  intros H. rewrite Forall_forall in *. intros a Ha. apply H.
  rewrite <- (firstn_skipn n l). apply in_or_app. now left.
Qed.

(** A record of one check: its list parses to indices of its table. *)
Lemma found_record_targets {A : Type} (p : A -> bool) (t : list A) bm sev nm descr ty :
  flagged p t <> [] ->
  table_len ty bm = Py.len t ->
  Py.len t < 2 ^ 53 ->
  exists ids,
    parse_ids (element_indices (issue sev nm descr (indices_str (flagged p t)) ty))
      = inr ids /\
    ids = map Z.of_nat (firstn 200 (map fst (flagged p t))) /\
    Forall (fun id => 0 <= id < table_len ty bm) ids.
Proof.
  intros Hne Hlen Hsz.
  assert (Hp : parse_ids (indices_str (flagged p t))
               = inr (map Z.of_nat (firstn 200 (map fst (flagged p t))))).
  { apply indices_str_parse; [exact Hne|].
    eapply Forall_impl; [|apply flagged_indices_bound].
    intros i Hi. cbv beta in Hi. unfold Py.len in Hsz. lia. }
  eexists. split; [exact Hp|]. split; [reflexivity|].
  rewrite Hlen. apply Forall_forall. intros id Hid.
  apply in_map_iff in Hid as [i [<- Hi]].
  pose proof (firstn_Forall _ 200 _ (flagged_indices_bound p t)) as Hb.
  rewrite Forall_forall in Hb. specialize (Hb i Hi). unfold Py.len. lia.
Qed.

Lemma defect_issue_targets bm it :
  host_sized bm ->
  In it (defect_issues bm) ->
  current_pointer it = 0 /\
  is_element_type (element_type it) = true /\
  exists ids,
    parse_ids (element_indices it) = inr ids /\
    Forall (fun id => 0 <= id < table_len (element_type it) bm) ids /\
    (ids = map Z.of_nat (firstn 200 (ngon_indices bm)) \/
     ids = map Z.of_nat (firstn 200 (bad_edge_indices bm)) \/
     ids = map Z.of_nat (firstn 200 (sliver_indices bm)) \/
     ids = map Z.of_nat (firstn 200 (pole_indices bm))).
Proof.
  unfold defect_issues, ngon_issue, bad_edge_issue, sliver_issue, pole_issue.
  cbv zeta. rewrite !in_app_iff. intros [Hsv [Hse Hsf]] [H | [H | [H | H]]].
  - destruct (nonempty (flagged is_ngon (bm_faces bm))) eqn:E; [|contradiction].
    destruct H as [<-|[]]. split; [reflexivity|]. split; [reflexivity|].
    destruct (found_record_targets is_ngon (bm_faces bm) bm
                (ngon_severity (Py.len (flagged is_ngon (bm_faces bm)))
                   (Py.len (bm_faces bm)))
                (Py.str (Py.len (flagged is_ngon (bm_faces bm))) ++ " N-Gons Detected")
                ngon_description "FACE" (nonempty_ne _ E) eq_refl Hsf)
      as [ids [Hp [Hids Hb]]].
    exists ids. split; [exact Hp|]. split; [exact Hb|]. now left.
  - destruct (nonempty (flagged is_bad_edge (bm_edges bm))) eqn:E; [|contradiction].
    destruct H as [<-|[]]. split; [reflexivity|]. split; [reflexivity|].
    destruct (found_record_targets is_bad_edge (bm_edges bm) bm
                "CRITICAL" "Non-Manifold Geometry" bad_edge_description "EDGE"
                (nonempty_ne _ E) eq_refl Hse)
      as [ids [Hp [Hids Hb]]].
    exists ids. split; [exact Hp|]. split; [exact Hb|]. right. now left.
  - destruct (nonempty (sliver_found bm)) eqn:E; [|contradiction].
    destruct H as [<-|[]]. split; [reflexivity|]. split; [reflexivity|].
    destruct (found_record_targets (fun f => sliver_test (edge_lengths bm f))
                (bm_faces bm) bm
                "MEDIUM" (Py.str (Py.len (sliver_found bm)) ++ " Sliver Faces")
                sliver_description "FACE" (nonempty_ne _ E) eq_refl Hsf)
      as [ids [Hp [Hids Hb]]].
    exists ids. split; [exact Hp|]. split; [exact Hb|]. right. right. now left.
  - destruct (nonempty (flagged is_pole (bm_verts bm))) eqn:E; [|contradiction].
    destruct H as [<-|[]]. split; [reflexivity|]. split; [reflexivity|].
    destruct (found_record_targets is_pole (bm_verts bm) bm
                "INFO" (Py.str (Py.len (flagged is_pole (bm_verts bm)))
                        ++ " High-Valence Poles")
                pole_description "VERT" (nonempty_ne _ E) eq_refl Hsv)
      as [ids [Hp [Hids Hb]]].
    exists ids. split; [exact Hp|]. split; [exact Hb|]. right. right. now right.
Qed.

Lemma analyzed_report_defect bm it :
  In it (analyzed_report bm) -> element_indices it <> "" -> In it (defect_issues bm).
Proof.
  unfold analyzed_report. destruct (defect_issues bm); cbn [nonempty]; [|auto].
  intros [<-|[]] H. now elim H.
Qed.

Lemma subscript_pos_of_nat n p :
  (p < n)%nat -> Py.subscript_pos n (Z.of_nat p) = Some p.
Proof.
  intros H. rewrite subscript_pos_in_range by lia. now rewrite Nat2Z.id.
Qed.

Lemma nothing_hidden_spec bm :
  nothing_hidden bm = true <->
  Forall (fun v => v_hide v = false) (bm_verts bm) /\
  Forall (fun e => e_hide e = false) (bm_edges bm) /\
  Forall (fun f => f_hide f = false) (bm_faces bm).
Proof.
  unfold nothing_hidden. rewrite !andb_true_iff, !forallb_forall, !Forall_forall.
  split.
  - intros [[Hv He] Hf]. repeat split; intros x Hx; apply negb_true_iff; auto.
  - intros [Hv [He Hf]]. repeat split; intros x Hx; apply negb_true_iff; auto.
Qed.

Lemma nothing_hidden_unselected bm :
  nothing_hidden bm = true -> hidden_unselected bm = true.
Proof.
  intros H. apply nothing_hidden_spec in H as [Hv [He Hf]].
  apply hidden_unselected_spec. repeat split.
  - eapply Forall_impl; [|exact Hv]. intros v E. cbv beta in *. now rewrite E.
  - eapply Forall_impl; [|exact He]. intros e E. cbv beta in *. now rewrite E.
  - eapply Forall_impl; [|exact Hf]. intros f E. cbv beta in *. now rewrite E.
Qed.

Lemma nothing_hidden_at bm ty p : nothing_hidden bm = true -> hidden_at ty p bm = false.
Proof.
  intros H. apply nothing_hidden_spec in H as [Hv [He Hf]].
  rewrite Forall_forall in Hv, He, Hf. unfold hidden_at.
  destruct (String.eqb ty "FACE").
  - destruct (nth_error (bm_faces bm) p) eqn:E; [|reflexivity].
    apply Hf. eapply nth_error_In; eauto.
  - destruct (String.eqb ty "EDGE").
    + destruct (nth_error (bm_edges bm) p) eqn:E; [|reflexivity].
      apply He. eapply nth_error_In; eauto.
    + destruct (String.eqb ty "VERT"); [|reflexivity].
      destruct (nth_error (bm_verts bm) p) eqn:E; [|reflexivity].
      apply Hv. eapply nth_error_In; eauto.
Qed.

(** X6.  Take a mesh with at least one face, with tables of fewer than
    2^53 entries and no hidden element.  Every record with an index
    list that a completed analysis of it has written can be focused
    straight away: its list parses to indices of the table of its
    element type (the first 200 flagged by one of the four checks), and
    invocation number k + 1 of the focus operator on the record's
    position finishes and leaves exactly the element ids[k mod n]
    selected in that table. *)
Theorem focus_after_analyze w obj p it (k : nat) :
  active_object w = Some obj ->
  is_mesh_type (obj_type obj) = true ->
  bm_faces (obj_data obj) <> [] ->
  host_sized (obj_data obj) ->
  nothing_hidden (obj_data obj) = true ->
  nth_error (topo_report_list (snd (analyze_execute w))) p = Some it ->
  element_indices it <> "" ->
  exists ids,
    parse_ids (element_indices it) = inr ids /\
    Forall (fun id => 0 <= id < table_len (element_type it) (obj_data obj)) ids /\
    (ids = map Z.of_nat (firstn 200 (ngon_indices (obj_data obj))) \/
     ids = map Z.of_nat (firstn 200 (bad_edge_indices (obj_data obj))) \/
     ids = map Z.of_nat (firstn 200 (sliver_indices (obj_data obj))) \/
     ids = map Z.of_nat (firstn 200 (pole_indices (obj_data obj)))) /\
    fst (focus_times (S k) (Z.of_nat p) (snd (analyze_execute w)))
      = repeat (inr FINISHED) (S k) /\
    exists objk,
      active_object (snd (focus_times (S k) (Z.of_nat p) (snd (analyze_execute w))))
        = Some objk /\
      selected_of (element_type it) (obj_data objk)
        = [nth (Z.to_nat (Z.of_nat k mod Py.len ids)) ids 0].
Proof.
  intros Hobj Hmesh Hfaces Hsize Hshown.
  rewrite (analyze_on_faces w obj Hobj Hmesh Hfaces). cbn [snd].
  set (w' := set_stats _ _).
  assert (Hrl : topo_report_list w' = analyzed_report (obj_data obj))
    by apply analyzed_world_report.
  assert (Hobj' : active_object w' = Some obj) by (destruct w; exact Hobj).
  rewrite Hrl. intros Hnth Hne.
  assert (Hin : In it (defect_issues (obj_data obj))).
  { apply analyzed_report_defect; [|exact Hne]. eapply nth_error_In; eauto. }
  destruct (defect_issue_targets _ _ Hsize Hin) as [Hc [Hty [ids [Hp [Hb Hwhich]]]]].
  exists ids. split; [exact Hp|]. split; [exact Hb|]. split; [exact Hwhich|].
  assert (Hpos : Py.subscript_pos (List.length (topo_report_list w')) (Z.of_nat p)
                 = Some p).
  { apply subscript_pos_of_nat. rewrite Hrl. apply nth_error_Some. congruence. }
  assert (Hitem : nth_error (topo_report_list w') p = Some it) by now rewrite Hrl.
  assert (Hvis : Forall (fun id => hidden_at (element_type it) (Z.to_nat id)
                                     (obj_data obj) = false) ids).
  { apply Forall_forall. intros id _. now apply nothing_hidden_at. }
  destruct (cycle_invariant (Z.of_nat p) p it ids obj w'
              Hpos Hitem Hobj' Hmesh Hp Hc Hty Hb Hvis
              (nothing_hidden_unselected _ Hshown) (S k))
    as [Hrs [_ [_ [objk [Hok [_ [_ [_ [_ Hsel]]]]]]]]].
  split; [exact Hrs|]. exists objk. split; [exact Hok|]. now apply Hsel.
Qed.

Lemma host_sized_ten_plates : host_sized ten_plates.
Proof. repeat split. Qed.

Lemma focus_after_analyze_witness :
  let w := world_of [] default_stats (Some (mesh_object "Plates" OBJECT ten_plates)) in
  let obj := mesh_object "Plates" OBJECT ten_plates in
  let p := 0%nat in
  let it := ngon_record_2_5_9 in
  let k := 4%nat in
  active_object w = Some obj /\
  is_mesh_type (obj_type obj) = true /\
  bm_faces (obj_data obj) <> [] /\
  host_sized (obj_data obj) /\
  nothing_hidden (obj_data obj) = true /\
  nth_error (topo_report_list (snd (analyze_execute w))) p = Some it /\
  element_indices it <> "" /\
  exists ids,
    parse_ids (element_indices it) = inr ids /\
    Forall (fun id => 0 <= id < table_len (element_type it) (obj_data obj)) ids /\
    (ids = map Z.of_nat (firstn 200 (ngon_indices (obj_data obj))) \/
     ids = map Z.of_nat (firstn 200 (bad_edge_indices (obj_data obj))) \/
     ids = map Z.of_nat (firstn 200 (sliver_indices (obj_data obj))) \/
     ids = map Z.of_nat (firstn 200 (pole_indices (obj_data obj)))) /\
    fst (focus_times (S k) (Z.of_nat p) (snd (analyze_execute w)))
      = repeat (inr FINISHED) (S k) /\
    exists objk,
      active_object (snd (focus_times (S k) (Z.of_nat p) (snd (analyze_execute w))))
        = Some objk /\
      selected_of (element_type it) (obj_data objk)
        = [nth (Z.to_nat (Z.of_nat k mod Py.len ids)) ids 0].
Proof.
  cbv zeta.
  assert (Hf : bm_faces (obj_data (mesh_object "Plates" OBJECT ten_plates)) <> [])
    by discriminate.
  assert (Hn : nth_error
                 (topo_report_list
                    (snd (analyze_execute
                            (world_of [] default_stats
                               (Some (mesh_object "Plates" OBJECT ten_plates))))))
                 0 = Some ngon_record_2_5_9) by (vm_compute; reflexivity).
  assert (He : element_indices ngon_record_2_5_9 <> "") by discriminate.
  split; [reflexivity|]. split; [reflexivity|]. split; [exact Hf|].
  split; [exact host_sized_ten_plates|]. split; [reflexivity|].
  split; [exact Hn|]. split; [exact He|].
  exact (focus_after_analyze
           (world_of [] default_stats (Some (mesh_object "Plates" OBJECT ten_plates)))
           (mesh_object "Plates" OBJECT ten_plates) 0%nat ngon_record_2_5_9 4%nat
           eq_refl eq_refl Hf host_sized_ten_plates eq_refl Hn He).
Defined.
(* ================================================================== *)
(** * What lights up with the target                                    *)
(* ================================================================== *)

(** Vertices and edges written on tables without a selected element:
    the selected ones are those written that are not hidden. *)
Lemma selected_verts_after vs (l : list BMVert) (i : nat) :
  Forall (fun v => v_select v = false) l ->
  In (Z.of_nat i) (selected_positions v_select (select_verts_in vs l))
  <-> (exists a, nth_error l i = Some a /\ v_hide a = false) /\ In i vs.
Proof.
  intros Hoff. rewrite Forall_forall in Hoff.
  rewrite selected_positions_In, nth_error_select_verts_in. split.
  - intros [a [Hn Hs]].
    destruct (nth_error l i) as [v|] eqn:E; [|discriminate].
    cbn in Hn. injection Hn as <-.
    assert (Hv : v_select v = false) by (apply Hoff; eapply nth_error_In; eauto).
    destruct (existsb (Nat.eqb i) vs) eqn:Ex; [|congruence].
    rewrite vert_select_set_select in Hs.
    destruct (v_hide v) eqn:Eh; [congruence|].
    split; [now exists v | now apply existsb_eqb_In].
  - intros [[a [Hn Hh]] Hin]. rewrite Hn. cbn [option_map].
    apply existsb_eqb_In in Hin. rewrite Hin.
    eexists. split; [reflexivity|]. now rewrite vert_select_set_select, Hh.
Qed.

Lemma selected_edges_after es (l : list BMEdge) (i : nat) :
  Forall (fun e => e_select e = false) l ->
  In (Z.of_nat i) (selected_positions e_select (select_edges_in es l))
  <-> (exists a, nth_error l i = Some a /\ e_hide a = false) /\ In i es.
Proof.
  intros Hoff. rewrite Forall_forall in Hoff.
  rewrite selected_positions_In, nth_error_select_edges_in. split.
  - intros [a [Hn Hs]].
    destruct (nth_error l i) as [v|] eqn:E; [|discriminate].
    cbn in Hn. injection Hn as <-.
    assert (Hv : e_select v = false) by (apply Hoff; eapply nth_error_In; eauto).
    destruct (existsb (Nat.eqb i) es) eqn:Ex; [|congruence].
    rewrite edge_flag_set_select in Hs.
    destruct (e_hide v) eqn:Eh; [congruence|].
    split; [now exists v | now apply existsb_eqb_In].
  - intros [[a [Hn Hh]] Hin]. rewrite Hn. cbn [option_map].
    apply existsb_eqb_In in Hin. rewrite Hin.
    eexists. split; [reflexivity|]. now rewrite edge_flag_set_select, Hh.
Qed.

(** The three loops leave what is written with a target as it was. *)
Lemma cleared_edge_verts_shown bm j :
  edge_verts_shown (with_select_history [] (deselect_all bm)) j
  = edge_verts_shown bm j.
Proof.
  apply edge_verts_shown_edges; cbn; rewrite map_map; apply map_ext; intros e.
  - apply edge_flag_set_hide.
  - apply edge_flag_set_verts.
Qed.

Lemma cleared_nth_face bm p :
  nth_error (bm_faces (with_select_history [] (deselect_all bm))) p
  = option_map (face_flag_set false) (nth_error (bm_faces bm) p).
Proof. cbn. apply nth_error_map. Qed.

Lemma cleared_nth_edge bm p :
  nth_error (bm_edges (with_select_history [] (deselect_all bm))) p
  = option_map (edge_flag_set false) (nth_error (bm_edges bm) p).
Proof. cbn. apply nth_error_map. Qed.

Lemma cleared_nth_vert bm p :
  nth_error (bm_verts (with_select_history [] (deselect_all bm))) p
  = option_map (vert_select_set false) (nth_error (bm_verts bm) p).
Proof. cbn. apply nth_error_map. Qed.

Lemma face_flag_set_verts b f : f_verts (face_flag_set b f) = f_verts f.
Proof. unfold face_flag_set. destruct (f_hide f); reflexivity. Qed.

Lemma face_flag_set_edges b f : f_edges (face_flag_set b f) = f_edges f.
Proof. unfold face_flag_set. destruct (f_hide f); reflexivity. Qed.

Lemma target_edges_cleared ty p bm :
  target_edges ty p (with_select_history [] (deselect_all bm)) = target_edges ty p bm.
Proof.
  unfold target_edges. rewrite cleared_nth_face.
  destruct (String.eqb ty "FACE"); [|reflexivity].
  destruct (nth_error (bm_faces bm) p) as [f|]; [|reflexivity].
  cbn [option_map]. now rewrite face_flag_set_hide, face_flag_set_edges.
Qed.

Lemma target_verts_cleared ty p bm :
  target_verts ty p (with_select_history [] (deselect_all bm)) = target_verts ty p bm.
Proof.
  unfold target_verts. rewrite cleared_nth_face, cleared_nth_edge.
  destruct (String.eqb ty "FACE").
  - destruct (nth_error (bm_faces bm) p) as [f|]; [|reflexivity].
    cbn [option_map].
    rewrite face_flag_set_hide, face_flag_set_edges, face_flag_set_verts.
    f_equal. destruct (f_hide f); [reflexivity|]. f_equal.
    apply flat_map_ext. intros j. apply cleared_edge_verts_shown.
  - destruct (String.eqb ty "EDGE"); [|reflexivity].
    destruct (nth_error (bm_edges bm) p) as [e|]; [|reflexivity].
    cbn [option_map]. now rewrite cleared_edge_verts_shown, edge_flag_set_verts.
Qed.

Lemma shown_vert bm v :
  (exists a, nth_error (bm_verts (with_select_history [] (deselect_all bm))) v = Some a
             /\ v_hide a = false)
  <-> (v < List.length (bm_verts bm))%nat /\ hidden_at "VERT" v bm = false.
Proof.
  rewrite cleared_nth_vert. unfold hidden_at. cbn [String.eqb Ascii.eqb Bool.eqb].
  destruct (nth_error (bm_verts bm) v) as [a|] eqn:E; cbn [option_map].
  - assert (Hlt : (v < List.length (bm_verts bm))%nat)
      by (apply nth_error_Some; congruence).
    split.
    + intros [a' [Ha Hh]]. injection Ha as <-.
      rewrite vert_select_set_hide in Hh. now split.
    + intros [_ Hh]. eexists. split; [reflexivity|].
      now rewrite vert_select_set_hide.
  - apply nth_error_None in E. split.
    + intros [a' [Ha _]]. discriminate.
    + intros [Hlt _]. lia.
Qed.

Lemma shown_edge bm e :
  (exists a, nth_error (bm_edges (with_select_history [] (deselect_all bm))) e = Some a
             /\ e_hide a = false)
  <-> (e < List.length (bm_edges bm))%nat /\ hidden_at "EDGE" e bm = false.
Proof.
  rewrite cleared_nth_edge. unfold hidden_at. cbn [String.eqb Ascii.eqb Bool.eqb].
  destruct (nth_error (bm_edges bm) e) as [a|] eqn:E; cbn [option_map].
  - assert (Hlt : (e < List.length (bm_edges bm))%nat)
      by (apply nth_error_Some; congruence).
    split.
    + intros [a' [Ha Hh]]. injection Ha as <-.
      rewrite edge_flag_set_hide in Hh. now split.
    + intros [_ Hh]. eexists. split; [reflexivity|].
      now rewrite edge_flag_set_hide.
  - apply nth_error_None in E. split.
    + intros [a' [Ha _]]. discriminate.
    + intros [Hlt _]. lia.
Qed.

(** The faces after the writes: the target face when it is not hidden,
    and no other. *)
Lemma selected_faces_after ty target bm :
  0 <= target < table_len ty bm ->
  hidden_unselected bm = true ->
  selected_of "FACE"
    (select_elem ty (Z.to_nat target) (with_select_history [] (deselect_all bm)))
  = if String.eqb ty "FACE" && negb (hidden_at "FACE" (Z.to_nat target) bm)
    then [target] else [].
Proof.
  intros Hin Hhu.
  destruct (cleared_tables bm Hhu) as [_ [_ Hf]].
  unfold selected_of. cbn [String.eqb Ascii.eqb Bool.eqb].
  rewrite select_elem_faces.
  destruct (String.eqb ty "FACE") eqn:Ety; cbn [andb];
    [|now apply selected_positions_off].
  apply String.eqb_eq in Ety. subst ty.
  unfold table_len, Py.len in Hin. cbn [String.eqb Ascii.eqb Bool.eqb] in Hin.
  unfold hidden_at. cbn [String.eqb Ascii.eqb Bool.eqb].
  pose proof (cleared_nth_face bm (Z.to_nat target)) as Hn.
  destruct (nth_error (bm_faces bm) (Z.to_nat target)) as [f|] eqn:Ef;
    [|apply nth_error_None in Ef; lia].
  cbn [option_map] in Hn.
  destruct (f_hide f) eqn:Eh; cbn [negb].
  - rewrite (update_nth_same _ _ _ _ Hn); [now apply selected_positions_off|].
    unfold face_flag_set at 1. now rewrite face_flag_set_hide, Eh.
  - rewrite (selected_positions_one f_select _ _ _ _ Hf Hn).
    + f_equal. lia.
    + now rewrite face_flag_set_select, face_flag_set_hide, Eh.
Qed.

(** X7.  After a selecting invocation on a mesh in which no hidden
    element is selected, the object is in edit mode and the selection
    history is empty.  The selected vertices are exactly the vertices
    written with the target that exist and are not hidden: those of the
    loop over [target.verts] and, when the target is a face or an edge
    that is not hidden, those that the host selects with it (the
    vertices of the edge, or of the face and of the edges of its
    boundary that are not hidden); for a vertex target, the vertex.
    The selected edges are exactly the edges of the boundary of a
    target face that is not hidden, or the target edge, that exist and
    are not hidden.  The target face is the one selected face when the
    target is a face that is not hidden, and no face is selected
    otherwise. *)
Theorem focus_highlights index p item ids obj w :
  Py.subscript_pos (List.length (topo_report_list w)) index = Some p ->
  nth_error (topo_report_list w) p = Some item ->
  active_object w = Some obj ->
  is_mesh_type (obj_type obj) = true ->
  parse_ids (element_indices item) = inr ids ->
  0 <= current_pointer item ->
  is_element_type (element_type item) = true ->
  0 <= nth (Z.to_nat (wrap_cursor (Py.len ids) (current_pointer item))) ids 0
    < table_len (element_type item) (obj_data obj) ->
  hidden_unselected (obj_data obj) = true ->
  exists objk,
    active_object (snd (focus_execute index w)) = Some objk /\
    obj_mode objk = EDIT /\
    bm_select_history (obj_data objk) = [] /\
    (forall v : nat,
        In (Z.of_nat v) (selected_of "VERT" (obj_data objk)) <->
        ((v < List.length (bm_verts (obj_data obj)))%nat /\
         hidden_at "VERT" v (obj_data obj) = false) /\
        In v (target_verts (element_type item)
                (Z.to_nat (nth (Z.to_nat (wrap_cursor (Py.len ids) (current_pointer item)))
                             ids 0))
                (obj_data obj))) /\
    (forall e : nat,
        In (Z.of_nat e) (selected_of "EDGE" (obj_data objk)) <->
        ((e < List.length (bm_edges (obj_data obj)))%nat /\
         hidden_at "EDGE" e (obj_data obj) = false) /\
        In e (target_edges (element_type item)
                (Z.to_nat (nth (Z.to_nat (wrap_cursor (Py.len ids) (current_pointer item)))
                             ids 0))
                (obj_data obj))) /\
    selected_of "FACE" (obj_data objk)
    = if String.eqb (element_type item) "FACE"
         && negb (hidden_at "FACE"
                    (Z.to_nat (nth (Z.to_nat (wrap_cursor (Py.len ids)
                                                (current_pointer item))) ids 0))
                    (obj_data obj))
      then [nth (Z.to_nat (wrap_cursor (Py.len ids) (current_pointer item))) ids 0]
      else [].
Proof.
  intros Hpos Hitem Hobj Hmesh Hparse Hc Hty Hin Hhu.
  rewrite (focus_selects index p item ids obj w) by (auto; lia).
  cbn [snd]. unfold focused_world. cbv zeta. cbn [active_object].
  set (target := nth _ ids 0) in *.
  eexists. split; [reflexivity|].
  cbn [obj_mode obj_data with_data].
  assert (Hmode : obj_mode (in_mode EDIT obj) = EDIT).
  { unfold in_mode. destruct obj as [nm ty [] d]; reflexivity. }
  split; [exact Hmode|].
  destruct (cleared_tables (obj_data obj) Hhu) as [Hv [He Hf]].
  unfold select_checked. rewrite table_len_cleared.
  destruct (Z.ltb_spec target (table_len (element_type item) (obj_data obj))); [|lia].
  split; [now rewrite select_elem_history|]. split; [|split].
  - intros v. unfold selected_of. cbn [String.eqb Ascii.eqb Bool.eqb].
    rewrite select_elem_verts, (selected_verts_after _ _ _ Hv).
    now rewrite target_verts_cleared, shown_vert.
  - intros e. unfold selected_of. cbn [String.eqb Ascii.eqb Bool.eqb].
    rewrite select_elem_edges, (selected_edges_after _ _ _ He).
    now rewrite target_edges_cleared, shown_edge.
  - now apply selected_faces_after.
Qed.

Lemma focus_highlights_witness :
  let index := 0 in
  let p := 0%nat in
  let item := ngon_record_2_5_9 in
  let ids := [2; 5; 9] in
  let obj := mesh_object "Plates" OBJECT ten_plates in
  let w := world_ten_plates in
  Py.subscript_pos (List.length (topo_report_list w)) index = Some p /\
  nth_error (topo_report_list w) p = Some item /\
  active_object w = Some obj /\
  is_mesh_type (obj_type obj) = true /\
  parse_ids (element_indices item) = inr ids /\
  0 <= current_pointer item /\
  is_element_type (element_type item) = true /\
  0 <= nth (Z.to_nat (wrap_cursor (Py.len ids) (current_pointer item))) ids 0
    < table_len (element_type item) (obj_data obj) /\
  hidden_unselected (obj_data obj) = true /\
  exists objk,
    active_object (snd (focus_execute index w)) = Some objk /\
    obj_mode objk = EDIT /\
    bm_select_history (obj_data objk) = [] /\
    (forall v : nat,
        In (Z.of_nat v) (selected_of "VERT" (obj_data objk)) <->
        ((v < List.length (bm_verts (obj_data obj)))%nat /\
         hidden_at "VERT" v (obj_data obj) = false) /\
        In v (target_verts (element_type item)
                (Z.to_nat (nth (Z.to_nat (wrap_cursor (Py.len ids) (current_pointer item)))
                             ids 0))
                (obj_data obj))) /\
    (forall e : nat,
        In (Z.of_nat e) (selected_of "EDGE" (obj_data objk)) <->
        ((e < List.length (bm_edges (obj_data obj)))%nat /\
         hidden_at "EDGE" e (obj_data obj) = false) /\
        In e (target_edges (element_type item)
                (Z.to_nat (nth (Z.to_nat (wrap_cursor (Py.len ids) (current_pointer item)))
                             ids 0))
                (obj_data obj))) /\
    selected_of "FACE" (obj_data objk)
    = if String.eqb (element_type item) "FACE"
         && negb (hidden_at "FACE"
                    (Z.to_nat (nth (Z.to_nat (wrap_cursor (Py.len ids)
                                                (current_pointer item))) ids 0))
                    (obj_data obj))
      then [nth (Z.to_nat (wrap_cursor (Py.len ids) (current_pointer item))) ids 0]
      else [].
Proof.
  cbv zeta.
  assert (H0 : 0 <= current_pointer ngon_record_2_5_9) by (vm_compute; congruence).
  assert (Hb : 0 <= nth (Z.to_nat (wrap_cursor (Py.len [2; 5; 9])
                                     (current_pointer ngon_record_2_5_9))) [2; 5; 9] 0
               < table_len (element_type ngon_record_2_5_9)
                   (obj_data (mesh_object "Plates" OBJECT ten_plates))).
  { vm_compute. split; congruence. }
  split; [reflexivity|]. split; [reflexivity|]. split; [reflexivity|].
  split; [reflexivity|]. split; [reflexivity|]. split; [exact H0|].
  split; [reflexivity|]. split; [exact Hb|]. split; [reflexivity|].
  exact (focus_highlights 0 0%nat ngon_record_2_5_9 [2; 5; 9]
           (mesh_object "Plates" OBJECT ten_plates) world_ten_plates
           eq_refl eq_refl eq_refl eq_refl eq_refl H0 eq_refl Hb eq_refl).
Defined.

(** On the ten plates the first invocation selects the pentagon at
    position 2 with the five edges and the five vertices of its
    boundary, which have the positions 8 to 12 in their tables. *)
Example ten_plates_first_focus :
  option_map (fun bm => (selected_of "FACE" bm, selected_of "EDGE" bm,
                         selected_of "VERT" bm))
    (active_data (snd (focus_execute 0 world_ten_plates)))
  = Some ([2], [8; 9; 10; 11; 12], [8; 9; 10; 11; 12]).
Proof. vm_compute. reflexivity. Qed.
(* ================================================================== *)
(** * The focus operator on any target                                  *)
(* ================================================================== *)

Lemma subscript_pos_lt n i p : Py.subscript_pos n i = Some p -> (p < n)%nat.
Proof.
  unfold Py.subscript_pos.
  destruct ((0 <=? i) && (i <? Z.of_nat n)) eqn:E1.
  - intros H. injection H as <-. apply andb_true_iff in E1 as [A B].
    apply Z.leb_le in A. apply Z.ltb_lt in B. lia.
  - destruct ((i <? 0) && (- Z.of_nat n <=? i)) eqn:E2; [|discriminate].
    intros H. injection H as <-. apply andb_true_iff in E2 as [A B].
    apply Z.ltb_lt in A. apply Z.leb_le in B. lia.
Qed.

Lemma table_len_to_nat ty bm :
  is_element_type ty = true ->
  (ty = "FACE" /\ Z.to_nat (table_len ty bm) = List.length (bm_faces bm)) \/
  (ty = "EDGE" /\ Z.to_nat (table_len ty bm) = List.length (bm_edges bm)) \/
  (ty = "VERT" /\ Z.to_nat (table_len ty bm) = List.length (bm_verts bm)).
Proof.
  intros H. destruct (table_len_type ty bm H) as [[-> E] | [[-> E] | [-> E]]];
    rewrite E; unfold Py.len; rewrite Nat2Z.id; auto.
Qed.

Lemma not_element_type ty :
  is_element_type ty = false ->
  String.eqb ty "FACE" = false /\ String.eqb ty "EDGE" = false /\
  String.eqb ty "VERT" = false.
Proof.
  unfold is_element_type. intros H.
  apply orb_false_iff in H as [H H3]. apply orb_false_iff in H as [H1 H2]. auto.
Qed.

(** The [try] block, whatever the target. *)
Lemma select_target_python ty target obj w :
  active_object w = Some obj ->
  is_mesh_type (obj_type obj) = true ->
  select_target ty target w
  = match select_python ty target (obj_data obj) with
    | Some bm' => (inr tt, set_active_object (Some (with_data bm' obj)) w)
    | None => (inl Py.IndexError, w)
    end.
Proof.
  intros Hobj Hmesh.
  unfold select_target. rewrite (bind_from_edit_mesh obj _ _ Hobj Hmesh).
  unfold select_python.
  destruct (is_element_type ty) eqn:Hty.
  - destruct (table_len_to_nat ty (obj_data obj) Hty) as [[-> E] | [[-> E] | [-> E]]];
      rewrite E; unfold table_len, select_elem, modify_edit_mesh;
      cbn [String.eqb Ascii.eqb Bool.eqb].
    + destruct (target <? Py.len (bm_faces (obj_data obj)));
        [|unfold ret; now rewrite set_active_object_same].
      destruct (Py.subscript_pos _ target) as [q|] eqn:Eq; [|reflexivity].
      pose proof (subscript_pos_lt _ _ _ Eq) as Hq. apply nth_error_Some in Hq.
      destruct (nth_error (bm_faces (obj_data obj)) q); [|congruence].
      rewrite bind_modify.
      destruct w as [rl st ao rp bms vs]. cbn [active_object] in Hobj. subst ao.
      destruct obj; reflexivity.
    + destruct (target <? Py.len (bm_edges (obj_data obj)));
        [|unfold ret; now rewrite set_active_object_same].
      destruct (Py.subscript_pos _ target) as [q|] eqn:Eq; [|reflexivity].
      pose proof (subscript_pos_lt _ _ _ Eq) as Hq. apply nth_error_Some in Hq.
      destruct (nth_error (bm_edges (obj_data obj)) q); [|congruence].
      rewrite bind_modify.
      destruct w as [rl st ao rp bms vs]. cbn [active_object] in Hobj. subst ao.
      destruct obj; reflexivity.
    + destruct (target <? Py.len (bm_verts (obj_data obj)));
        [|unfold ret; now rewrite set_active_object_same].
      destruct (Py.subscript_pos _ target) as [q|] eqn:Eq; [|reflexivity].
      destruct w as [rl st ao rp bms vs]. cbn [active_object] in Hobj. subst ao.
      destruct obj; reflexivity.
  - destruct (not_element_type ty Hty) as [H1 [H2 H3]]. rewrite H1, H2, H3.
    unfold ret. now rewrite set_active_object_same.
Qed.

Opaque Py.str deselect_all select_python.

(** The operator on an item whose list parses, from the wrap of the
    cursor to its end. *)
Lemma focus_outcome index p item ids obj w :
  Py.subscript_pos (List.length (topo_report_list w)) index = Some p ->
  nth_error (topo_report_list w) p = Some item ->
  active_object w = Some obj ->
  is_mesh_type (obj_type obj) = true ->
  parse_ids (element_indices item) = inr ids ->
  0 <= current_pointer item ->
  focus_execute index w
  = match select_python (element_type item)
            (nth (Z.to_nat (wrap_cursor (Py.len ids) (current_pointer item))) ids 0)
            (with_select_history [] (deselect_all (obj_data obj))) with
    | Some bm' =>
        (inr FINISHED,
         finished_world p item ids
           (wrap_cursor (Py.len ids) (current_pointer item))
           (nth (Z.to_nat (wrap_cursor (Py.len ids) (current_pointer item))) ids 0)
           bm' obj w)
    | None =>
        (inr CANCELLED,
         cancelled_world p (wrap_cursor (Py.len ids) (current_pointer item)) obj w)
    end.
Proof.
  intros Hp Hitem Hobj Hmesh Hparse Hc.
  destruct (parse_ids_not_empty _ _ Hparse) as [Hne Hids].
  assert (Hn : 0 < Py.len ids).
  { unfold Py.len. destruct ids; [congruence | cbn; lia]. }
  pose proof (wrap_cursor_range _ _ Hn Hc) as Hw.
  unfold finished_world, cancelled_world.
  set (c := wrap_cursor (Py.len ids) (current_pointer item)) in *.
  set (target := nth (Z.to_nat c) ids 0) in *.
  unfold focus_execute.
  rewrite bind_get. cbv beta. rewrite Hp, Hobj.
  rewrite (bind_when_mode EDIT obj _ _ Hobj (mesh_supports _ EDIT Hmesh)).
  destruct w as [rl st ao rp bms vs].
  cbn [active_object topo_report_list] in *. subst ao. norm_focus.
  rewrite (bind_item_at p item) by exact Hitem.
  rewrite Hne, Hparse.
  unfold set_current_pointer. rewrite bind_when. norm_focus.
  assert (Hrl : (if Py.len ids <=? current_pointer item
                 then {| topo_report_list := update_nth p (with_current_pointer 0) rl;
                         topo_stats := st;
                         active_object := Some (in_mode EDIT obj);
                         reports := rp; bmeshes := bms;
                         view_selected_calls := vs |}
                 else {| topo_report_list := rl; topo_stats := st;
                         active_object := Some (in_mode EDIT obj);
                         reports := rp; bmeshes := bms;
                         view_selected_calls := vs |})
                = {| topo_report_list := update_nth p (with_current_pointer c) rl;
                     topo_stats := st;
                     active_object := Some (in_mode EDIT obj);
                     reports := rp; bmeshes := bms;
                     view_selected_calls := vs |}).
  { unfold c, wrap_cursor. destruct (Py.len ids <=? current_pointer item).
    - reflexivity.
    - f_equal. symmetry. eapply update_nth_same; [exact Hitem|].
      apply with_current_pointer_same. }
  rewrite Hrl. clear Hrl.
  rewrite (bind_item_at p (with_current_pointer c item))
    by (cbn [topo_report_list]; now apply nth_error_update_nth).
  cbn [current_pointer with_current_pointer element_type].
  rewrite (subscript_in_range ids c 0 Hw), bind_lift_inr. fold target.
  assert (Hmesh' : is_mesh_type (obj_type (in_mode EDIT obj)) = true)
    by now rewrite in_mode_type.
  rewrite (bind_from_edit_mesh (in_mode EDIT obj)) by (auto; reflexivity).
  unfold modify_edit_mesh.
  rewrite bind_modify. norm_focus.
  rewrite bind_modify. norm_focus.
  rewrite bind_try.
  erewrite select_target_python; [ | reflexivity | ].
  2:{ destruct obj as [nm ty md d]. unfold in_mode. cbn [obj_mode].
      destruct (mode_eqb md EDIT); exact Hmesh. }
  cbn [obj_data with_data].
  assert (Hd : obj_data (in_mode EDIT obj) = obj_data obj) by apply in_mode_data.
  cbv beta iota delta [obj_data] in Hd |- *.
  destruct obj as [nm ty md d]. cbn [in_mode] in *.
  unfold in_mode in *. cbn [obj_mode with_mode] in *.
  destruct (mode_eqb md EDIT);
    cbv beta iota delta [obj_data with_mode obj_name obj_type with_data];
    (destruct (select_python (element_type item) target
                 (with_select_history [] (deselect_all d))) as [bm'|];
     cbn [fst snd];
     [ unfold update_edit_mesh, view_selected, report;
       rewrite bind_ret, bind_modify; norm_focus;
       rewrite bind_modify; norm_focus;
       rewrite update_nth_twice;
       rewrite (bind_item_at p (with_current_pointer (c + 1) item))
         by (cbn [topo_report_list];
             rewrite (nth_error_update_nth _ _ _ _ Hitem); reflexivity);
       rewrite bind_modify; norm_focus; reflexivity
     | unfold report; rewrite bind_modify; norm_focus; reflexivity ]).
Qed.

Transparent Py.str deselect_all select_python.

(** ** Targets below zero *)

Lemma subscript_pos_below n i :
  i < - Z.of_nat n -> Py.subscript_pos n i = None.
Proof.
  intros H. unfold Py.subscript_pos.
  destruct (Z.leb_spec 0 i); [lia|]. cbn [andb].
  destruct (Z.ltb_spec i 0); [|lia].
  destruct (Z.leb_spec (- Z.of_nat n) i); [lia | reflexivity].
Qed.

Lemma subscript_pos_from_end n i :
  - Z.of_nat n <= i < 0 ->
  Py.subscript_pos n i = Some (Z.to_nat (Z.of_nat n + i)).
Proof.
  intros H. unfold Py.subscript_pos.
  destruct (Z.leb_spec 0 i); [lia|]. cbn [andb].
  destruct (Z.ltb_spec i 0); [|lia].
  destruct (Z.leb_spec (- Z.of_nat n) i); [reflexivity | lia].
Qed.

Lemma table_len_nonneg ty bm : 0 <= table_len ty bm.
Proof.
  unfold table_len, Py.len.
  destruct (String.eqb ty "FACE"); [lia|].
  destruct (String.eqb ty "EDGE"); [lia|].
  destruct (String.eqb ty "VERT"); lia.
Qed.

Lemma table_len_deselected ty bm :
  table_len ty (with_select_history [] (deselect_all bm)) = table_len ty bm.
Proof. unfold table_len, Py.len. cbn. now rewrite !length_map. Qed.

(** X8.  A target below the negated length of its table reaches
    the [IndexError] handler.  The operator is cancelled with the
    error "Geometry changed. Please Re-Analyze."; the cursor is not
    advanced (it holds the position that was read) and the view is not
    moved; the selection had been cleared before, and stays so: in
    every table the selected elements are the hidden elements that were
    selected before the invocation, which the host does not let a
    script deselect, so that nothing at all is selected when the mesh
    had no such element. *)
Theorem focus_below_table_cancels index p item ids obj w :
  Py.subscript_pos (List.length (topo_report_list w)) index = Some p ->
  nth_error (topo_report_list w) p = Some item ->
  active_object w = Some obj ->
  is_mesh_type (obj_type obj) = true ->
  parse_ids (element_indices item) = inr ids ->
  0 <= current_pointer item ->
  is_element_type (element_type item) = true ->
  nth (Z.to_nat (wrap_cursor (Py.len ids) (current_pointer item))) ids 0
    < - table_len (element_type item) (obj_data obj) ->
  fst (focus_execute index w) = inr CANCELLED /\
  reports (snd (focus_execute index w))
    = (reports w ++ [(ERROR, "Geometry changed. Please Re-Analyze.")])%list /\
  pointer_at p (snd (focus_execute index w))
    = Some (wrap_cursor (Py.len ids) (current_pointer item)) /\
  view_selected_calls (snd (focus_execute index w)) = view_selected_calls w /\
  exists objk,
    active_object (snd (focus_execute index w)) = Some objk /\
    (forall ty, selected_of ty (obj_data objk) = stuck_selected ty (obj_data obj)) /\
    (hidden_unselected (obj_data obj) = true ->
     forall ty, selected_of ty (obj_data objk) = []).
Proof.
  intros Hpos Hitem Hobj Hmesh Hparse Hc Hty Hlow.
  rewrite (focus_outcome index p item ids obj w Hpos Hitem Hobj Hmesh Hparse Hc).
  set (target := nth _ ids 0) in *.
  pose proof (table_len_nonneg (element_type item) (obj_data obj)) as H0.
  assert (Hsel : select_python (element_type item) target
                   (with_select_history [] (deselect_all (obj_data obj))) = None).
  { unfold select_python. rewrite Hty, table_len_deselected.
    destruct (Z.ltb_spec target (table_len (element_type item) (obj_data obj))); [|lia].
    rewrite subscript_pos_below; [reflexivity|]. lia. }
  rewrite Hsel. cbn [fst snd]. unfold cancelled_world.
  cbn [reports view_selected_calls active_object].
  repeat split.
  - unfold pointer_at. cbn [topo_report_list].
    now rewrite (nth_error_update_nth _ _ _ _ Hitem).
  - eexists. split; [reflexivity|]. cbn [obj_data with_data]. split.
    + intros ty. apply deselect_all_selected.
    + intros Hhu ty. rewrite deselect_all_selected.
      now apply stuck_selected_none.
Qed.

Lemma focus_below_table_cancels_witness :
  let index := 0 in
  let p := 0%nat in
  let item := minus_seven_record in
  let ids := [-7] in
  let obj := mesh_object "Plates" EDIT (islands [4; 5; 4]%nat) in
  let w := world_negative_records in
  Py.subscript_pos (List.length (topo_report_list w)) index = Some p /\
  nth_error (topo_report_list w) p = Some item /\
  active_object w = Some obj /\
  is_mesh_type (obj_type obj) = true /\
  parse_ids (element_indices item) = inr ids /\
  0 <= current_pointer item /\
  is_element_type (element_type item) = true /\
  nth (Z.to_nat (wrap_cursor (Py.len ids) (current_pointer item))) ids 0
    < - table_len (element_type item) (obj_data obj) /\
  fst (focus_execute index w) = inr CANCELLED /\
  reports (snd (focus_execute index w))
    = (reports w ++ [(ERROR, "Geometry changed. Please Re-Analyze.")])%list /\
  pointer_at p (snd (focus_execute index w))
    = Some (wrap_cursor (Py.len ids) (current_pointer item)) /\
  view_selected_calls (snd (focus_execute index w)) = view_selected_calls w /\
  hidden_unselected (obj_data obj) = true /\
  exists objk,
    active_object (snd (focus_execute index w)) = Some objk /\
    (forall ty, selected_of ty (obj_data objk) = stuck_selected ty (obj_data obj)) /\
    forall ty, selected_of ty (obj_data objk) = [].
Proof.
  cbv zeta.
  assert (H0 : 0 <= current_pointer minus_seven_record) by (vm_compute; congruence).
  assert (Hl : nth (Z.to_nat (wrap_cursor (Py.len [-7])
                                (current_pointer minus_seven_record))) [-7] 0
               < - table_len (element_type minus_seven_record)
                     (obj_data (mesh_object "Plates" EDIT (islands [4; 5; 4]%nat))))
    by (vm_compute; reflexivity).
  split; [reflexivity|]. split; [reflexivity|]. split; [reflexivity|].
  split; [reflexivity|]. split; [reflexivity|]. split; [exact H0|].
  split; [reflexivity|]. split; [exact Hl|].
  destruct (focus_below_table_cancels 0 0%nat minus_seven_record [-7]
              (mesh_object "Plates" EDIT (islands [4; 5; 4]%nat)) world_negative_records
              eq_refl eq_refl eq_refl eq_refl eq_refl H0 eq_refl Hl)
    as [H1 [H2 [H3 [H4 [objk [Ho [Hs Hn]]]]]]].
  split; [exact H1|]. split; [exact H2|]. split; [exact H3|]. split; [exact H4|].
  split; [reflexivity|].
  exists objk. split; [exact Ho|]. split; [exact Hs|]. exact (Hn eq_refl).
Defined.

(** X9.  A negative target that is not below the negated length counts from
    the end of its table, as any Python subscript does: the operator
    finishes and advances the cursor, and when the element at position
    length + target is not hidden, on a mesh in which no hidden element
    is selected, it leaves exactly that element selected in the
    table. *)
Theorem focus_negative_target_from_end index p item ids obj w :
  Py.subscript_pos (List.length (topo_report_list w)) index = Some p ->
  nth_error (topo_report_list w) p = Some item ->
  active_object w = Some obj ->
  is_mesh_type (obj_type obj) = true ->
  parse_ids (element_indices item) = inr ids ->
  0 <= current_pointer item ->
  is_element_type (element_type item) = true ->
  - table_len (element_type item) (obj_data obj)
    <= nth (Z.to_nat (wrap_cursor (Py.len ids) (current_pointer item))) ids 0 < 0 ->
  hidden_unselected (obj_data obj) = true ->
  hidden_at (element_type item)
    (Z.to_nat (table_len (element_type item) (obj_data obj)
               + nth (Z.to_nat (wrap_cursor (Py.len ids) (current_pointer item))) ids 0))
    (obj_data obj) = false ->
  fst (focus_execute index w) = inr FINISHED /\
  pointer_at p (snd (focus_execute index w))
    = Some (wrap_cursor (Py.len ids) (current_pointer item) + 1) /\
  exists objk,
    active_object (snd (focus_execute index w)) = Some objk /\
    selected_of (element_type item) (obj_data objk)
      = [table_len (element_type item) (obj_data obj)
         + nth (Z.to_nat (wrap_cursor (Py.len ids) (current_pointer item))) ids 0].
Proof.
  intros Hpos Hitem Hobj Hmesh Hparse Hc Hty Hneg Hhu Hshown.
  rewrite (focus_outcome index p item ids obj w Hpos Hitem Hobj Hmesh Hparse Hc).
  set (target := nth _ ids 0) in *.
  set (n := table_len (element_type item) (obj_data obj)) in *.
  set (b0 := with_select_history [] (deselect_all (obj_data obj))).
  assert (Hn : Z.of_nat (Z.to_nat n) = n).
  { pose proof (table_len_nonneg (element_type item) (obj_data obj)). unfold n. lia. }
  assert (Hsel : select_python (element_type item) target b0
                 = Some (select_checked (element_type item) (n + target) b0)).
  { unfold select_python, select_checked, b0.
    rewrite Hty, table_len_deselected. fold n.
    destruct (Z.ltb_spec target n); [|lia].
    destruct (Z.ltb_spec (n + target) n); [|lia].
    rewrite subscript_pos_from_end by lia. now rewrite Hn. }
  rewrite Hsel. cbn [fst snd]. unfold finished_world.
  cbn [active_object]. split; [reflexivity|]. split.
  - unfold pointer_at. cbn [topo_report_list].
    now rewrite (nth_error_update_nth _ _ _ _ Hitem).
  - eexists. split; [reflexivity|]. cbn [obj_data with_data].
    apply select_checked_selected; [exact Hty | fold n; lia | exact Hhu | exact Hshown].
Qed.

Lemma focus_negative_target_from_end_witness :
  let index := 1 in
  let p := 1%nat in
  let item := minus_one_record in
  let ids := [-1] in
  let obj := mesh_object "Plates" EDIT (islands [4; 5; 4]%nat) in
  let w := world_negative_records in
  Py.subscript_pos (List.length (topo_report_list w)) index = Some p /\
  nth_error (topo_report_list w) p = Some item /\
  active_object w = Some obj /\
  is_mesh_type (obj_type obj) = true /\
  parse_ids (element_indices item) = inr ids /\
  0 <= current_pointer item /\
  is_element_type (element_type item) = true /\
  - table_len (element_type item) (obj_data obj)
    <= nth (Z.to_nat (wrap_cursor (Py.len ids) (current_pointer item))) ids 0 < 0 /\
  hidden_unselected (obj_data obj) = true /\
  hidden_at (element_type item)
    (Z.to_nat (table_len (element_type item) (obj_data obj)
               + nth (Z.to_nat (wrap_cursor (Py.len ids) (current_pointer item))) ids 0))
    (obj_data obj) = false /\
  fst (focus_execute index w) = inr FINISHED /\
  pointer_at p (snd (focus_execute index w))
    = Some (wrap_cursor (Py.len ids) (current_pointer item) + 1) /\
  exists objk,
    active_object (snd (focus_execute index w)) = Some objk /\
    selected_of (element_type item) (obj_data objk)
      = [table_len (element_type item) (obj_data obj)
         + nth (Z.to_nat (wrap_cursor (Py.len ids) (current_pointer item))) ids 0].
Proof.
  cbv zeta.
  assert (H0 : 0 <= current_pointer minus_one_record) by (vm_compute; congruence).
  assert (Hl : - table_len (element_type minus_one_record)
                   (obj_data (mesh_object "Plates" EDIT (islands [4; 5; 4]%nat)))
               <= nth (Z.to_nat (wrap_cursor (Py.len [-1])
                                   (current_pointer minus_one_record))) [-1] 0 < 0).
  { vm_compute. split; [congruence | reflexivity]. }
  split; [reflexivity|]. split; [reflexivity|]. split; [reflexivity|].
  split; [reflexivity|]. split; [reflexivity|]. split; [exact H0|].
  split; [reflexivity|]. split; [exact Hl|].
  split; [reflexivity|]. split; [reflexivity|].
  exact (focus_negative_target_from_end 1 1%nat minus_one_record [-1]
           (mesh_object "Plates" EDIT (islands [4; 5; 4]%nat)) world_negative_records
           eq_refl eq_refl eq_refl eq_refl eq_refl H0 eq_refl Hl eq_refl eq_refl).
Defined.

(** ** No exception in a session driven from the panel *)

Lemma focus_unparsed index p item obj e w :
  Py.subscript_pos (List.length (topo_report_list w)) index = Some p ->
  nth_error (topo_report_list w) p = Some item ->
  active_object w = Some obj ->
  is_mesh_type (obj_type obj) = true ->
  parse_ids (element_indices item) = inl e ->
  fst (focus_execute index w) = inr FINISHED /\
  topo_report_list (snd (focus_execute index w)) = topo_report_list w /\
  active_object (snd (focus_execute index w)) = Some (in_mode EDIT obj).
Proof.
  intros Hpos Hitem Hobj Hmesh Hparse.
  unfold focus_execute.
  rewrite bind_get. cbv beta. rewrite Hpos, Hobj.
  rewrite (bind_when_mode EDIT obj _ _ Hobj (mesh_supports _ EDIT Hmesh)).
  destruct w as [rl st ao rp bms vs].
  cbn [active_object topo_report_list] in *. subst ao. norm_focus.
  rewrite (bind_item_at p item) by exact Hitem.
  destruct (String.eqb (element_indices item) "").
  - unfold report. rewrite bind_modify. norm_focus. unfold ret. repeat split.
  - rewrite Hparse. unfold ret. repeat split.
Qed.

Lemma Forall_update_nth {A : Type} (P : A -> Prop) (f : A -> A) (l : list A) : forall p,
  Forall P l -> (forall a, nth_error l p = Some a -> P (f a)) ->
  Forall P (update_nth p f l).
Proof.
  induction l as [|a l IH]; intros [|p] H Hf; cbn; auto;
    inversion H; subst; constructor; auto.
Qed.

(** X10.  With a valid index, an active mesh object and no negative cursor,
    the focus operator raises no exception: it finishes or is cancelled.
    Afterwards the report has the same length, no cursor is negative and
    the active object is still a mesh, so the same holds for the next
    invocation. *)
Theorem focus_safe index p obj w :
  Py.subscript_pos (List.length (topo_report_list w)) index = Some p ->
  active_object w = Some obj ->
  is_mesh_type (obj_type obj) = true ->
  Forall (fun it => 0 <= current_pointer it) (topo_report_list w) ->
  (exists r, fst (focus_execute index w) = inr r) /\
  List.length (topo_report_list (snd (focus_execute index w)))
    = List.length (topo_report_list w) /\
  Forall (fun it => 0 <= current_pointer it)
    (topo_report_list (snd (focus_execute index w))) /\
  exists objk,
    active_object (snd (focus_execute index w)) = Some objk /\
    is_mesh_type (obj_type objk) = true.
Proof.
  intros Hpos Hobj Hmesh Hcur.
  pose proof (subscript_pos_lt _ _ _ Hpos) as Hlt.
  destruct (nth_error (topo_report_list w) p) as [item|] eqn:Hitem;
    [|apply nth_error_None in Hitem; lia].
  assert (Hc : 0 <= current_pointer item).
  { rewrite Forall_forall in Hcur. apply Hcur. eapply nth_error_In; eauto. }
  destruct (parse_ids (element_indices item)) as [e|ids] eqn:Hparse.
  - destruct (focus_unparsed index p item obj e w Hpos Hitem Hobj Hmesh Hparse)
      as [Hr [Hl Ho]].
    split; [now exists FINISHED|]. rewrite Hl. split; [reflexivity|].
    split; [exact Hcur|]. exists (in_mode EDIT obj).
    split; [exact Ho | now rewrite in_mode_type].
  - rewrite (focus_outcome index p item ids obj w Hpos Hitem Hobj Hmesh Hparse Hc).
    destruct (parse_ids_not_empty _ _ Hparse) as [_ Hids].
    assert (Hn : 0 < Py.len ids).
    { unfold Py.len. destruct ids; [congruence | cbn; lia]. }
    pose proof (wrap_cursor_range _ _ Hn Hc) as Hw.
    destruct (select_python _ _ _) as [bm'|]; cbn [fst snd];
      unfold finished_world, cancelled_world; cbn [topo_report_list active_object].
    + split; [now exists FINISHED|]. split; [apply length_update_nth|].
      split.
      * apply Forall_update_nth; [exact Hcur|]. intros a _. cbn. lia.
      * eexists. split; [reflexivity|]. cbn [obj_type with_data].
        now rewrite in_mode_type.
    + split; [now exists CANCELLED|]. split; [apply length_update_nth|].
      split.
      * apply Forall_update_nth; [exact Hcur|]. intros a _. cbn. lia.
      * eexists. split; [reflexivity|]. cbn [obj_type with_data].
        now rewrite in_mode_type.
Qed.

Lemma focus_safe_witness :
  let index := 0 in
  let p := 0%nat in
  let obj := mesh_object "Plates" EDIT (islands [4%nat]) in
  let w := world_stale_plates in
  Py.subscript_pos (List.length (topo_report_list w)) index = Some p /\
  active_object w = Some obj /\
  is_mesh_type (obj_type obj) = true /\
  Forall (fun it => 0 <= current_pointer it) (topo_report_list w) /\
  (exists r, fst (focus_execute index w) = inr r) /\
  List.length (topo_report_list (snd (focus_execute index w)))
    = List.length (topo_report_list w) /\
  Forall (fun it => 0 <= current_pointer it)
    (topo_report_list (snd (focus_execute index w))) /\
  exists objk,
    active_object (snd (focus_execute index w)) = Some objk /\
    is_mesh_type (obj_type objk) = true.
Proof.
  cbv zeta.
  assert (Hc : Forall (fun it => 0 <= current_pointer it)
                 (topo_report_list world_stale_plates)).
  { repeat constructor. vm_compute. congruence. }
  split; [reflexivity|]. split; [reflexivity|]. split; [reflexivity|].
  split; [exact Hc|].
  exact (focus_safe 0 0%nat (mesh_object "Plates" EDIT (islands [4%nat]))
           world_stale_plates eq_refl eq_refl eq_refl Hc).
Defined.

(** The exceptions that do escape: an index outside the report raises
    [IndexError], and a missing active object raises [AttributeError];
    in both cases before anything is written. *)
Lemma focus_raises_unchanged index w :
  (Py.subscript_pos (List.length (topo_report_list w)) index = None ->
   focus_execute index w = (inl Py.IndexError, w)) /\
  (Py.subscript_pos (List.length (topo_report_list w)) index <> None ->
   active_object w = None ->
   focus_execute index w = (inl Py.AttributeError, w)).
Proof.
  split.
  - intros H. unfold focus_execute. rewrite bind_get. cbv beta. now rewrite H.
  - intros H Ho. unfold focus_execute. rewrite bind_get. cbv beta.
    destruct (Py.subscript_pos _ _); [|congruence]. now rewrite Ho.
Qed.

(* ================================================================== *)
(** * The score stays between 0 and 100                                 *)
(* ================================================================== *)

Section MantissaBound.

Lemma shr_1_digits mrs :
  Zdigits2 (shr_m (shr_1 mrs)) = Z.max 0 (Zdigits2 (shr_m mrs) - 1).
Proof.
  destruct mrs as [m r s]. cbn [shr_m].
  destruct m as [|p|p]; [reflexivity| |]; destruct p;
    cbn [shr_1 shr_m Zdigits2 digits2_pos]; rewrite ?Pos2Z.inj_succ; lia.
Qed.

Lemma iter_shr_1_digits p : forall mrs,
  Zdigits2 (shr_m (iter_pos shr_1 p mrs))
  = Z.max 0 (Zdigits2 (shr_m mrs) - Zpos p).
Proof.
  induction p as [p IH|p IH|]; intros mrs; cbn [iter_pos].
  - rewrite !IH, shr_1_digits. lia.
  - rewrite !IH. lia.
  - apply shr_1_digits.
Qed.

Lemma shr_record_of_loc_m m l : shr_m (shr_record_of_loc m l) = m.
Proof. destruct l as [|[]]; reflexivity. Qed.

(** After the shift to the exponent of the format at most 53 bits are
    left. *)
Lemma shr_fexp_digits m e l :
  Zdigits2 (shr_m (fst (shr_fexp Py.prec Py.emax m e l))) <= Py.prec.
Proof.
  unfold shr_fexp, shr.
  assert (Hf : Zdigits2 m + e - Py.prec <= fexp Py.prec Py.emax (Zdigits2 m + e))
    by (unfold fexp; lia).
  destruct (fexp Py.prec Py.emax (Zdigits2 m + e) - e) as [|p|p] eqn:E; cbn [fst].
  - rewrite shr_record_of_loc_m. lia.
  - rewrite iter_shr_1_digits, shr_record_of_loc_m. unfold Py.prec in *. lia.
  - rewrite shr_record_of_loc_m. lia.
Qed.

Lemma binary_round_aux_fits sx mx ex lx :
  mantissa_fits (binary_round_aux Py.prec Py.emax sx mx ex lx).
Proof.
  unfold binary_round_aux.
  destruct (shr_fexp Py.prec Py.emax mx ex lx) as [mrs' e'].
  pose proof (shr_fexp_digits
                (round_nearest_even (shr_m mrs') (loc_of_shr_record mrs'))
                e' loc_Exact) as H.
  destruct (shr_fexp Py.prec Py.emax
              (round_nearest_even (shr_m mrs') (loc_of_shr_record mrs'))
              e' loc_Exact) as [mrs'' e''].
  cbn [fst] in H.
  destruct (shr_m mrs'') as [|m|m]; cbn [mantissa_fits]; [exact I| |exact I].
  destruct (e'' <=? Py.emax - Py.prec); [exact H | exact I].
Qed.

Lemma binary_normalize_fits m e szero :
  mantissa_fits (binary_normalize Py.prec Py.emax m e szero).
Proof.
  destruct m as [|p|p]; cbn [binary_normalize]; [exact I| |];
    unfold binary_round;
    destruct (shl_align _ _ _) as [mz ez]; apply binary_round_aux_fits.
Qed.

Lemma float_of_int_fits z : mantissa_fits (Py.float_of_int z).
Proof. apply binary_normalize_fits. Qed.

Lemma fmul_fits x y : mantissa_fits (Py.fmul x y).
Proof.
  destruct x as [sx|sx| |sx mx ex], y as [sy|sy| |sy my ey]; try exact I.
  apply binary_round_aux_fits.
Qed.

Lemma fsub_fits x y :
  mantissa_fits x -> mantissa_fits y -> mantissa_fits (Py.fsub x y).
Proof.
  intros Hx Hy.
  destruct x as [sx|sx| |sx mx ex], y as [sy|sy| |sy my ey];
    try exact I; try exact Hx; try exact Hy.
  - destruct sx, sy; exact I.
  - destruct sx, sy; exact I.
  - apply binary_normalize_fits.
Qed.

Lemma digits2_pos_lt p : Zpos (digits2_pos p) <= 53 -> Zpos p < 2 ^ 53.
Proof.
  intros H. rewrite digits2_pos_size in H.
  pose proof (Pos.size_gt p) as Hgt.
  assert (Hz : Zpos p < 2 ^ Zpos (Pos.size p)).
  { rewrite <- Pos2Z.inj_pow. apply Pos2Z.pos_lt_pos. exact Hgt. }
  assert (Hle : 2 ^ Zpos (Pos.size p) <= 2 ^ 53)
    by (apply Z.pow_le_mono_r; lia).
  lia.
Qed.

Lemma float_of_int_100 :
  Py.float_of_int 100 = S754_finite false 7036874417766400 (-46).
Proof. vm_compute. reflexivity. Qed.

Lemma mantissa_100 : Zpos 7036874417766400 = 100 * 2 ^ 46.
Proof. vm_compute. reflexivity. Qed.

Lemma pow2_53_47 : 2 ^ 53 = 64 * 2 ^ 47.
Proof. vm_compute. reflexivity. Qed.

Lemma div_below a b q : 0 <= a -> 0 < b -> a < b * q -> 0 <= a / b <= q.
Proof.
  intros Ha Hb Hq. split.
  - apply Z.div_pos; assumption.
  - apply Z.lt_le_incl, Z.div_lt_upper_bound; assumption.
Qed.

Lemma lt_of_compare_cont m q : Pos.compare_cont Eq m q = Lt -> Zpos m < Zpos q.
Proof.
  intros H. apply Pos2Z.pos_lt_pos. apply Pos.compare_lt_iff. exact H.
Qed.

(** The order of two positive finite floats, as [SFltb] decides it. *)
Lemma sfltb_pos m e q f :
  SFltb (S754_finite false m e) (S754_finite false q f) = true ->
  e < f \/ (e = f /\ Zpos m < Zpos q).
Proof.
  unfold SFltb, SFcompare.
  destruct (Z.compare_spec e f) as [He|He|He].
  - destruct (Pos.compare_cont Eq m q) eqn:Ec; try discriminate.
    intros _. right. split; [exact He|]. now apply lt_of_compare_cont.
  - intros _. now left.
  - discriminate.
Qed.

(** A positive float that compares below 100.0 and whose mantissa fits
    has an integer part between 0 and 100. *)
Lemma below_100_trunc m e :
  Zpos m < 2 ^ 53 ->
  SFltb (S754_finite false m e) (S754_finite false 7036874417766400 (-46)) = true ->
  0 <= Z.shiftl (Zpos m) e <= 100.
Proof.
  intros Hfit E1. apply sfltb_pos in E1. destruct E1 as [He | [He Hm]].
  - rewrite Z.shiftl_div_pow2 by lia.
    assert (Hp : 2 ^ 47 <= 2 ^ (- e)) by (apply Z.pow_le_mono_r; lia).
    assert (H0 : 0 < 2 ^ 47) by (apply Z.pow_pos_nonneg; lia).
    rewrite pow2_53_47 in Hfit.
    generalize dependent (2 ^ (- e)). generalize dependent (2 ^ 47).
    intros Q Hfit H0 P Hp.
    apply div_below; [apply Pos2Z.is_nonneg | lia | lia].
  - rewrite mantissa_100 in Hm.
    rewrite Z.shiftl_div_pow2 by lia.
    replace (- e) with 46 by lia.
    assert (H0 : 0 < 2 ^ 46) by (apply Z.pow_pos_nonneg; lia).
    generalize dependent (2 ^ 46). intros P Hm H0.
    apply div_below; [apply Pos2Z.is_nonneg | exact H0 | lia].
Qed.

(** The clamp of a float whose mantissa fits is between 0 and 100. *)
Lemma clamp_score_range cs : mantissa_fits cs -> 0 <= clamp_score cs <= 100.
Proof.
  intros Hfit. unfold clamp_score.
  destruct (Py.flt cs (Py.float_of_int 100)) eqn:E1; [|lia].
  destruct (Py.flt (Py.float_of_int 0) cs) eqn:E2; [|lia].
  destruct cs as [s|s| |s m e]; try lia.
  destruct s; [discriminate E2|].
  cbn [cond_Zopp]. cbn [mantissa_fits] in Hfit.
  apply digits2_pos_lt in Hfit.
  rewrite float_of_int_100 in E1.
  exact (below_100_trunc m e Hfit E1).
Qed.

End MantissaBound.

(** Whatever the counts, the score of the scoring lines is between 0
    and 100. *)
Lemma score_binary64_range ngons bad slivers total :
  0 <= score_binary64 ngons bad slivers total <= 100.
Proof.
  unfold score_binary64. cbv zeta. apply clamp_score_range.
  apply fsub_fits; [|apply fmul_fits].
  destruct bad.
  - apply fsub_fits; [|apply float_of_int_fits].
    apply fsub_fits; [apply float_of_int_fits | apply fmul_fits].
  - apply fsub_fits; [apply float_of_int_fits | apply fmul_fits].
Qed.

(** X11.  A health score between 0 and 100 stays between 0 and 100 through
    every invocation of the analysis operator, on every path: a
    completed analysis stores a clamped score, whatever the mesh, and
    the cancelled and the zero-face paths keep the stored one. *)
Theorem analyze_score_in_range w :
  0 <= score (topo_stats w) <= 100 ->
  0 <= score (topo_stats (snd (analyze_execute w))) <= 100.
Proof.
  intros H.
  destruct (analyze_cases w) as [Hn | [[obj [Ho [Hm Hf]]] | [obj [Ho [Hm Hf]]]]].
  - rewrite (analyze_without_mesh w Hn). destruct w; exact H.
  - rewrite (analyze_without_faces w obj Ho Hm Hf). destruct w; exact H.
  - rewrite (analyze_on_faces w obj Ho Hm Hf). cbn [snd].
    rewrite analyzed_world_stats. cbn [analyzed_stats score].
    apply score_binary64_range.
Qed.

Lemma analyze_score_in_range_witness :
  let w := world_thin_triangle in
  0 <= score (topo_stats w) <= 100 /\
  0 <= score (topo_stats (snd (analyze_execute w))) <= 100.
Proof.
  cbv zeta.
  assert (H : 0 <= score (topo_stats world_thin_triangle) <= 100)
    by (vm_compute; split; discriminate).
  split; [exact H|].
  exact (analyze_score_in_range world_thin_triangle H).
Defined.

(** X12.  A mesh with faces needs no assumption on the stored score: the
    score written by a completed analysis is between 0 and 100. *)
Theorem analyze_completed_score_in_range w obj :
  active_object w = Some obj ->
  is_mesh_type (obj_type obj) = true ->
  bm_faces (obj_data obj) <> [] ->
  0 <= score (topo_stats (snd (analyze_execute w))) <= 100.
Proof.
  intros Ho Hm Hf.
  rewrite (analyze_on_faces w obj Ho Hm Hf). cbn [snd].
  rewrite analyzed_world_stats. cbn [analyzed_stats score].
  apply score_binary64_range.
Qed.

Lemma analyze_completed_score_in_range_witness :
  let w := world_quads_and_pentagons in
  let obj := mesh_object "Plates" OBJECT quads_and_pentagons in
  active_object w = Some obj /\
  is_mesh_type (obj_type obj) = true /\
  bm_faces (obj_data obj) <> [] /\
  0 <= score (topo_stats (snd (analyze_execute w))) <= 100.
Proof.
  cbv zeta.
  assert (Hf : bm_faces (obj_data (mesh_object "Plates" OBJECT quads_and_pentagons)) <> [])
    by discriminate.
  split; [reflexivity|]. split; [reflexivity|]. split; [exact Hf|].
  exact (analyze_completed_score_in_range world_quads_and_pentagons
           (mesh_object "Plates" OBJECT quads_and_pentagons) eq_refl eq_refl Hf).
Defined.
(* ================================================================== *)
(** * The panel                                                         *)
(* ================================================================== *)

Section PanelFacts.

Variable wrap : string -> Z -> list string.

Lemma labels_no_buttons (f : string -> string) (lines : list string) :
  flat_map focus_buttons_of (map (fun line => Label (f line) "NONE") lines) = [].
Proof. induction lines as [|l lines IH]; [reflexivity | exact IH]. Qed.

(** The box of a record carries one focus button, with the position of
    the record, when the record has elements, and none otherwise; the
    wrapped description adds none. *)
Lemma focus_buttons_of_issue i it :
  focus_buttons_of (draw_issue wrap i it)
  = if String.eqb (element_indices it) "" then [] else [Z.of_nat i].
Proof.
  unfold draw_issue. cbn [focus_buttons_of flat_map].
  rewrite (labels_no_buttons (fun line => " " ++ line)).
  rewrite !flat_map_app. cbn [flat_map focus_buttons_of].
  destruct (String.eqb (element_indices it) ""); reflexivity.
Qed.

Lemma focus_buttons_issues (l : list (nat * TopoIssueItem)) :
  flat_map focus_buttons_of (map (fun x => draw_issue wrap (fst x) (snd x)) l)
  = map (fun x => Z.of_nat (fst x))
      (filter (fun x => negb (String.eqb (element_indices (snd x)) "")) l).
Proof.
  induction l as [|[i it] l IH]; [reflexivity|].
  cbn [map flat_map filter fst snd]. rewrite focus_buttons_of_issue, IH.
  destruct (String.eqb (element_indices it) ""); reflexivity.
Qed.

Lemma focus_buttons_draw w :
  focus_buttons (draw wrap w)
  = if String.eqb (target_name (topo_stats w)) "" then []
    else focusable (topo_report_list w).
Proof.
  unfold draw, focus_buttons, focusable. cbv zeta.
  destruct (String.eqb (target_name (topo_stats w)) ""); [reflexivity|].
  rewrite flat_map_app. rewrite focus_buttons_issues. reflexivity.
Qed.

Lemma draw_named w :
  target_name (topo_stats w) <> "" ->
  draw wrap w
  = ([analyze_button; health_box (score (topo_stats w)); issues_label]
     ++ map (fun x => draw_issue wrap (fst x) (snd x))
          (Py.enumerate (topo_report_list w)))%list.
Proof.
  intros Hne. unfold draw. cbv zeta.
  destruct (String.eqb_spec (target_name (topo_stats w)) ""); [contradiction|].
  reflexivity.
Qed.

End PanelFacts.

Lemma In_combine_seq {A : Type} (l : list A) : forall s i a,
  In (i, a) (combine (seq s (List.length l)) l)
  <-> (s <= i)%nat /\ nth_error l (i - s) = Some a.
Proof.
  induction l as [|b l IH]; intros s i a; cbn [List.length seq combine In].
  - split; [contradiction|]. intros [_ H]. destruct (i - s)%nat; discriminate.
  - rewrite IH. split.
    + intros [E | [Hs Hn]].
      * inversion E; subst. rewrite Nat.sub_diag. split; [lia | reflexivity].
      * split; [lia|]. replace (i - s)%nat with (S (i - S s)) by lia. exact Hn.
    + intros [Hs Hn]. destruct (Nat.eq_dec i s) as [->|Hne].
      * rewrite Nat.sub_diag in Hn. cbn in Hn. left. congruence.
      * right. split; [lia|].
        replace (i - s)%nat with (S (i - S s)) in Hn by lia. exact Hn.
Qed.

Lemma In_focusable l i :
  In i (focusable l) <->
  exists p it, i = Z.of_nat p /\ nth_error l p = Some it /\ element_indices it <> "".
Proof.
  unfold focusable, Py.enumerate. rewrite in_map_iff. split.
  - intros [[p it] [<- Hin]]. apply filter_In in Hin as [Hin Hne].
    apply In_combine_seq in Hin as [_ Hn]. rewrite Nat.sub_0_r in Hn.
    cbn [fst snd] in *. exists p, it. split; [reflexivity|]. split; [exact Hn|].
    intros E. rewrite E in Hne. discriminate.
  - intros [p [it [-> [Hn Hne]]]]. exists (p, it). split; [reflexivity|].
    apply filter_In. split.
    + apply In_combine_seq. rewrite Nat.sub_0_r. split; [lia | exact Hn].
    + cbn [snd]. destruct (String.eqb_spec (element_indices it) ""); [contradiction|].
      reflexivity.
Qed.

(** X13.  The panel offers a focus button exactly for the records that have
    elements to select, once a target name is stored, and each button
    carries the position of its record in the report list: the index
    that the focus operator subscripts the list with.  Without a target
    name it offers none. *)
Theorem panel_focus_buttons (wrap : string -> Z -> list string) w i :
  In i (focus_buttons (draw wrap w)) <->
  target_name (topo_stats w) <> "" /\
  exists p it,
    i = Z.of_nat p /\
    Py.subscript_pos (List.length (topo_report_list w)) i = Some p /\
    nth_error (topo_report_list w) p = Some it /\
    element_indices it <> "".
Proof.
  rewrite focus_buttons_draw.
  destruct (String.eqb_spec (target_name (topo_stats w)) "") as [E|E].
  - split; [contradiction|]. intros [H _]. contradiction.
  - rewrite In_focusable. split.
    + intros [p [it [-> [Hn Hne]]]]. split; [exact E|]. exists p, it.
      split; [reflexivity|]. split; [|now split].
      apply subscript_pos_of_nat. apply nth_error_Some. congruence.
    + intros [_ [p [it [-> [_ [Hn Hne]]]]]]. now exists p, it.
Qed.

Lemma focusable_all l :
  Forall (fun it => element_indices it <> "") l ->
  focusable l = map Z.of_nat (seq 0 (List.length l)).
Proof.
  unfold focusable, Py.enumerate. generalize 0%nat.
  induction l as [|it l IH]; intros s H; [reflexivity|].
  inversion H as [|? ? Hne Hl]; subst.
  cbn [List.length seq combine filter snd].
  destruct (String.eqb_spec (element_indices it) ""); [contradiction|].
  cbn [negb map fst]. now rewrite IH.
Qed.

Lemma in_mode_mode m obj : obj_mode (in_mode m obj) = m.
Proof.
  unfold in_mode. destruct (mode_eqb (obj_mode obj) m) eqn:E; [|reflexivity].
  destruct (obj_mode obj), m; try discriminate; reflexivity.
Qed.

Lemma analyzed_report_cases bm :
  (defect_issues bm = [] /\ analyzed_report bm = [good_issue]) \/
  (defect_issues bm <> [] /\ analyzed_report bm = defect_issues bm).
Proof.
  unfold analyzed_report. destruct (defect_issues bm); cbn [nonempty].
  - now left.
  - right. split; [discriminate | reflexivity].
Qed.

(** X14.  After a completed analysis of an object with a name, the panel
    offers no focus button when the report is the one GOOD record, and
    otherwise one button for every record, numbered from 0 in the order
    of the report.  When the mesh has no hidden element and tables of
    fewer than 2^53 entries, pressing any of the buttons right away
    finishes in edit mode with exactly the first element of that
    record's list selected in the table of its type, and reports it. *)
Theorem panel_after_analysis (wrap : string -> Z -> list string) w obj :
  active_object w = Some obj ->
  is_mesh_type (obj_type obj) = true ->
  bm_faces (obj_data obj) <> [] ->
  obj_name obj <> "" ->
  (topo_report_list (snd (analyze_execute w)) = [good_issue] /\
   focus_buttons (draw wrap (snd (analyze_execute w))) = [] \/
   topo_report_list (snd (analyze_execute w)) <> [good_issue] /\
   focus_buttons (draw wrap (snd (analyze_execute w)))
     = map Z.of_nat
         (seq 0 (List.length (topo_report_list (snd (analyze_execute w)))))) /\
  (host_sized (obj_data obj) ->
   nothing_hidden (obj_data obj) = true ->
   forall i,
    In i (focus_buttons (draw wrap (snd (analyze_execute w)))) ->
    fst (focus_execute i (snd (analyze_execute w))) = inr FINISHED /\
    exists it ids objk,
      nth_error (topo_report_list (snd (analyze_execute w))) (Z.to_nat i) = Some it /\
      parse_ids (element_indices it) = inr ids /\
      active_object (snd (focus_execute i (snd (analyze_execute w)))) = Some objk /\
      obj_mode objk = EDIT /\
      selected_of (element_type it) (obj_data objk) = [nth 0 ids 0] /\
      reports (snd (focus_execute i (snd (analyze_execute w))))
        = (reports (snd (analyze_execute w)) ++
           [(INFO, focus_message (element_type it) (nth 0 ids 0) 1 (Py.len ids))])%list).
Proof.
  intros Hobj Hmesh Hfaces Hname.
  rewrite (analyze_on_faces w obj Hobj Hmesh Hfaces). cbn [snd].
  set (w' := set_stats _ _).
  assert (Hrl : topo_report_list w' = analyzed_report (obj_data obj))
    by apply analyzed_world_report.
  assert (Hst : topo_stats w' = analyzed_stats (obj_name obj) (obj_data obj))
    by apply analyzed_world_stats.
  assert (Hobj' : active_object w' = Some obj) by (destruct w; exact Hobj).
  assert (Hb : focus_buttons (draw wrap w') = focusable (analyzed_report (obj_data obj))).
  { rewrite focus_buttons_draw, Hst, Hrl. cbn [analyzed_stats target_name].
    destruct (String.eqb_spec (obj_name obj) ""); [contradiction | reflexivity]. }
  rewrite Hb, Hrl. split.
  - destruct (analyzed_report_cases (obj_data obj)) as [[Hd ->] | [Hd Hr]].
    + left. split; reflexivity.
    + right. rewrite Hr. split.
      * intros E. pose proof (defect_issues_records (obj_data obj)) as Hrec.
        rewrite E in Hrec. inversion Hrec as [|? ? [Hne _] _]; subst.
        now apply Hne.
      * apply focusable_all.
        eapply Forall_impl; [|apply defect_issues_records].
        intros it [Hne _]. exact Hne.
  - intros Hsize Hshown i Hi. apply In_focusable in Hi as [p [it [-> [Hn Hne]]]].
    rewrite Nat2Z.id.
    assert (Hin : In it (defect_issues (obj_data obj))).
    { apply analyzed_report_defect; [|exact Hne]. eapply nth_error_In; eauto. }
    destruct (defect_issue_targets _ _ Hsize Hin) as [Hc [Hty [ids [Hp [Hbd _]]]]].
    destruct (parse_ids_not_empty _ _ Hp) as [_ Hids].
    assert (Hlen : 0 < Py.len ids).
    { unfold Py.len. destruct ids; [congruence | cbn; lia]. }
    assert (Hw : wrap_cursor (Py.len ids) (current_pointer it) = 0).
    { rewrite Hc. unfold wrap_cursor. destruct (Z.leb_spec (Py.len ids) 0); [lia|].
      reflexivity. }
    assert (Ht : 0 <= nth 0 ids 0 < table_len (element_type it) (obj_data obj)).
    { rewrite Forall_forall in Hbd. apply Hbd.
      destruct ids; [congruence | now left]. }
    assert (Hpos : Py.subscript_pos (List.length (topo_report_list w')) (Z.of_nat p)
                   = Some p).
    { apply subscript_pos_of_nat. rewrite Hrl. apply nth_error_Some. congruence. }
    assert (Hitem : nth_error (topo_report_list w') p = Some it) by now rewrite Hrl.
    rewrite (focus_selects (Z.of_nat p) p it ids obj w' Hpos Hitem Hobj' Hmesh Hp)
      by (rewrite ?Hw, ?Hc; cbn [Z.to_nat]; lia).
    cbn [fst snd]. split; [reflexivity|].
    unfold focused_world. cbv zeta. rewrite Hw. cbn [Z.to_nat active_object reports].
    eexists it, ids, _. split; [exact Hn|]. split; [exact Hp|].
    split; [reflexivity|]. split.
    + cbn [with_data obj_mode]. apply in_mode_mode.
    + split; [|reflexivity].
      cbn [with_data obj_data].
      exact (select_checked_selected (element_type it) (nth 0 ids 0)
               (obj_data obj) Hty Ht (nothing_hidden_unselected _ Hshown)
               (nothing_hidden_at _ _ _ Hshown)).
Qed.

Lemma panel_after_analysis_witness :
  let wrap := one_line in
  let w := world_of [] default_stats (Some (mesh_object "Plates" OBJECT ten_plates)) in
  let obj := mesh_object "Plates" OBJECT ten_plates in
  active_object w = Some obj /\
  is_mesh_type (obj_type obj) = true /\
  bm_faces (obj_data obj) <> [] /\
  obj_name obj <> "" /\
  (topo_report_list (snd (analyze_execute w)) = [good_issue] /\
   focus_buttons (draw wrap (snd (analyze_execute w))) = [] \/
   topo_report_list (snd (analyze_execute w)) <> [good_issue] /\
   focus_buttons (draw wrap (snd (analyze_execute w)))
     = map Z.of_nat
         (seq 0 (List.length (topo_report_list (snd (analyze_execute w)))))) /\
  host_sized (obj_data obj) /\
  nothing_hidden (obj_data obj) = true /\
  forall i,
    In i (focus_buttons (draw wrap (snd (analyze_execute w)))) ->
    fst (focus_execute i (snd (analyze_execute w))) = inr FINISHED /\
    exists it ids objk,
      nth_error (topo_report_list (snd (analyze_execute w))) (Z.to_nat i) = Some it /\
      parse_ids (element_indices it) = inr ids /\
      active_object (snd (focus_execute i (snd (analyze_execute w)))) = Some objk /\
      obj_mode objk = EDIT /\
      selected_of (element_type it) (obj_data objk) = [nth 0 ids 0] /\
      reports (snd (focus_execute i (snd (analyze_execute w))))
        = (reports (snd (analyze_execute w)) ++
           [(INFO, focus_message (element_type it) (nth 0 ids 0) 1 (Py.len ids))])%list.
Proof.
  cbv zeta.
  assert (Hf : bm_faces (obj_data (mesh_object "Plates" OBJECT ten_plates)) <> [])
    by discriminate.
  assert (Hn : obj_name (mesh_object "Plates" OBJECT ten_plates) <> "")
    by discriminate.
  split; [reflexivity|]. split; [reflexivity|]. split; [exact Hf|].
  split; [exact Hn|].
  destruct (panel_after_analysis one_line
              (world_of [] default_stats (Some (mesh_object "Plates" OBJECT ten_plates)))
              (mesh_object "Plates" OBJECT ten_plates) eq_refl eq_refl Hf Hn)
    as [Hbuttons Hpress].
  split; [exact Hbuttons|]. split; [exact host_sized_ten_plates|].
  split; [reflexivity|].
  exact (Hpress host_sized_ten_plates eq_refl).
Defined.

(** X15.  When the analysis ends before the checks (no mesh object is active,
    or the mesh has no face) and a target name is stored afterwards,
    the panel shows the health box of the score that was stored before
    the invocation, under the heading of the issues, and no issue at
    all: not even the GOOD record. *)
Theorem panel_after_incomplete_analysis (wrap : string -> Z -> list string) w :
  analysis_incomplete w ->
  target_name (topo_stats (snd (analyze_execute w))) <> "" ->
  draw wrap (snd (analyze_execute w)) = panel_without_issues (score (topo_stats w)).
Proof.
  intros Hinc Hne. rewrite (draw_named wrap _ Hne). clear Hne.
  destruct Hinc as [Hn | [obj [Ho [Hm Hf]]]].
  - rewrite (analyze_without_mesh w Hn). destruct w; reflexivity.
  - rewrite (analyze_without_faces w obj Ho Hm Hf). destruct w; reflexivity.
Qed.

Lemma panel_after_incomplete_analysis_witness :
  let wrap := one_line in
  let w := world_faceless_edit in
  analysis_incomplete w /\
  target_name (topo_stats (snd (analyze_execute w))) <> "" /\
  draw wrap (snd (analyze_execute w)) = panel_without_issues (score (topo_stats w)).
Proof.
  cbv zeta.
  assert (Hi : analysis_incomplete world_faceless_edit).
  { right. exists (mesh_object "Dots" EDIT loose_verts). repeat split. }
  assert (Hn : target_name (topo_stats (snd (analyze_execute world_faceless_edit))) <> "")
    by (vm_compute; discriminate).
  split; [exact Hi|]. split; [exact Hn|].
  exact (panel_after_incomplete_analysis one_line world_faceless_edit Hi Hn).
Defined.
(** ** The host's refusals, on concrete states *)

(** An object whose type has no edit mode: [mode_set] raises
    [TypeError] at the first statement that needs the mode, and nothing
    has been written. *)
Lemma focus_unsupported_object index p obj w :
  Py.subscript_pos (List.length (topo_report_list w)) index = Some p ->
  active_object w = Some obj ->
  mode_eqb (obj_mode obj) EDIT = false ->
  supports_mode (obj_type obj) EDIT = false ->
  focus_execute index w = (inl Py.TypeError, w).
Proof.
  intros Hpos Hobj Hmode Hs. unfold focus_execute.
  rewrite bind_get. cbv beta. rewrite Hpos, Hobj.
  now rewrite (bind_when_mode_unsupported EDIT obj _ _ Hobj Hmode Hs).
Qed.

(** With a camera active the focus operator raises [TypeError]: the
    camera stays in object mode, and nothing is reported. *)
Example focus_on_camera_raises :
  focus_execute 0 world_camera_active = (inl Py.TypeError, world_camera_active).
Proof.
  apply (focus_unsupported_object 0 0%nat
           {| obj_name := "Camera"; obj_type := CAMERA; obj_mode := OBJECT;
              obj_data := islands [] |} world_camera_active); reflexivity.
Qed.

(** A hidden target: the writes of the flags are ignored, on the face
    and on its vertices, and the operator still finishes and reports
    the target as selected. *)
Example focus_on_hidden_face :
  fst (focus_execute 0 world_hidden_plate) = inr FINISHED /\
  reports (snd (focus_execute 0 world_hidden_plate))
    = [(INFO, "Selected FACE #2 (1/3)")] /\
  pointer_at 0 (snd (focus_execute 0 world_hidden_plate)) = Some 1 /\
  map (fun ty => option_map (selected_of ty)
                   (active_data (snd (focus_execute 0 world_hidden_plate))))
      ["FACE"; "EDGE"; "VERT"]
    = [Some []; Some []; Some []].
Proof. vm_compute. repeat split. Qed.

(** A hidden face that a script has selected stays selected through
    the deselection, also when the operator is cancelled. *)
Example focus_keeps_scripted_flags :
  fst (focus_execute 0 world_scripted_flags) = inr CANCELLED /\
  option_map (selected_of "FACE") (active_data (snd (focus_execute 0 world_scripted_flags)))
    = Some [0] /\
  option_map (stuck_selected "FACE") (active_data world_scripted_flags) = Some [0].
Proof. vm_compute. repeat split. Qed.

(** [int] does not strip the separator of code 28: the list fails to
    parse, and the operator returns without a report. *)
Example focus_on_separator_is_silent :
  Py.int (String (ascii_of_nat 28) "2") = inl Py.ValueError /\
  parse_ids (element_indices separator_record) = inl Py.ValueError /\
  fst (focus_execute 0 world_separator_record) = inr FINISHED /\
  reports (snd (focus_execute 0 world_separator_record)) = [] /\
  pointer_at 0 (snd (focus_execute 0 world_separator_record)) = Some 0.
Proof. vm_compute. repeat split. Qed.

(** [int] takes the white space of the Latin-1 range that it does
    strip: tab to carriage return, space, next line and no-break
    space. *)
Example int_strips_white_space :
  map (fun n => Py.int (String (ascii_of_nat n) "2")) [9; 10; 11; 12; 13; 32; 133; 160]%nat
    = repeat (inr 2) 8 /\
  map (fun n => Py.int (String (ascii_of_nat n) "2")) [8; 14; 28; 29; 30; 31; 33]%nat
    = repeat (inl Py.ValueError) 7.
Proof. vm_compute. split; reflexivity. Qed.

(** The limit of the conversion: 4300 digits are read, 4301 are
    refused. *)
Example int_digit_limit :
  (exists z, Py.int (sevens 4300) = inr z) /\
  Py.int (sevens 4301) = inl Py.ValueError.
Proof.
  split.
  - destruct (Py.int (sevens 4300)) as [e|z] eqn:E; [|now exists z].
    exfalso. revert E. vm_compute. discriminate.
  - vm_compute. reflexivity.
Qed.
